(** * Infographic animator: tabular ingestion, chart aggregation, ER text parser

    A shallow embedding of the data paths of the chart builder
    ([client/pages/FileToChart.tsx]), the animation studio
    ([client/pages/AnimateChart.tsx]) and the ER-diagram generator
    ([parseTextToER], the layout, the fit and the zoom) and of the
    class-name helpers ([client/lib/utils.ts]), followed by the properties
    established about them.

    Conventions of the embedding.
    - A JavaScript string is a [string]; every character stands for one code
      unit below 256 (ASCII and Latin-1).
    - A JavaScript Number is a binary64 value, [spec_float] at precision 53 and
      maximal exponent 1024, with the operations of [SpecFloat]; decimal
      literals are rounded to nearest, and Numbers print with the fewest
      digits that read back.
    - An object used as a dictionary is the ordered list of its own
      properties, in the order [Object.keys] reports them (array-index keys
      first, ascending, then the other keys by first insertion).  Members
      inherited from [Object.prototype] are outside the model.
    - A [Map] is an association list in first-insertion order.
    - React state is passed explicitly: a handler takes the page state and
      returns the next one.  Timers, generated identifiers, timestamps and
      the chart instance on the canvas are left out.
    - What depends on the engine or its environment (dates, [JSON.parse]) is
      a parameter, [JS.Host]; the properties hold for every host. *)

From Stdlib Require Import List Bool Arith ZArith Lia Ascii String SpecFloat.
From Stdlib Require Import Permutation.
Import ListNotations.

Local Open Scope list_scope.
Local Open Scope string_scope.

(* ================================================================== *)
(** * The JavaScript fragment used by the sources *)
(* ================================================================== *)

Module JS.

(** ** Code units *)

Definition code (c : ascii) : N := N_of_ascii c.

Definition between (lo hi : N) (c : ascii) : bool :=
  (lo <=? code c)%N && (code c <=? hi)%N.

(** WhiteSpace and LineTerminator code units below 256, as used by
    [String.prototype.trim], by [\s] and by the numeric conversions. *)
Definition isWhiteSpace (c : ascii) : bool :=
  between 9 13 c || (code c =? 32)%N || (code c =? 160)%N.

Definition isLineTerminator (c : ascii) : bool :=
  (code c =? 10)%N || (code c =? 13)%N.

Definition isDigit (c : ascii) : bool := between 48 57 c.

(** [\w] without the [i] and [u] flags. *)
Definition isWord (c : ascii) : bool :=
  isDigit c || between 65 90 c || between 97 122 c || (code c =? 95)%N.

Definition toLowerChar (c : ascii) : ascii :=
  if between 65 90 c || (between 192 222 c && negb (code c =? 215)%N)
  then ascii_of_N (code c + 32) else c.

(** Upper-casing is only ever applied to word characters here. *)
Definition toUpperChar (c : ascii) : ascii :=
  if between 97 122 c then ascii_of_N (code c - 32) else c.

(** ** Strings *)

Fixpoint smap (f : ascii -> ascii) (s : string) : string :=
  match s with
  | EmptyString => EmptyString
  | String c r => String (f c) (smap f r)
  end.

Definition toLowerCase : string -> string := smap toLowerChar.
Definition toUpperCase : string -> string := smap toUpperChar.

Fixpoint trimStart (s : string) : string :=
  match s with
  | EmptyString => EmptyString
  | String c r => if isWhiteSpace c then trimStart r else s
  end.

Fixpoint trimEnd (s : string) : string :=
  match s with
  | EmptyString => EmptyString
  | String c r =>
      match trimEnd r with
      | EmptyString => if isWhiteSpace c then EmptyString else String c EmptyString
      | r' => String c r'
      end
  end.

Definition trim (s : string) : string := trimEnd (trimStart s).

(** [s.split(sep)] for a one-character separator. *)
Fixpoint split (sep : ascii) (s : string) : list string :=
  match s with
  | EmptyString => [EmptyString]
  | String c r =>
      if Ascii.eqb c sep then EmptyString :: split sep r
      else match split sep r with
           | h :: t => String c h :: t
           | [] => [String c EmptyString]
           end
  end.

Fixpoint startsWith (p s : string) : bool :=
  match p, s with
  | EmptyString, _ => true
  | String a p', String b s' => Ascii.eqb a b && startsWith p' s'
  | String _ _, EmptyString => false
  end.

Fixpoint includes (sub s : string) : bool :=
  startsWith sub s ||
  match s with
  | EmptyString => false
  | String _ r => includes sub r
  end.

Fixpoint drop (n : nat) (s : string) : string :=
  match n, s with
  | O, _ => s
  | S n', String _ r => drop n' r
  | S _, EmptyString => EmptyString
  end.

Definition endsWith (suffix s : string) : bool :=
  (String.length suffix <=? String.length s)%nat &&
  String.eqb (drop (String.length s - String.length suffix) s) suffix.

(** [s.replace(/c/g, by)] for a one-character pattern. *)
Fixpoint replaceAllChar (c : ascii) (by_ : string) (s : string) : string :=
  match s with
  | EmptyString => EmptyString
  | String d r =>
      if Ascii.eqb d c then by_ ++ replaceAllChar c by_ r
      else String d (replaceAllChar c by_ r)
  end.

(** [s.replace(pat, by)] for a string pattern: the first occurrence only. *)
Fixpoint replaceFirst (pat by_ : string) (s : string) : string :=
  if startsWith pat s then by_ ++ drop (String.length pat) s
  else match s with
       | EmptyString => EmptyString
       | String c r => String c (replaceFirst pat by_ r)
       end.

(** The double quote, and a string between double quotes. *)
Definition dquote : ascii := "034".
Definition quoted (s : string) : string :=
  String dquote (s ++ String dquote EmptyString).

Fixpoint concat (l : list string) : string :=
  match l with
  | [] => EmptyString
  | s :: r => s ++ concat r
  end.

(** [l.join(sep)] *)
Fixpoint join (sep : string) (l : list string) : string :=
  match l with
  | [] => EmptyString
  | [s] => s
  | s :: r => s ++ sep ++ join sep r
  end.

(** ** Numbers *)

Definition number := spec_float.
Definition prec : Z := 53.
Definition emax : Z := 1024.

Definition NaN : number := S754_nan.
Definition Infinity : number := S754_infinity false.
Definition zero : number := S754_zero false.

Definition ofZ (z : Z) : number := binary_normalize prec emax z 0 false.
Definition ofNat (n : nat) : number := ofZ (Z.of_nat n).

Definition add : number -> number -> number := SFadd prec emax.
Definition sub : number -> number -> number := SFsub prec emax.
Definition mul : number -> number -> number := SFmul prec emax.
Definition div : number -> number -> number := SFdiv prec emax.
Definition ltb : number -> number -> bool := SFltb.

Definition isNaN (x : number) : bool :=
  match x with S754_nan => true | _ => false end.

(** [Number.isFinite] *)
Definition isFinite (x : number) : bool :=
  match x with S754_nan | S754_infinity _ => false | _ => true end.

(** [Number.isInteger] *)
Definition isInteger (x : number) : bool :=
  match x with
  | S754_zero _ => true
  | S754_finite _ m e => (0 <=? e)%Z || (Zpos m mod 2 ^ (- e) =? 0)%Z
  | _ => false
  end.

Definition sameNumber (x y : number) : bool :=
  match x, y with
  | S754_finite s m e, S754_finite s' m' e' =>
      Bool.eqb s s' && Pos.eqb m m' && Z.eqb e e'
  | S754_zero s, S754_zero s' => Bool.eqb s s'
  | S754_infinity s, S754_infinity s' => Bool.eqb s s'
  | S754_nan, S754_nan => true
  | _, _ => false
  end.

(** [Math.min] and [Math.max] of two arguments: NaN wins, and -0 is below +0. *)
Definition min2 (x y : number) : number :=
  match x, y with
  | S754_nan, _ | _, S754_nan => S754_nan
  | S754_zero sx, S754_zero sy => S754_zero (sx || sy)
  | _, _ => if SFltb y x then y else x
  end.

Definition max2 (x y : number) : number :=
  match x, y with
  | S754_nan, _ | _, S754_nan => S754_nan
  | S754_zero sx, S754_zero sy => S754_zero (sx && sy)
  | _, _ => if SFltb x y then y else x
  end.

(** The Number nearest to [m * 10^e] (sign [neg]), ties to even: the
    rounding of a decimal literal. *)
Definition ofDecimal (neg : bool) (m e : Z) : number :=
  match m with
  | Zpos p =>
      if (0 <=? e)%Z then binary_round prec emax neg (Z.to_pos (Zpos p * 10 ^ e)) 0
      else
        let '(q, e', l) := SFdiv_core_binary prec emax (Zpos p) 0 (10 ^ (- e)) 0 in
        binary_round_aux prec emax neg q e' l
  | _ => S754_zero neg
  end.

(** *** Number::toString *)

Definition digitChar (d : Z) : ascii := ascii_of_N (48 + Z.to_N d).

Fixpoint digitsLoop (fuel : nat) (n : Z) (acc : string) : string :=
  let acc' := String (digitChar (n mod 10)) acc in
  match fuel with
  | O => acc'
  | S f => if (n <? 10)%Z then acc' else digitsLoop f (n / 10) acc'
  end.

(** Decimal digits of a non-negative integer, most significant first. *)
Definition digitsOfZ (n : Z) : string :=
  digitsLoop (Z.to_nat (Z.log2 n)) n EmptyString.

Fixpoint zeros (n : nat) : string :=
  match n with O => EmptyString | S k => String "0" (zeros k) end.

(** Smallest [j >= 1] with [m * 10^j >= d], for a value [m / d] below one. *)
Fixpoint firstDigitPos (fuel : nat) (m d : Z) (j : Z) : Z :=
  match fuel with
  | O => j
  | S f => if (d <=? m * 10)%Z then j else firstDigitPos f (m * 10) d (j + 1)
  end.

(** The [n] of Number::toString: [10^(n-1) <= num/den < 10^n]. *)
Definition decimalExponent (num den : Z) : Z :=
  let i := (num / den)%Z in
  if (1 <=? i)%Z then Z.of_nat (String.length (digitsOfZ i))
  else (1 - firstDigitPos 400 num den 1)%Z.

(** [num/den] scaled by [10^(k-n)], as a fraction: its integer part has the
    first [k] digits of the value. *)
Definition scaleTo (num den n k : Z) : Z * Z :=
  let sc := (k - n)%Z in
  if (0 <=? sc)%Z then ((num * 10 ^ sc)%Z, den) else (num, (den * 10 ^ (- sc))%Z).

(** The [k]-digit decimals next to [num/den] that read back as [x]; of two,
    the nearer one, the even one on a tie. *)
Definition candidate (x : number) (num den n k : Z) : option (Z * Z) :=
  let '(num', den') := scaleTo num den n k in
  let lo := (num' / den')%Z in
  let r := (num' mod den')%Z in
  let hi := (lo + 1)%Z in
  let okLo := sameNumber (ofDecimal false lo (n - k)) x in
  let okHi := sameNumber (ofDecimal false hi (n - k)) x in
  let loFirst :=
    match (2 * r ?= den')%Z with
    | Lt => true
    | Gt => false
    | Eq => Z.even lo
    end in
  let pick (c : Z) :=
    if (c =? 10 ^ k)%Z then Some (10 ^ (k - 1), n + 1)%Z else Some (c, n) in
  match okLo, okHi with
  | true, true => pick (if loFirst then lo else hi)
  | true, false => pick lo
  | false, true => pick hi
  | false, false => None
  end.

(** The fewest digits that read back as [x], trying [k], [k + 1], ...;
    seventeen digits always do. *)
Fixpoint shortest (fuel : nat) (x : number) (num den n k : Z) : Z * Z :=
  match fuel with
  | O => let '(num', den') := scaleTo num den n 17 in ((num' / den')%Z, n)
  | S f =>
      match candidate x num den n k with
      | Some r => r
      | None => shortest f x num den n (k + 1)
      end
  end.

Definition formatDigits (ds : string) (n : Z) : string :=
  let k := Z.of_nat (String.length ds) in
  if (k <=? n)%Z && (n <=? 21)%Z then ds ++ zeros (Z.to_nat (n - k))
  else if (0 <? n)%Z && (n <=? 21)%Z then
    substring 0 (Z.to_nat n) ds ++ "." ++ substring (Z.to_nat n) (Z.to_nat (k - n)) ds
  else if (-6 <? n)%Z && (n <=? 0)%Z then "0." ++ zeros (Z.to_nat (- n)) ++ ds
  else
    let e := (n - 1)%Z in
    let es := (if (e <? 0)%Z then "-" else "+") ++ digitsOfZ (Z.abs e) in
    if (k =? 1)%Z then ds ++ "e" ++ es
    else substring 0 1 ds ++ "." ++ substring 1 (Z.to_nat (k - 1)) ds ++ "e" ++ es.

Definition positiveToString (m : positive) (e : Z) : string :=
  let x := binary_round prec emax false m e in
  let num := if (0 <=? e)%Z then (Zpos m * 2 ^ e)%Z else Zpos m in
  let den := if (0 <=? e)%Z then 1%Z else (2 ^ (- e))%Z in
  let n := decimalExponent num den in
  let '(s, n') := shortest 17 x num den n 1 in
  formatDigits (digitsOfZ s) n'.

(** Number::toString, radix 10. *)
Definition numberToString (x : number) : string :=
  match x with
  | S754_nan => "NaN"
  | S754_zero _ => "0"
  | S754_infinity s => if s then "-Infinity" else "Infinity"
  | S754_finite s m e => (if s then "-" else "") ++ positiveToString m e
  end.

(** *** Numeric literals in strings *)

Fixpoint spanDigits (s : string) : string * string :=
  match s with
  | String c r =>
      if isDigit c then let '(d, t) := spanDigits r in (String c d, t)
      else (EmptyString, s)
  | EmptyString => (EmptyString, EmptyString)
  end.

Fixpoint valueOfDigits (base : Z) (digit : ascii -> Z) (s : string) (acc : Z) : Z :=
  match s with
  | EmptyString => acc
  | String c r => valueOfDigits base digit r (acc * base + digit c)
  end.

Definition decDigit (c : ascii) : Z := Z.of_N (code c - 48).

Definition decimalValue (s : string) : Z := valueOfDigits 10 decDigit s 0.

(** A leading sign, as [(negative, rest)]. *)
Definition spanSign (s : string) : bool * string :=
  match s with
  | String "+" r => (false, r)
  | String "-" r => (true, r)
  | _ => (false, s)
  end.

(** An ExponentPart at the head of [s]: its value and what follows it. *)
Definition spanExponent (s : string) : Z * string :=
  match s with
  | String c r =>
      if Ascii.eqb c "e" || Ascii.eqb c "E" then
        let '(neg, r1) := spanSign r in
        let '(ds, r2) := spanDigits r1 in
        match ds with
        | EmptyString => (0%Z, s)
        | _ => ((if neg then - decimalValue ds else decimalValue ds)%Z, r2)
        end
      else (0%Z, s)
  | EmptyString => (0%Z, s)
  end.

(** The longest prefix of [s] that is a StrDecimalLiteral, with its value. *)
Definition scanDecimal (s : string) : option (number * string) :=
  let '(neg, r0) := spanSign s in
  if startsWith "Infinity" r0 then Some (S754_infinity neg, drop 8 r0)
  else
    let '(ip, r1) := spanDigits r0 in
    let '(fp, r2) :=
      match r1 with
      | String "." t =>
          let '(fp, r2) := spanDigits t in
          match ip, fp with
          | EmptyString, EmptyString => (EmptyString, r1)
          | _, _ => (fp, r2)
          end
      | _ => (EmptyString, r1)
      end in
    match ip, fp with
    | EmptyString, EmptyString => None
    | _, _ =>
        let '(ex, r3) := spanExponent r2 in
        Some (ofDecimal neg (decimalValue (ip ++ fp))
                (ex - Z.of_nat (String.length fp)), r3)
    end.

(** [parseFloat] on a string. *)
Definition parseFloat (s : string) : number :=
  match scanDecimal (trimStart s) with
  | Some (x, _) => x
  | None => NaN
  end.

(** [parseInt(s, 10)] *)
Definition parseInt10 (s : string) : number :=
  let '(neg, r) := spanSign (trimStart s) in
  let '(ds, _) := spanDigits r in
  match ds with
  | EmptyString => NaN
  | _ => ofDecimal neg (decimalValue ds) 0
  end.

Definition hexDigit (c : ascii) : option Z :=
  if isDigit c then Some (Z.of_N (code c - 48))
  else if between 97 102 c then Some (Z.of_N (code c - 87))
  else if between 65 70 c then Some (Z.of_N (code c - 55))
  else None.

Fixpoint radixValue (base : Z) (s : string) (acc : Z) : option Z :=
  match s with
  | EmptyString => Some acc
  | String c r =>
      match hexDigit c with
      | Some d => if (d <? base)%Z then radixValue base r (acc * base + d) else None
      | None => None
      end
  end.

Definition radixLiteral (base : Z) (digits : string) : number :=
  match digits with
  | EmptyString => NaN
  | _ => match radixValue base digits 0 with
         | Some v => ofDecimal false v 0
         | None => NaN
         end
  end.

(** StringToNumber: [Number(s)] on a string. *)
Definition stringToNumber (s : string) : number :=
  let t := trim s in
  match t with
  | EmptyString => zero
  | String "0" (String c r) =>
      if Ascii.eqb c "x" || Ascii.eqb c "X" then radixLiteral 16 r
      else if Ascii.eqb c "o" || Ascii.eqb c "O" then radixLiteral 8 r
      else if Ascii.eqb c "b" || Ascii.eqb c "B" then radixLiteral 2 r
      else match scanDecimal t with
           | Some (x, EmptyString) => x
           | _ => NaN
           end
  | _ => match scanDecimal t with
         | Some (x, EmptyString) => x
         | _ => NaN
         end
  end.

(** ** Values *)

#[local] Set Warnings "-register-all".

Inductive value : Type :=
| VUndefined
| VNull
| VBool (b : bool)
| VNum (x : number)
| VStr (s : string)
| VDate (t : number)                     (* a Date object and its time value *)
| VArr (items : list value)
| VObj (props : list (string * value)).

(** What the sources take from the engine and its environment without the
    embedding fixing it: date parsing and printing depend on the time zone
    and on the engine's leniency, and [JSON.parse] is the engine's. *)
Record Host : Type := {
  dateParse : string -> number;          (* time value of [new Date(s)], NaN when invalid *)
  dateToString : number -> string;       (* [String(d)] for a Date with that time value *)
  jsonParse : string -> option value;    (* [None] when [JSON.parse] throws *)
  nullAccessMessage : string -> string   (* message of the TypeError for [null[k]] *)
}.

Section Coercions.
Variable host : Host.

(** [String(v)] *)
Fixpoint toString (v : value) : string :=
  match v with
  | VUndefined => "undefined"
  | VNull => "null"
  | VBool b => if b then "true" else "false"
  | VNum x => numberToString x
  | VStr s => s
  | VDate t => dateToString host t
  | VArr items =>
      join ","
        (map (fun e => match e with
                       | VUndefined | VNull => EmptyString
                       | _ => toString e
                       end) items)
  | VObj _ => "[object Object]"
  end.

(** [Number(v)] *)
Definition toNumber (v : value) : number :=
  match v with
  | VUndefined => NaN
  | VNull => zero
  | VBool b => if b then ofZ 1 else zero
  | VNum x => x
  | VStr s => stringToNumber s
  | VDate t => t
  | VArr _ | VObj _ => stringToNumber (toString v)
  end.

(** [parseFloat(v)]: the argument is converted to a string first. *)
Definition parseFloatOf (v : value) : number := parseFloat (toString v).

(** The global [isFinite(v)]. *)
Definition globalIsFinite (v : value) : bool := isFinite (toNumber v).
End Coercions.

Definition numberTruthy (x : number) : bool :=
  match x with S754_zero _ | S754_nan => false | _ => true end.

(** ToBoolean *)
Definition truthy (v : value) : bool :=
  match v with
  | VUndefined | VNull => false
  | VBool b => b
  | VNum x => numberTruthy x
  | VStr s => negb (String.eqb s EmptyString)
  | VDate _ | VArr _ | VObj _ => true
  end.

(** [v || d] *)
Definition orElse (v d : value) : value := if truthy v then v else d.

(** [x || 0] on Numbers *)
Definition orZero (x : number) : number := if numberTruthy x then x else zero.

(** [typeof v === 'number'] *)
Definition isNumberValue (v : value) : bool :=
  match v with VNum _ => true | _ => false end.

(** ** Objects as dictionaries, and Maps *)

Definition dict (A : Type) : Type := list (string * A).

Fixpoint lookup {A : Type} (k : string) (o : dict A) : option A :=
  match o with
  | [] => None
  | (k', v) :: r => if String.eqb k' k then Some v else lookup k r
  end.

Definition has {A : Type} (k : string) (o : dict A) : bool :=
  match lookup k o with Some _ => true | None => false end.

Definition keys {A : Type} (o : dict A) : list string := map fst o.
Definition values {A : Type} (o : dict A) : list A := map snd o.

(** [row[k]] on a data record *)
Definition get (k : string) (o : dict value) : value :=
  match lookup k o with Some v => v | None => VUndefined end.

(** The array index a property key denotes, if it is one: a canonical
    decimal numeral not above 2^32 - 2. *)
Definition arrayIndex (k : string) : option Z :=
  match spanDigits k with
  | (String _ _ as ds, EmptyString) =>
      let v := decimalValue ds in
      if String.eqb (digitsOfZ v) k && (v <=? 4294967294)%Z then Some v else None
  | _ => None
  end.

(** Whether a new key [k] is listed before the existing key [k']. *)
Definition listedBefore (k k' : string) : bool :=
  match arrayIndex k, arrayIndex k' with
  | Some i, Some j => (i <? j)%Z
  | Some _, None => true
  | None, _ => false
  end.

Fixpoint replaceProp {A : Type} (k : string) (v : A) (o : dict A) : dict A :=
  match o with
  | [] => []
  | (k', v') :: r =>
      if String.eqb k' k then (k, v) :: r else (k', v') :: replaceProp k v r
  end.

Fixpoint insertProp {A : Type} (k : string) (v : A) (o : dict A) : dict A :=
  match o with
  | [] => [(k, v)]
  | (k', v') :: r =>
      if listedBefore k k' then (k, v) :: o else (k', v') :: insertProp k v r
  end.

(** [o[k] = v] on a plain object *)
Definition setProp {A : Type} (k : string) (v : A) (o : dict A) : dict A :=
  if has k o then replaceProp k v o else insertProp k v o.

(** [m.set(k, v)] on a Map *)
Fixpoint mapSet {A : Type} (k : string) (v : A) (m : dict A) : dict A :=
  match m with
  | [] => [(k, v)]
  | (k', v') :: r =>
      if String.eqb k' k then (k, v) :: r else (k', v') :: mapSet k v r
  end.

(** [Array.from(new Set(l))]: first occurrences, in order. *)
Fixpoint unique (seen l : list string) : list string :=
  match l with
  | [] => []
  | x :: r =>
      if existsb (String.eqb x) seen then unique seen r
      else x :: unique (x :: seen) r
  end.

(** ** Regular expressions

    A backtracking matcher with the priorities of the engine: alternatives
    left to right, quantifiers greedy, the leftmost start first. *)

Inductive regex : Type :=
| RChar (p : ascii -> bool)
| REmpty
| RSeq (a b : regex)
| RAlt (a b : regex)
| RStar (a : regex)
| RGroup (i : nat) (a : regex).

Definition captures : Type := list (nat * string).

Fixpoint capture (i : nat) (c : captures) : option string :=
  match c with
  | [] => None
  | (j, s) :: r => if Nat.eqb j i then Some s else capture i r
  end.

Section Matcher.
Context {R : Type}.

Fixpoint matchAt (r : regex) (s : string) (c : captures)
         (k : string -> captures -> option R) {struct r} : option R :=
  match r with
  | RChar p =>
      match s with
      | String a t => if p a then k t c else None
      | EmptyString => None
      end
  | REmpty => k s c
  | RSeq a b => matchAt a s c (fun s' c' => matchAt b s' c' k)
  | RAlt a b =>
      match matchAt a s c k with
      | Some x => Some x
      | None => matchAt b s c k
      end
  | RStar a =>
      (fix star (fuel : nat) (s : string) (c : captures) {struct fuel} : option R :=
         match fuel with
         | O => k s c
         | S fuel' =>
             match matchAt a s c
                     (fun s' c' =>
                        if (String.length s' <? String.length s)%nat
                        then star fuel' s' c' else None) with
             | Some x => Some x
             | None => k s c
             end
         end) (String.length s) s c
  | RGroup i a =>
      matchAt a s c
        (fun s' c' =>
           k s' ((i, substring 0 (String.length s - String.length s') s) :: c'))
  end.
End Matcher.

Fixpoint lit (s : string) : regex :=
  match s with
  | EmptyString => REmpty
  | String a EmptyString => RChar (Ascii.eqb a)
  | String a r => RSeq (RChar (Ascii.eqb a)) (lit r)
  end.

Definition plus (a : regex) : regex := RSeq a (RStar a).
Definition opt (a : regex) : regex := RAlt a REmpty.

Fixpoint seqs (l : list regex) : regex :=
  match l with
  | [] => REmpty
  | [a] => a
  | a :: r => RSeq a (seqs r)
  end.

Fixpoint alts (l : list regex) : regex :=
  match l with
  | [] => RChar (fun _ => false)
  | [a] => a
  | a :: r => RAlt a (alts r)
  end.

Fixpoint times (n : nat) (a : regex) : regex :=
  match n with
  | O => REmpty
  | S O => a
  | S k => RSeq a (times k a)
  end.

(** The classes [\w], [\s], [\d] and the dot. *)
Definition reWord : regex := RChar isWord.
Definition reSpace : regex := RChar isWhiteSpace.
Definition reDigit : regex := RChar isDigit.
Definition reDot : regex := RChar (fun a => negb (isLineTerminator a)).

(** A match: the text matched and the groups that took part. *)
Record matched : Type := { whole : string; groups : captures }.

Definition matchHere (r : regex) (s : string) : option matched :=
  matchAt r s []
    (fun s' c =>
       Some {| whole := substring 0 (String.length s - String.length s') s;
               groups := c |}).

(** [s.match(r)] for a pattern without the [g] flag. *)
Fixpoint exec (r : regex) (s : string) : option matched :=
  match matchHere r s with
  | Some m => Some m
  | None =>
      match s with
      | EmptyString => None
      | String _ t => exec r t
      end
  end.

(** [r.test(s)] for a pattern written between [^] and [$]. *)
Definition testWhole (r : regex) (s : string) : bool :=
  match matchAt r s []
          (fun s' _ => match s' with EmptyString => Some tt | _ => None end) with
  | Some _ => true
  | None => false
  end.

(** ** Arrays *)

Section Arrays.
Context {A S : Type}.

(** [l.forEach((x, index) => ...)] threading the state the callback
    writes, from position [index] on. *)
Fixpoint forEachFrom (f : S -> A -> nat -> S) (l : list A) (index : nat)
         (s : S) : S :=
  match l with
  | [] => s
  | x :: r => forEachFrom f r (Datatypes.S index) (f s x index)
  end.
End Arrays.

Section Sort.
Context {A : Type}.
Variable comparefn : A -> A -> number.

(** [comparefn(a, b) > 0]: [a] is to come after [b]. *)
Definition comesAfter (a b : A) : bool := ltb zero (comparefn a b).

Fixpoint insertSorted (x : A) (sorted : list A) : list A :=
  match sorted with
  | [] => [x]
  | y :: r => if comesAfter y x then x :: y :: r else y :: insertSorted x r
  end.

(** [l.sort(comparefn)]: the stable order.  (For a comparator that is not
    consistent, as with NaN keys, engines may differ; this is the order a
    stable insertion gives.) *)
Definition sort (l : list A) : list A :=
  fold_left (fun sorted x => insertSorted x sorted) l [].
End Sort.

End JS.


(** A computation that may throw an [Error] with a message. *)
Inductive outcome (A : Type) : Type :=
| Ok (a : A)
| Throw (message : string).
Arguments Ok {A} a.
Arguments Throw {A} message.

(* ================================================================== *)
(** * The chart builder, [client/pages/FileToChart.tsx] *)
(* ================================================================== *)

Module FileToChart.
Import JS.

(** A data record. *)
#[local] Abbreviation row := (dict value).

Inductive StatusType : Type := success | error | warning | info.

(** A status message; its generated id and timestamp are left out. *)
Record StatusMessage : Type := {
  sm_type : StatusType;
  sm_message : string;
  sm_duration : Z
}.

Record ChartDataset : Type := {
  ds_label : string;
  ds_data : list number
}.

(** Chart data: the labels and the value series.  The colours and line
    styling of a dataset do not depend on the data and are left out. *)
Record ChartData : Type := {
  labels : list string;
  datasets : list ChartDataset
}.

Record UploadedFile : Type := {
  uf_name : string;
  uf_type : string;
  uf_size : Z;
  uf_data : list row;
  uf_columns : list string;
  uf_rowCount : nat;
  uf_preview : list row
}.

Record SelectedColumns : Type := {
  sc_label : string;
  sc_value : string;
  sc_series : string
}.

(** The page state written by the upload handler. *)
Record State : Type := {
  uploadedFiles : list UploadedFile;
  selectedFile : option UploadedFile;
  chartData : option ChartData;
  selectedColumns : SelectedColumns;
  isLoading : bool;
  statusMessages : list StatusMessage
}.

(** A [File]: its metadata and the text [file.text()] resolves to. *)
Record File : Type := {
  file_name : string;
  file_type : string;
  file_size : Z;
  file_text : string
}.

(** The state the page starts in. *)
Definition initialState : State :=
  {| uploadedFiles := [];
     selectedFile := None;
     chartData := None;
     selectedColumns :=
       {| sc_label := EmptyString; sc_value := EmptyString; sc_series := EmptyString |};
     isLoading := false;
     statusMessages := [] |}.

Definition addStatusMessage (message : string) (type : StatusType)
           (duration : Z) (st : State) : State :=
  {| uploadedFiles := uploadedFiles st;
     selectedFile := selectedFile st;
     chartData := chartData st;
     selectedColumns := selectedColumns st;
     isLoading := isLoading st;
     statusMessages :=
       (statusMessages st ++
          [{| sm_type := type; sm_message := message; sm_duration := duration |}])%list |}.

Definition setIsLoading (b : bool) (st : State) : State :=
  {| uploadedFiles := uploadedFiles st;
     selectedFile := selectedFile st;
     chartData := chartData st;
     selectedColumns := selectedColumns st;
     isLoading := b;
     statusMessages := statusMessages st |}.

Definition setSelectedFile (f : option UploadedFile) (st : State) : State :=
  {| uploadedFiles := uploadedFiles st;
     selectedFile := f;
     chartData := chartData st;
     selectedColumns := selectedColumns st;
     isLoading := isLoading st;
     statusMessages := statusMessages st |}.

Definition setChartData (c : option ChartData) (st : State) : State :=
  {| uploadedFiles := uploadedFiles st;
     selectedFile := selectedFile st;
     chartData := c;
     selectedColumns := selectedColumns st;
     isLoading := isLoading st;
     statusMessages := statusMessages st |}.

Definition setSelectedColumns (c : SelectedColumns) (st : State) : State :=
  {| uploadedFiles := uploadedFiles st;
     selectedFile := selectedFile st;
     chartData := chartData st;
     selectedColumns := c;
     isLoading := isLoading st;
     statusMessages := statusMessages st |}.

Definition setUploadedFiles (l : list UploadedFile) (st : State) : State :=
  {| uploadedFiles := l;
     selectedFile := selectedFile st;
     chartData := chartData st;
     selectedColumns := selectedColumns st;
     isLoading := isLoading st;
     statusMessages := statusMessages st |}.

(** ** [FileProcessor] *)

(** The loop of [parseCSVLine]: [line] is what is left to read. *)
Fixpoint parseCSVLine_from (line : string) (result : list string)
         (current : string) (inQuotes : bool) : list string :=
  match line with
  | EmptyString => (result ++ [trim current])%list
  | String char rest =>
      if Ascii.eqb char dquote && negb inQuotes then
        parseCSVLine_from rest result current true
      else if Ascii.eqb char dquote && inQuotes then
        match rest with
        | String "034" rest' =>
            parseCSVLine_from rest' result (current ++ String dquote EmptyString) inQuotes
        | _ => parseCSVLine_from rest result current false
        end
      else if Ascii.eqb char "," && negb inQuotes then
        parseCSVLine_from rest (result ++ [trim current])%list EmptyString inQuotes
      else
        parseCSVLine_from rest result (current ++ String char EmptyString) inQuotes
  end.

Definition parseCSVLine (line : string) : list string :=
  parseCSVLine_from line [] EmptyString false.

(** [/^\d{4}-\d{2}-\d{2}(T\d{2}:\d{2}:\d{2}(\.\d{3})?Z?)?$/] *)
Definition isoDatePattern : regex :=
  seqs [ times 4 reDigit; lit "-"; times 2 reDigit; lit "-"; times 2 reDigit;
         opt (RGroup 1
                (seqs [ lit "T"; times 2 reDigit; lit ":"; times 2 reDigit;
                        lit ":"; times 2 reDigit;
                        opt (RGroup 2 (seqs [lit "."; times 3 reDigit]));
                        opt (lit "Z") ])) ].

Section WithHost.
Variable host : Host.

Definition parseValue (value : JS.value) : JS.value :=
  match value with
  | VNull | VUndefined | VStr EmptyString => VNull
  | _ =>
      let str := trim (toString host value) in
      if String.eqb (toLowerCase str) "true" then VBool true
      else if String.eqb (toLowerCase str) "false" then VBool false
      else if negb (isNaN (stringToNumber str)) && isFinite (parseFloat str) then
        let num := parseFloat str in
        if isInteger num then VNum (parseInt10 str) else VNum num
      else if testWhole isoDatePattern str then
        let date := dateParse host str in
        if negb (isNaN date) then VDate date else VStr str
      else VStr str
  end.

(** The [headers.forEach] of [processCSV], from column [index] on. *)
Fixpoint csvRow (headers : list string) (index : nat) (vals : list string)
         (r : row) : row :=
  match headers with
  | [] => r
  | header :: rest =>
      let value :=
        match nth_error vals index with
        | Some v => trim v
        | None => EmptyString
        end in
      csvRow rest (S index) vals (setProp header (parseValue (VStr value)) r)
  end.

Fixpoint csvRows (headers : list string) (lines : list string) : list row :=
  match lines with
  | [] => []
  | line :: rest =>
      let vals := parseCSVLine line in
      match vals with
      | [] => csvRows headers rest
      | _ => csvRow headers 0 vals [] :: csvRows headers rest
      end
  end.

Definition processCSV (text : string) : outcome (list string * list row) :=
  match split "010" (trim text) with
  | header :: (_ :: _) as body =>
      let headers := parseCSVLine header in
      Ok (headers, csvRows headers body)
  | _ => Throw "CSV file must contain at least a header row and one data row."
  end.

(** [item[k]] for an arbitrary value; [None] is the TypeError on
    [null] and [undefined]. *)
Definition member (item : JS.value) (k : string) : option JS.value :=
  match item with
  | VNull | VUndefined => None
  | VObj props => Some (get k props)
  | VArr items =>
      if String.eqb k "length" then Some (VNum (ofNat (List.length items)))
      else match arrayIndex k with
           | Some i => Some (nth (Z.to_nat i) items VUndefined)
           | None => Some VUndefined
           end
  | VStr s =>
      if String.eqb k "length" then Some (VNum (ofNat (String.length s)))
      else match arrayIndex k with
           | Some i =>
               match String.get (Z.to_nat i) s with
               | Some c => Some (VStr (String c EmptyString))
               | None => Some VUndefined
               end
           | None => Some VUndefined
           end
  | VBool _ | VNum _ | VDate _ => Some VUndefined
  end.

(** [Object.keys(item)] for an item with [typeof item === 'object']. *)
Definition ownKeys (item : JS.value) : list string :=
  match item with
  | VObj props => keys props
  | VArr items => map (fun i => digitsOfZ (Z.of_nat i)) (seq 0 (List.length items))
  | _ => []
  end.

Fixpoint normalizeItem (headers : list string) (item : JS.value) (r : row)
  : outcome row :=
  match headers with
  | [] => Ok r
  | header :: rest =>
      match member item header with
      | Some v => normalizeItem rest item (setProp header (parseValue v) r)
      | None => Throw (nullAccessMessage host header)
      end
  end.

Fixpoint normalizeAll (headers : list string) (data : list JS.value)
  : outcome (list row) :=
  match data with
  | [] => Ok []
  | item :: rest =>
      match normalizeItem headers item [] with
      | Ok r =>
          match normalizeAll headers rest with
          | Ok rs => Ok (r :: rs)
          | Throw m => Throw m
          end
      | Throw m => Throw m
      end
  end.

Definition processJSON (text : string) : outcome (list string * list row) :=
  match jsonParse host text with
  | None => Throw "Invalid JSON format. Please ensure the file contains valid JSON."
  | Some jsonData =>
      let data := match jsonData with VArr items => items | _ => [jsonData] end in
      match data with
      | [] => Throw "JSON file contains no data. Please provide a file with data entries."
      | _ =>
          let headers := unique [] (flat_map ownKeys data) in
          match normalizeAll headers data with
          | Ok rows => Ok (headers, rows)
          | Throw m => Throw m
          end
      end
  end.

(** ** Aggregation *)

Definition isNumericValue (data : list row) (valueCol : string) : bool :=
  existsb (fun r => isNumberValue (get valueCol r)) data.

Definition labelOf (labelCol : string) (r : row) : string :=
  trim (toString host (orElse (get labelCol r) (VStr "Unknown"))).

Definition seriesOf (seriesCol : string) (r : row) : string :=
  if negb (String.eqb seriesCol EmptyString)
  then trim (toString host (orElse (get seriesCol r) (VStr "Default")))
  else "Default".

(** [seriesMap.get(series) || 0] *)
Definition seriesGet (series : string) (seriesMap : dict number) : number :=
  match lookup series seriesMap with
  | Some x => orZero x
  | None => zero
  end.

(** The body of the [forEach] over the processed rows. *)
Definition groupRow (isNumeric : bool) (labelCol valueCol seriesCol : string)
           (groupedData : dict (dict number)) (r : row) : dict (dict number) :=
  let label := labelOf labelCol r in
  let series := seriesOf seriesCol r in
  let seriesMap :=
    match lookup label groupedData with
    | Some m => m
    | None => []
    end in
  let seriesMap' :=
    if isNumeric then
      let value := orZero (toNumber host (get valueCol r)) in
      mapSet series (add (seriesGet series seriesMap) value) seriesMap
    else
      mapSet series (add (seriesGet series seriesMap) (ofZ 1)) seriesMap in
  mapSet label seriesMap' groupedData.

Definition groupRows (isNumeric : bool) (labelCol valueCol seriesCol : string)
           (rows : list row) : dict (dict number) :=
  fold_left (groupRow isNumeric labelCol valueCol seriesCol) rows [].

(** [groupedData.get(label)?.get(seriesName) || 0] *)
Definition cell (groupedData : dict (dict number)) (seriesName label : string)
  : number :=
  match lookup label groupedData with
  | Some seriesMap => seriesGet seriesName seriesMap
  | None => zero
  end.

(** The chart data built from the grouped rows. *)
Definition chartOf (isNumeric : bool) (valueCol seriesCol : string)
           (groupedData : dict (dict number)) : ChartData :=
  let labels := firstn 50 (keys groupedData) in
  let seriesNames := unique [] (flat_map (fun m => keys m) (values groupedData)) in
  {| labels := labels;
     datasets :=
       map (fun seriesName =>
              {| ds_label :=
                   if negb (String.eqb seriesCol EmptyString) then seriesName
                   else if isNumeric then valueCol ++ " (Sum)"
                        else valueCol ++ " (Count)";
                 ds_data := map (cell groupedData seriesName) labels |})
           seriesNames |}.

(** [processDataForChart]; an absent [seriesCol] is the empty string.  The
    status message of the guard is threaded through the state. *)
Definition processDataForChart (data : list row)
           (labelCol valueCol seriesCol : string) (st : State)
  : option ChartData * State :=
  if String.eqb labelCol EmptyString || String.eqb valueCol EmptyString then
    (None,
     addStatusMessage "Missing label or value column for chart data processing."
       warning 5000 st)
  else
    let isNumeric := isNumericValue data valueCol in
    (Some (chartOf isNumeric valueCol seriesCol
             (groupRows isNumeric labelCol valueCol seriesCol (firstn 1000 data))),
     st).

(** ** Upload *)

Definition MAX_FILE_SIZE_MB : Z := 10.

Definition noColumns : SelectedColumns :=
  {| sc_label := EmptyString; sc_value := EmptyString; sc_series := EmptyString |}.

(** The columns holding a number in some record. *)
Definition numericColumns (headers : list string) (processedData : list row)
  : list string :=
  filter (fun col => existsb (fun r => isNumberValue (get col r)) processedData)
         headers.

(** The column choice made on upload, for at least two headers. *)
Definition autoSelect (headers : list string) (processedData : list row)
  : SelectedColumns :=
  let numerics := numericColumns headers processedData in
  let labelCol := nth 0 headers EmptyString in
  let valueCol :=
    match numerics with
    | first :: _ => first
    | [] => nth 1 headers EmptyString
    end in
  let seriesCol :=
    if (2 <? List.length headers)%nat then nth 2 headers EmptyString
    else EmptyString in
  {| sc_label := labelCol; sc_value := valueCol; sc_series := seriesCol |}.

(** What the [switch] on the file extension yields. *)
Definition processByExtension (fileExtension text : string)
  : outcome (list string * list row) :=
  if String.eqb fileExtension "csv" || String.eqb fileExtension "tsv"
  then processCSV text
  else if String.eqb fileExtension "json" || String.eqb fileExtension "jsonl"
  then processJSON text
  else Throw ("Unsupported file format: " ++ quoted ("." ++ fileExtension)
              ++ ". Supported formats are CSV, JSON, and TSV.").

(** The [try] block once the file has parsed to a non-empty table. *)
Definition acceptFile (file : File) (fileExtension : string)
           (headers : list string) (processedData : list row) (st : State)
  : State :=
  let uploadedFile :=
    {| uf_name := file_name file;
       uf_type := if String.eqb (file_type file) EmptyString
                  then "application/" ++ fileExtension else file_type file;
       uf_size := file_size file;
       uf_data := processedData;
       uf_columns := headers;
       uf_rowCount := List.length processedData;
       uf_preview := firstn 5 processedData |} in
  let st := setUploadedFiles (uploadedFile :: firstn 9 (uploadedFiles st)) st in
  let st := setSelectedFile (Some uploadedFile) st in
  let st :=
    if (2 <=? List.length headers)%nat then
      let cols := autoSelect headers processedData in
      let st := setSelectedColumns cols st in
      match processDataForChart processedData
              (sc_label cols) (sc_value cols) (sc_series cols) st with
      | (Some newChartData, st') => setChartData (Some newChartData) st'
      | (None, st') => st'
      end
    else
      let st :=
        addStatusMessage
          "File contains insufficient columns for automatic chart generation. Please select columns manually."
          warning 5000 st in
      setChartData None (setSelectedColumns noColumns st) in
  addStatusMessage
    ("Successfully loaded " ++ numberToString (ofNat (List.length processedData))
     ++ " records with " ++ numberToString (ofNat (List.length headers))
     ++ " columns from " ++ quoted (file_name file) ++ ".")
    success 5000 st.

(** The [catch] block. *)
Definition rejectFile (message : string) (st : State) : State :=
  setSelectedColumns noColumns
    (setChartData None (setSelectedFile None (addStatusMessage message error 5000 st))).

(** [handleFileUpload], for the first file of the event (if any); the
    picker and the drop zone both call it. *)
Definition handleFileUpload (file : option File) (st : State) : State :=
  match file with
  | None => st
  | Some file =>
      if (MAX_FILE_SIZE_MB * 1024 * 1024 <? file_size file)%Z then
        addStatusMessage
          ("File size exceeds the limit of " ++ numberToString (ofZ MAX_FILE_SIZE_MB)
           ++ "MB.") error 5000 st
      else
        let st := setIsLoading true st in
        let st :=
          addStatusMessage ("Processing " ++ quoted (file_name file) ++ "...")
            info 5000 st in
        let text := file_text file in
        let fileExtension :=
          last (split "." (toLowerCase (file_name file))) EmptyString in
        let st :=
          match processByExtension fileExtension text with
          | Ok (headers, processedData) =>
              match processedData with
              | [] => rejectFile "No valid data records found in the file after processing." st
              | _ => acceptFile file fileExtension headers processedData st
              end
          | Throw message => rejectFile message st
          end in
        setIsLoading false st
  end.
End WithHost.

(** ** The other handlers of the page *)

(** [fileStats]: the columns holding a number in some record, and the
    others. *)
Record FileStats : Type := {
  numerics : list string;
  categoricals : list string;
  total : nat
}.

Definition fileStats (selectedFile : option UploadedFile) : option FileStats :=
  match selectedFile with
  | None => None
  | Some f =>
      let numerics := numericColumns (uf_columns f) (uf_data f) in
      let categoricals :=
        filter (fun col => negb (existsb (String.eqb col) numerics)) (uf_columns f) in
      Some {| numerics := numerics;
              categoricals := categoricals;
              total := List.length (uf_columns f) |}
  end.

(** [selectFile]; the chart instance on the canvas is left out. *)
Definition selectFile (file : UploadedFile) (st : State) : State :=
  let st := setSelectedFile (Some file) st in
  let st := setSelectedColumns noColumns st in
  let st := setChartData None st in
  addStatusMessage
    (quoted (uf_name file) ++ " selected. Please configure columns to generate chart.")
    info 3000 st.

(** The keys of [selectedColumns]: [label], [value] and [series]. *)
Inductive ColumnRole : Type := onLabel | onValue | onSeries.

Definition handleColumnChange (type : ColumnRole) (value : string) (st : State)
  : State :=
  let prev := selectedColumns st in
  setSelectedColumns
    match type with
    | onLabel => {| sc_label := value; sc_value := sc_value prev; sc_series := sc_series prev |}
    | onValue => {| sc_label := sc_label prev; sc_value := value; sc_series := sc_series prev |}
    | onSeries => {| sc_label := sc_label prev; sc_value := sc_value prev; sc_series := value |}
    end
    st.

Section Handlers.
Variable host : Host.

(** [updateChart]; an empty series column is passed on as absent, which
    [processDataForChart] reads the same way. *)
Definition updateChart (st : State) : State :=
  match selectedFile st with
  | None => addStatusMessage "No file selected to update chart." warning 5000 st
  | Some f =>
      let cols := selectedColumns st in
      if String.eqb (sc_label cols) EmptyString || String.eqb (sc_value cols) EmptyString
      then
        addStatusMessage
          "Please select both a label column and a value column to generate the chart."
          warning 5000 st
      else
        match processDataForChart host (uf_data f)
                (sc_label cols) (sc_value cols) (sc_series cols) st with
        | (Some newChartData, st') => setChartData (Some newChartData) st'
        | (None, st') =>
            addStatusMessage
              "Failed to generate chart data with the selected columns. Please check your data and selections."
              error 5000 st'
        end
  end.
End Handlers.

End FileToChart.


(* ================================================================== *)
(** * The animation studio, [client/pages/AnimateChart.tsx] *)
(* ================================================================== *)

Module AnimateChart.
Import JS.

(** A data record. *)
#[local] Abbreviation row := (dict value).

Record ChartDataset : Type := {
  ds_label : string;
  ds_data : list number
}.

(** Chart data; the generated colours and the border width are left out. *)
Record ChartData : Type := {
  labels : list string;
  datasets : list ChartDataset
}.

Record Status : Type := {
  st_message : string;
  st_type : string
}.

(** The page state written by the data path. *)
Record State : Type := {
  chartData : option ChartData;
  currentSheetData : option (list row);
  isLoading : bool;
  statusMessage : option Status;
  selectedLabelColumn : string;
  selectedValueColumn : string
}.

(** A [File] as [handleFile] sees it. *)
Record File : Type := {
  file_name : string;
  file_size : Z
}.

(** The read the [FileReader] is asked for; when it completes, the reader's
    load event hands the content and the file name to [parseFileData]. *)
Inductive ReadRequest : Type := readAsText | readAsArrayBuffer.

(** The state the page starts in. *)
Definition initialState : State :=
  {| chartData := None;
     currentSheetData := None;
     isLoading := false;
     statusMessage := None;
     selectedLabelColumn := EmptyString;
     selectedValueColumn := EmptyString |}.

Definition showStatus (message type : string) (st : State) : State :=
  {| chartData := chartData st;
     currentSheetData := currentSheetData st;
     isLoading := isLoading st;
     statusMessage := Some {| st_message := message; st_type := type |};
     selectedLabelColumn := selectedLabelColumn st;
     selectedValueColumn := selectedValueColumn st |}.

Definition setIsLoading (b : bool) (st : State) : State :=
  {| chartData := chartData st;
     currentSheetData := currentSheetData st;
     isLoading := b;
     statusMessage := statusMessage st;
     selectedLabelColumn := selectedLabelColumn st;
     selectedValueColumn := selectedValueColumn st |}.

Definition setChartData (c : option ChartData) (st : State) : State :=
  {| chartData := c;
     currentSheetData := currentSheetData st;
     isLoading := isLoading st;
     statusMessage := statusMessage st;
     selectedLabelColumn := selectedLabelColumn st;
     selectedValueColumn := selectedValueColumn st |}.

Definition setCurrentSheetData (d : option (list row)) (st : State) : State :=
  {| chartData := chartData st;
     currentSheetData := d;
     isLoading := isLoading st;
     statusMessage := statusMessage st;
     selectedLabelColumn := selectedLabelColumn st;
     selectedValueColumn := selectedValueColumn st |}.

Definition setSelectedLabelColumn (c : string) (st : State) : State :=
  {| chartData := chartData st;
     currentSheetData := currentSheetData st;
     isLoading := isLoading st;
     statusMessage := statusMessage st;
     selectedLabelColumn := c;
     selectedValueColumn := selectedValueColumn st |}.

Definition setSelectedValueColumn (c : string) (st : State) : State :=
  {| chartData := chartData st;
     currentSheetData := currentSheetData st;
     isLoading := isLoading st;
     statusMessage := statusMessage st;
     selectedLabelColumn := selectedLabelColumn st;
     selectedValueColumn := c |}.

(** ** CSV *)

Fixpoint parseCSVLine_from (line : string) (result : list string)
         (current : string) (inQuotes : bool) : list string :=
  match line with
  | EmptyString => (result ++ [trim current])%list
  | String char rest =>
      if Ascii.eqb char dquote then
        parseCSVLine_from rest result current (negb inQuotes)
      else if Ascii.eqb char "," && negb inQuotes then
        parseCSVLine_from rest (result ++ [trim current])%list EmptyString inQuotes
      else
        parseCSVLine_from rest result (current ++ String char EmptyString) inQuotes
  end.

Definition parseCSVLine (line : string) : list string :=
  parseCSVLine_from line [] EmptyString false.

(** [values[index] || ''] *)
Definition fieldAt (vals : list string) (index : nat) : string :=
  match nth_error vals index with
  | Some v => v
  | None => EmptyString
  end.

Fixpoint csvRow (headers : list string) (index : nat) (vals : list string)
         (r : row) : row :=
  match headers with
  | [] => r
  | header :: rest =>
      csvRow rest (S index) vals (setProp header (VStr (fieldAt vals index)) r)
  end.

Fixpoint csvRows (headers : list string) (lines : list string) : list row :=
  match lines with
  | [] => []
  | line :: rest =>
      let vals := parseCSVLine line in
      match vals with
      | [] => csvRows headers rest
      | _ => csvRow headers 0 vals [] :: csvRows headers rest
      end
  end.

Definition parseCSV (csv : string) : outcome (list row) :=
  let lines :=
    filter (fun line => negb (String.eqb (trim line) EmptyString))
           (split "010" (trim csv)) in
  match lines with
  | header :: (_ :: _) as body => Ok (csvRows (parseCSVLine header) body)
  | _ => Throw "CSV file must have at least a header and one data row"
  end.

(** [/[\d.,-]+/] *)
Definition numberRun : regex :=
  plus (RChar (fun c => isDigit c || Ascii.eqb c "." || Ascii.eqb c ","
                        || Ascii.eqb c "-")).

Section WithHost.
Variable host : Host.

(** [!isNaN(parseFloat(testValue)) && isFinite(testValue)] *)
Definition looksNumeric (testValue : value) : bool :=
  negb (isNaN (parseFloatOf host testValue)) && globalIsFinite host testValue.

(** The [for] loop choosing a value column: the first column other than
    the label column whose value in [firstRow] looks numeric. *)
Definition firstNumericColumn (columns : list string) (labelColumn : string)
           (firstRow : row) : option string :=
  find (fun col => negb (String.eqb col labelColumn)
                   && looksNumeric (get col firstRow)) columns.

(** The loop followed by [if (!valueColumn) valueColumn = columns[1]]. *)
Definition chooseValueColumn (columns : list string) (labelColumn : string)
           (firstRow : row) : string :=
  match firstNumericColumn columns labelColumn firstRow with
  | Some col =>
      if String.eqb col EmptyString then nth 1 columns EmptyString else col
  | None => nth 1 columns EmptyString
  end.

Definition item (index : nat) : string :=
  "Item " ++ numberToString (ofNat (index + 1)).

(** The numeric reading of a cell given that [parseFloat] gave [value]:
    a run of digits, dots, commas and dashes with the commas removed, or
    [fallback]. *)
Definition rescue (value : number) (cellText : string) (fallback : number)
  : number :=
  if isNaN value then
    match exec numberRun cellText with
    | Some numMatch => parseFloat (replaceAllChar "," EmptyString (whole numMatch))
    | None => fallback
    end
  else value.

(** ** [processDataForChart] *)

Definition dataMapStep (labelColumn valueColumn : string)
           (dataMap : dict number) (r : row) (index : nat) : dict number :=
  if (1000 <=? index)%nat then dataMap
  else
    let label := orElse (get labelColumn r) (VStr (item index)) in
    let value :=
      rescue (parseFloatOf host (get valueColumn r))
             (toString host (get valueColumn r)) (ofZ 1) in
    let labelKey := trim (toString host label) in
    match lookup labelKey dataMap with
    | Some old => mapSet labelKey (add old value) dataMap
    | None => mapSet labelKey value dataMap
    end.

Definition processDataForChart (selectedLabelColumn selectedValueColumn : string)
           (data : list row) : outcome ChartData :=
  match data with
  | [] => Throw "No data to process"
  | firstRow :: _ =>
      let columns := keys firstRow in
      if (List.length columns <? 2)%nat then Throw "Data must have at least 2 columns"
      else
        let labelColumn :=
          if String.eqb selectedLabelColumn EmptyString
          then nth 0 columns EmptyString else selectedLabelColumn in
        let valueColumn :=
          if String.eqb selectedValueColumn EmptyString
          then chooseValueColumn columns labelColumn firstRow
          else selectedValueColumn in
        let dataMap := forEachFrom (dataMapStep labelColumn valueColumn) data 0 [] in
        let uniqueEntries := firstn 30 dataMap in
        Ok {| labels := map fst uniqueEntries;
              datasets :=
                [{| ds_label := if String.eqb valueColumn EmptyString
                                then "Values" else valueColumn;
                    ds_data := map snd uniqueEntries |}] |}
  end.

(** ** [processSelectedColumns] *)

Definition isNumericColumn (data : list row) (dataColumn : string) : bool :=
  existsb (fun val =>
             let num := parseFloat (toString host val) in
             negb (isNaN num) && isFinite num)
          (map (get dataColumn) (firstn 20 data)).

Definition labelAt (labelColumn : string) (r : row) (index : nat) : string :=
  trim (toString host (orElse (get labelColumn r) (VStr (item index)))).

Definition numericStep (labelColumn dataColumn : string)
           (dataMap : dict (list number)) (r : row) (index : nat)
  : dict (list number) :=
  if (1000 <=? index)%nat then dataMap
  else
    let label := labelAt labelColumn r index in
    let value :=
      rescue (parseFloat (toString host (get dataColumn r)))
             (toString host (get dataColumn r)) zero in
    match lookup label dataMap with
    | Some vals => mapSet label (vals ++ [value])%list dataMap
    | None => mapSet label [value] dataMap
    end.

(** [values.reduce((total, val) => total + val, 0)] *)
Definition total (vals : list number) : number := fold_left add vals zero.

Definition categoricalStep (labelColumn dataColumn : string)
           (labelValueMap : dict (dict number)) (r : row) (index : nat)
  : dict (dict number) :=
  if (1000 <=? index)%nat then labelValueMap
  else
    let label := labelAt labelColumn r index in
    let dataValue :=
      trim (toString host (orElse (get dataColumn r) (VStr "Unknown"))) in
    let valueMap :=
      match lookup label labelValueMap with
      | Some m => m
      | None => []
      end in
    let valueMap' :=
      match lookup dataValue valueMap with
      | Some n => mapSet dataValue (add n (ofZ 1)) valueMap
      | None => mapSet dataValue (ofZ 1) valueMap
      end in
    mapSet label valueMap' labelValueMap.

(** [.sort(([, a], [, b]) => b - a)] *)
Definition byValueDescending (x y : string * number) : number :=
  sub (snd y) (snd x).

Definition topEntries (entries : list (string * number)) : list (string * number) :=
  firstn 30 (sort byValueDescending entries).

Definition processSelectedColumns (data : list row)
           (labelColumn dataColumn : string) : ChartData :=
  if isNumericColumn data dataColumn then
    let dataMap := forEachFrom (numericStep labelColumn dataColumn) data 0 [] in
    let aggregatedData := map (fun e => (fst e, total (snd e))) dataMap in
    let sortedEntries := topEntries aggregatedData in
    {| labels := map fst sortedEntries;
       datasets :=
         [{| ds_label := "Sum of " ++ dataColumn ++ " by " ++ labelColumn;
             ds_data := map snd sortedEntries |}] |}
  else
    let labelValueMap :=
      forEachFrom (categoricalStep labelColumn dataColumn) data 0 [] in
    let labelCounts := map (fun e => (fst e, total (values (snd e)))) labelValueMap in
    let sortedEntries := topEntries labelCounts in
    {| labels := map fst sortedEntries;
       datasets :=
         [{| ds_label := "Count of " ++ dataColumn ++ " by " ++ labelColumn;
             ds_data := map snd sortedEntries |}] |}.

(** ** [loadSheetData], from the rows [sheet_to_json] returned *)

Definition loadSheetData (sheetName : string) (sheetData : list row)
           (st : State) : State :=
  match sheetData with
  | [] => showStatus "Selected sheet is empty" "warning" st
  | firstRow :: _ =>
      let st := setCurrentSheetData (Some sheetData) st in
      let columns := keys firstRow in
      let st :=
        if (2 <=? List.length columns)%nat then
          let labelCol := nth 0 columns EmptyString in
          let st := setSelectedLabelColumn labelCol st in
          let valueCol := chooseValueColumn columns labelCol firstRow in
          let st := setSelectedValueColumn valueCol st in
          setChartData (Some (processSelectedColumns sheetData labelCol valueCol)) st
        else st in
      showStatus
        ("Sheet " ++ quoted sheetName ++ " loaded with "
         ++ numberToString (ofNat (List.length sheetData)) ++ " rows and "
         ++ numberToString (ofNat (List.length columns)) ++ " columns.")
        "success" st
  end.
End WithHost.

(** ** [handleFile]: the picker and the drop zone both call it *)

Definition handleFile (file : File) (st : State) : State * option ReadRequest :=
  let st := setIsLoading true st in
  let st := showStatus ("Processing file: " ++ file_name file) "warning" st in
  let lower := toLowerCase (file_name file) in
  if endsWith ".csv" lower then (st, Some readAsText)
  else if endsWith ".json" lower then (st, Some readAsText)
  else if endsWith ".xlsx" lower || endsWith ".xls" lower then (st, Some readAsArrayBuffer)
  else
    (setIsLoading false
       (showStatus "Unsupported file type. Please use CSV, Excel, or JSON files."
          "error" st),
     None).

(** ** [processStandardData] and the CSV branch of [parseFileData] *)

Section Standard.
Variable host : Host.

(** The columns [processDataForChart] closed over when the callbacks were
    created. *)
Variables closedLabelColumn closedValueColumn : string.

(** [processStandardData], on records.  What it throws is returned beside
    the state reached, for the [catch] of [parseFileData]; drawing the chart
    and enabling the controls are left out. *)
Definition processStandardData (data : list row) (st : State)
  : State * option string :=
  match data with
  | [] => (st, Some "No valid data found in file")
  | firstRow :: _ =>
      let st := setCurrentSheetData (Some data) st in
      let columns := keys firstRow in
      let charted :=
        if (2 <=? List.length columns)%nat then
          let labelCol := nth 0 columns EmptyString in
          let dataCol :=
            match find (fun col => negb (String.eqb col labelCol)) columns with
            | Some col => col
            | None => EmptyString
            end in
          let dataCol :=
            if String.eqb dataCol EmptyString then nth 1 columns EmptyString
            else dataCol in
          let st := setSelectedLabelColumn labelCol st in
          let st := setSelectedValueColumn dataCol st in
          Ok (setChartData (Some (processSelectedColumns host data labelCol dataCol)) st)
        else
          match processDataForChart host closedLabelColumn closedValueColumn data with
          | Ok processedData => Ok (setChartData (Some processedData) st)
          | Throw message => Throw message
          end in
      match charted with
      | Ok st' =>
          (setIsLoading false
             (showStatus
                ("File uploaded successfully! "
                 ++ numberToString (ofNat (List.length data)) ++ " records loaded.")
                "success" st'),
           None)
      | Throw message => (st, Some message)
      end
  end.

(** [parseFileData] on the text of a file whose name ends in [.csv], with
    its [catch]. *)
Definition parseCsvFile (content : string) (st : State) : State :=
  let failed (message : string) (st : State) :=
    setIsLoading false (showStatus ("Error parsing file: " ++ message) "error" st) in
  match parseCSV content with
  | Throw message => failed message st
  | Ok data =>
      match processStandardData data st with
      | (st', None) => st'
      | (st', Some message) => failed message st'
      end
  end.
End Standard.

(** ** [generateColors] *)

Definition baseColors : list string :=
  [ "#4361ee"; "#3f37c9"; "#4895ef"; "#4cc9f0"; "#7209b7";
    "#f72585"; "#b5179e"; "#480ca8"; "#560bad"; "#b07219";
    "#06d6a0"; "#118ab2"; "#073b4c"; "#ffd166"; "#ef476f" ].

(** The longest prefix of [s] made of digits below [base]. *)
Fixpoint spanRadix (base : Z) (s : string) : string :=
  match s with
  | String c r =>
      match hexDigit c with
      | Some d => if (d <? base)%Z then String c (spanRadix base r) else EmptyString
      | None => EmptyString
      end
  | EmptyString => EmptyString
  end.

(** [parseInt(s, 16)] *)
Definition parseInt16 (s : string) : number :=
  let '(neg, r) := spanSign (trimStart s) in
  let r :=
    match r with
    | String "0" (String c r') =>
        if Ascii.eqb c "x" || Ascii.eqb c "X" then r' else r
    | _ => r
    end in
  match spanRadix 16 r with
  | EmptyString => NaN
  | digits =>
      match radixValue 16 digits 0 with
      | Some v => ofDecimal neg v 0
      | None => NaN
      end
  end.

(** The colour at position [i]. *)
Definition colorAt (alpha : number) (i : nat) : string :=
  let color := nth (i mod List.length baseColors) baseColors EmptyString in
  if SFeqb alpha (ofZ 1) then color
  else
    let r := parseInt16 (substring 1 2 color) in
    let g := parseInt16 (substring 3 2 color) in
    let b := parseInt16 (substring 5 2 color) in
    "rgba(" ++ numberToString r ++ ", " ++ numberToString g ++ ", "
    ++ numberToString b ++ ", " ++ numberToString alpha ++ ")".

(** [generateColors(count, alpha)], for a count of labels. *)
Definition generateColors (count : nat) (alpha : number) : list string :=
  map (colorAt alpha) (seq 0 count).

End AnimateChart.


(* ================================================================== *)
(** * The ER-diagram generator *)
(* ================================================================== *)

Module ERDiagram.
Import JS.

Record ERAttribute : Type := {
  attr_name : string;
  attr_type : string;
  isPrimaryKey : bool;
  isForeignKey : bool
}.

Record EREntity : Type := {
  ent_id : string;
  ent_name : string;
  attributes : list ERAttribute;
  ent_x : number;
  ent_y : number
}.

(** A relationship; its [type] is the string the parser stored (the keyword
    fallback also stores ["many-to-one"]), and its attribute list is always
    empty. *)
Record ERRelationship : Type := {
  rel_id : string;
  fromEntity : string;
  toEntity : string;
  rel_type : string;
  rel_label : string
}.

Record Parsed : Type := {
  entities : list EREntity;
  relationships : list ERRelationship;
  mermaidCode : string
}.

(** ** [parseTextToER] *)

(** The table pattern: [(\w+)\s*table\s*], then optionally (in a group that
    does not capture) an opening parenthesis, group 2 taking any characters
    of the line greedily, and a closing parenthesis. *)
Definition tablePattern : regex :=
  seqs [ RGroup 1 (plus reWord); RStar reSpace; lit "table"; RStar reSpace;
         opt (seqs [lit "("; RGroup 2 (RStar reDot); lit ")"]) ].

(** The pattern
    "/(\w+)\s+(?:enrolls in|teach|schedule|provide|work in|offer|place|contain|write|belong to)\s+(\w+)\s+\((\w+)-to-(\w+)\s+relationship\s+called\s+'([^']+)'\)/" *)
Definition explicitPattern : regex :=
  seqs [ RGroup 1 (plus reWord); plus reSpace;
         alts (map lit [ "enrolls in"; "teach"; "schedule"; "provide"; "work in";
                         "offer"; "place"; "contain"; "write"; "belong to" ]);
         plus reSpace; RGroup 2 (plus reWord); plus reSpace; lit "(";
         RGroup 3 (plus reWord); lit "-to-"; RGroup 4 (plus reWord);
         plus reSpace; lit "relationship"; plus reSpace; lit "called";
         plus reSpace; lit "'";
         RGroup 5 (plus (RChar (fun c => negb (Ascii.eqb c "'"))));
         lit "')" ].

Definition inferType (attr : string) : string :=
  if includes "id" attr then "int"
  else if includes "date" attr || includes "time" attr then "date"
  else if includes "price" attr || includes "amount" attr || includes "budget" attr
       then "decimal"
  else if includes "count" attr || includes "quantity" attr || includes "stock" attr
          || includes "rating" attr then "int"
  else if includes "email" attr then "varchar(255)"
  else if includes "phone" attr then "varchar(20)"
  else if includes "address" attr then "text"
  else if includes "status" attr then "enum"
  else "string".

(** The attribute pushed for the text [attr] of one list item. *)
Definition makeAttribute (attr : string) : ERAttribute :=
  let isKey := endsWith "id" attr && negb (includes "_id" attr) in
  let isForeignKey := includes "_id" attr && negb (String.eqb attr "id") in
  {| attr_name := replaceAllChar " " "_" attr;
     attr_type := inferType attr;
     isPrimaryKey := isKey;
     isForeignKey := isForeignKey |}.

(** [entityMap[name].attributes.push(a)] *)
Definition pushAttribute (name : string) (a : ERAttribute)
           (entityMap : dict EREntity) : dict EREntity :=
  match lookup name entityMap with
  | Some e =>
      replaceProp name
        {| ent_id := ent_id e; ent_name := ent_name e;
           attributes := (attributes e ++ [a])%list;
           ent_x := ent_x e; ent_y := ent_y e |}
        entityMap
  | None => entityMap
  end.

(** Phase 1 on one line: the entity map and [currentEntityName]. *)
Definition entityLine (acc : dict EREntity * string) (line : string)
  : dict EREntity * string :=
  let '(entityMap, currentEntityName) := acc in
  let trimmedLine := trim line in
  match exec tablePattern trimmedLine with
  | Some tableMatch =>
      let m1 := match capture 1 (groups tableMatch) with
                | Some g => g
                | None => EmptyString
                end in
      let currentEntityName := toLowerCase m1 in
      let entityMap :=
        setProp currentEntityName
          {| ent_id := currentEntityName;
             ent_name := replaceAllChar "_" " " (toUpperCase m1);
             attributes := [];
             ent_x := zero; ent_y := zero |}
          entityMap in
      match capture 2 (groups tableMatch) with
      | Some attributeString =>
          if String.eqb attributeString EmptyString then (entityMap, currentEntityName)
          else
            let attrs := map trim (split "," attributeString) in
            (fold_left
               (fun em attr =>
                  if String.eqb attr EmptyString then em
                  else pushAttribute currentEntityName (makeAttribute attr) em)
               attrs entityMap,
             currentEntityName)
      | None => (entityMap, currentEntityName)
      end
  | None => acc
  end.

Definition parseEntities (lines : list string) : dict EREntity :=
  fst (fold_left entityLine lines ([], EmptyString)).

Definition relationshipKeywords : list string :=
  [ "have"; "belong"; "can"; "many-to-many"; "one-to-many"; "place";
    "contain"; "write"; "schedule"; "provide"; "work"; "teach";
    "enroll"; "offer"; "employs"; "offers"; "schedules"; "provides"; "works_in" ].

(** The type and label the keyword fallback gives a line. *)
Definition keywordTypeLabel (trimmedLine : string) : string * string :=
  let has_ (w : string) := includes w trimmedLine in
  let '(type, label) :=
    if has_ "many-to-many" then ("many-to-many", "relates to")
    else if has_ "one-to-many" || has_ "have many" || has_ "has many"
         then ("one-to-many", "has")
    else if has_ "one-to-one" then ("one-to-one", "is related to")
    else ("one-to-many", "relates to") in
  if has_ "enroll" then ("many-to-many", "enrolls in")
  else if has_ "teach" then ("one-to-many", "teaches")
  else if has_ "place" then ("one-to-many", "places")
  else if has_ "contain" then ("many-to-many", "contains")
  else if has_ "write" then ("many-to-many", "writes")
  else if has_ "schedule" then ("many-to-many", "schedules")
  else if has_ "provide" then ("many-to-many", "provides")
  else if has_ "work" then ("many-to-one", "works in")
  else if has_ "offer" then ("one-to-many", "offers")
  else if has_ "employs" then ("one-to-many", "employs")
  else if has_ "belongs_to" || has_ "belong to" then ("many-to-one", "belongs to")
  else (type, label).

Definition group (i : nat) (m : matched) : string :=
  match capture i (groups m) with
  | Some g => g
  | None => EmptyString
  end.

(** Priority 1: the explicit sentence. *)
Definition explicitRelationship (entityMap : dict EREntity) (m : matched)
           (relationshipList : list ERRelationship) : list ERRelationship :=
  let fromE := toLowerCase (group 1 m) in
  let toE := toLowerCase (group 2 m) in
  let cardinality1 := group 3 m in
  let cardinality2 := group 4 m in
  let relationshipLabel := group 5 m in
  if has fromE entityMap && has toE entityMap then
    let type :=
      if String.eqb cardinality1 "many" && String.eqb cardinality2 "many"
      then "many-to-many"
      else if String.eqb cardinality1 "one" && String.eqb cardinality2 "one"
           then "one-to-one"
           else "one-to-many" in
    let existingRel :=
      find (fun r =>
              (String.eqb (fromEntity r) fromE && String.eqb (toEntity r) toE)
              || (String.eqb (fromEntity r) toE && String.eqb (toEntity r) fromE
                  && String.eqb (rel_type r) type))
           relationshipList in
    match existingRel with
    | Some _ => relationshipList
    | None =>
        (relationshipList ++
           [{| rel_id := fromE ++ "-" ++ toE ++ "-"
                         ++ replaceAllChar " " "_" relationshipLabel;
               fromEntity := fromE;
               toEntity := toE;
               rel_type := type;
               rel_label := replaceAllChar "_" " " relationshipLabel |}])%list
    end
  else relationshipList.

(** Priority 2, for one ordered pair of entity names. *)
Definition keywordPair (trimmedLine : string) (index : nat)
           (entity1 entity2 : string) (relationshipList : list ERRelationship)
  : list ERRelationship :=
  if negb (String.eqb entity1 entity2) && includes entity1 trimmedLine
     && includes entity2 trimmedLine then
    let '(type, label) := keywordTypeLabel trimmedLine in
    let existingRel :=
      find (fun r =>
              (String.eqb (fromEntity r) entity1 && String.eqb (toEntity r) entity2
               && String.eqb (rel_type r) type)
              || (String.eqb (fromEntity r) entity2 && String.eqb (toEntity r) entity1
                  && String.eqb (rel_type r) type))
           relationshipList in
    match existingRel with
    | Some _ => relationshipList
    | None =>
        (relationshipList ++
           [{| rel_id := entity1 ++ "-" ++ entity2 ++ "-"
                         ++ numberToString (ofNat index);
               fromEntity := entity1;
               toEntity := entity2;
               rel_type := type;
               rel_label := label |}])%list
    end
  else relationshipList.

(** Phase 2 on one line. *)
Definition relationshipLine (entityMap : dict EREntity)
           (relationshipList : list ERRelationship) (line : string) (index : nat)
  : list ERRelationship :=
  let trimmedLine := trim line in
  match exec explicitPattern trimmedLine with
  | Some m => explicitRelationship entityMap m relationshipList
  | None =>
      let entityNames := keys entityMap in
      let foundKeyword :=
        existsb (fun keyword => includes keyword trimmedLine) relationshipKeywords in
      if foundKeyword then
        fold_left
          (fun rl entity1 =>
             fold_left
               (fun rl' entity2 => keywordPair trimmedLine index entity1 entity2 rl')
               entityNames rl)
          entityNames relationshipList
      else relationshipList
  end.

(** Phase 3: relationships inferred from attributes named like foreign keys. *)
Definition inferFromAttribute (entityMap : dict EREntity) (entity : EREntity)
           (relationshipList : list ERRelationship) (attr : ERAttribute)
  : list ERRelationship :=
  if endsWith "_id" (attr_name attr) && negb (String.eqb (attr_name attr) "id") then
    let foreignEntityName := trim (replaceFirst "_id" EmptyString (attr_name attr)) in
    if has foreignEntityName entityMap then
      (relationshipList ++
         [{| rel_id := foreignEntityName ++ "-" ++ ent_id entity ++ "-fk-infer";
             fromEntity := foreignEntityName;
             toEntity := ent_id entity;
             rel_type := "one-to-many";
             rel_label := "has" |}])%list
    else relationshipList
  else relationshipList.

Definition inferRelationships (entityMap : dict EREntity) : list ERRelationship :=
  fold_left
    (fun rl entity => fold_left (inferFromAttribute entityMap entity) (attributes entity) rl)
    (values entityMap) [].

(** Phase 4: the Mermaid text. *)
Definition mermaidName (e : EREntity) : string :=
  replaceAllChar " " "-" (toUpperCase (ent_name e)).

Definition mermaidAttribute (attr : ERAttribute) : string :=
  let keyType :=
    if isPrimaryKey attr then "PK" else if isForeignKey attr then "FK" else EmptyString in
  "        " ++ attr_type attr ++ " " ++ attr_name attr ++ " "
  ++ (if String.eqb keyType EmptyString then EmptyString else quoted keyType)
  ++ String "010" EmptyString.

Definition mermaidEntity (e : EREntity) : string :=
  "    " ++ mermaidName e ++ " {" ++ String "010" EmptyString
  ++ concat (map mermaidAttribute (attributes e))
  ++ "    }" ++ String "010" (String "010" EmptyString).

Definition mermaidRelationship (entityMap : dict EREntity) (rel : ERRelationship)
  : string :=
  match lookup (fromEntity rel) entityMap, lookup (toEntity rel) entityMap with
  | Some e1, Some e2 =>
      let e1Upper := mermaidName e1 in
      let e2Upper := mermaidName e2 in
      if String.eqb e1Upper EmptyString || String.eqb e2Upper EmptyString then EmptyString
      else
        let line (arrow : string) :=
          "    " ++ e1Upper ++ " " ++ arrow ++ " " ++ e2Upper ++ " : "
          ++ quoted (rel_label rel) ++ String "010" EmptyString in
        if String.eqb (rel_type rel) "one-to-one" then line "||--||"
        else if String.eqb (rel_type rel) "one-to-many" then line "||--o{"
        else if String.eqb (rel_type rel) "many-to-many" then line "}o--o{"
        else EmptyString
  | _, _ => EmptyString
  end.

Definition parseTextToER (text : string) : Parsed :=
  let lines :=
    filter (fun line => negb (String.eqb (trim line) EmptyString))
           (split "010" (toLowerCase text)) in
  let entityMap := parseEntities lines in
  let relationshipList := forEachFrom (relationshipLine entityMap) lines 0 [] in
  let relationshipList :=
    match relationshipList with
    | [] => inferRelationships entityMap
    | _ => relationshipList
    end in
  {| entities := values entityMap;
     relationships := relationshipList;
     mermaidCode :=
       "erDiagram" ++ String "010" EmptyString
       ++ concat (map mermaidEntity (values entityMap))
       ++ concat (map (mermaidRelationship entityMap) relationshipList) |}.

(** ** [CleanERDiagram]: layout and fit view *)

Record Position : Type := {
  pos_x : number;
  pos_y : number
}.

Record View : Type := {
  zoom : number;
  pan : Position
}.

(** [Math.min(3, Math.ceil(Math.sqrt(n)))] for a count of entities. *)
Definition gridColumns (n : nat) : nat := Nat.min 3 (Nat.sqrt_up n).

Definition placeEntity (cols : nat) (entityPositions : dict Position)
           (entity : EREntity) (index : nat) : dict Position :=
  let col := (index mod cols)%nat in
  let row := (index / cols)%nat in
  let entityX := add (ofZ 100) (mul (ofNat col) (ofZ 520)) in
  let entityY := add (ofZ 100) (mul (ofNat row) (ofZ 420)) in
  setProp (ent_id entity) {| pos_x := entityX; pos_y := entityY |} entityPositions.

Definition placeRelationship (entityPositions : dict Position)
           (relationshipPositions : dict Position) (relationship : ERRelationship)
  : dict Position :=
  match lookup (fromEntity relationship) entityPositions,
        lookup (toEntity relationship) entityPositions with
  | Some fromPos, Some toPos =>
      let midX := add (div (add (pos_x fromPos) (pos_x toPos)) (ofZ 2)) (ofZ 80) in
      let midY := add (div (add (pos_y fromPos) (pos_y toPos)) (ofZ 2)) (ofZ 10) in
      setProp (rel_id relationship)
        {| pos_x := sub midX (ofZ 50); pos_y := sub midY (ofZ 15) |}
        relationshipPositions
  | _, _ => relationshipPositions
  end.

(** The positions the layout effect computes for a non-empty diagram. *)
Definition layout (entities : list EREntity) (relationships : list ERRelationship)
  : dict Position * dict Position :=
  let cols := gridColumns (List.length entities) in
  let newEntityPositions := forEachFrom (placeEntity cols) entities 0 [] in
  (newEntityPositions,
   fold_left (placeRelationship newEntityPositions) relationships []).

Record Bounds : Type := {
  minX : number;
  maxX : number;
  minY : number;
  maxY : number
}.

Definition entityBounds (b : Bounds) (pos : Position) : Bounds :=
  {| minX := min2 (minX b) (sub (pos_x pos) (ofZ 180));
     maxX := max2 (maxX b) (add (pos_x pos) (ofZ 320));
     minY := min2 (minY b) (sub (pos_y pos) (ofZ 160));
     maxY := max2 (maxY b) (add (pos_y pos) (ofZ 200)) |}.

Definition relationshipBounds (b : Bounds) (pos : Position) : Bounds :=
  {| minX := min2 (minX b) (sub (pos_x pos) (ofZ 50));
     maxX := max2 (maxX b) (add (pos_x pos) (ofZ 150));
     minY := min2 (minY b) (sub (pos_y pos) (ofZ 30));
     maxY := max2 (maxY b) (add (pos_y pos) (ofZ 60)) |}.

Definition diagramBounds (entityPositions relationshipPositions : dict Position)
  : Bounds :=
  fold_left relationshipBounds (values relationshipPositions)
    (fold_left entityBounds (values entityPositions)
       {| minX := Infinity; maxX := S754_infinity true;
          minY := Infinity; maxY := S754_infinity true |}).

Definition padding : number := ofZ 50.

(** [resetViewToFit] on given positions; [None] when there is nothing to
    fit and the view is left as it is. *)
Definition resetViewToFit (containerWidth containerHeight : number)
           (entityPositions relationshipPositions : dict Position) : option View :=
  match entityPositions, relationshipPositions with
  | [], [] => None
  | _, _ =>
      let b := diagramBounds entityPositions relationshipPositions in
      let totalWidth := add (sub (maxX b) (minX b)) (mul padding (ofZ 2)) in
      let totalHeight := add (sub (maxY b) (minY b)) (mul padding (ofZ 2)) in
      let zoomX := div containerWidth totalWidth in
      let zoomY := div containerHeight totalHeight in
      let optimalZoom := min2 (min2 zoomX zoomY) (ofZ 1) in
      let centerX :=
        sub (div (sub containerWidth (mul totalWidth optimalZoom)) (ofZ 2))
            (mul (minX b) optimalZoom) in
      let centerY :=
        sub (div (sub containerHeight (mul totalHeight optimalZoom)) (ofZ 2))
            (mul (minY b) optimalZoom) in
      Some {| zoom := optimalZoom; pan := {| pos_x := centerX; pos_y := centerY |} |}
  end.

(** Where the group transform [translate(pan.x, pan.y) scale(zoom)] puts a
    diagram coordinate on the screen. *)
Definition screenX (v : View) (x : number) : number :=
  add (pos_x (pan v)) (mul (zoom v) x).

Definition screenY (v : View) (y : number) : number :=
  add (pos_y (pan v)) (mul (zoom v) y).

(** The box of an entity at [pos] with the attribute margins of the fit
    computation, widened by the padding: left, right, top, bottom. *)
Definition paddedLeft (pos : Position) : number :=
  sub (sub (pos_x pos) (ofZ 180)) padding.
Definition paddedRight (pos : Position) : number :=
  add (add (pos_x pos) (ofZ 320)) padding.
Definition paddedTop (pos : Position) : number :=
  sub (sub (pos_y pos) (ofZ 160)) padding.
Definition paddedBottom (pos : Position) : number :=
  add (add (pos_y pos) (ofZ 200)) padding.

(** The attributes of a given name, over all parsed entities. *)
Definition attributesNamed (name : string) (p : Parsed) : list ERAttribute :=
  filter (fun a => String.eqb (attr_name a) name) (flat_map attributes (entities p)).

(** ** Zooming *)

(** The limits of the zoom, [0.1] and [3], and the factors of the wheel
    and of the buttons. *)
Definition minZoom : number := ofDecimal false 1 (-1).
Definition maxZoom : number := ofZ 3.

(** The left and top of the bounding rectangle of the SVG element. *)
Record Rect : Type := {
  rect_left : number;
  rect_top : number
}.

(** [handleWheel] for an event with the given [deltaY], [clientX] and
    [clientY]; [rect] is absent when the SVG element is. *)
Definition handleWheel (deltaY clientX clientY : number) (rect : option Rect)
           (v : View) : View :=
  let delta :=
    if ltb zero deltaY then ofDecimal false 9 (-1) else ofDecimal false 11 (-1) in
  let newZoom := max2 minZoom (min2 maxZoom (mul (zoom v) delta)) in
  let pan' :=
    match rect with
    | Some rect =>
        let mouseX := sub clientX (rect_left rect) in
        let mouseY := sub clientY (rect_top rect) in
        let zoomFactor := div newZoom (zoom v) in
        {| pos_x := sub mouseX (mul (sub mouseX (pos_x (pan v))) zoomFactor);
           pos_y := sub mouseY (mul (sub mouseY (pos_y (pan v))) zoomFactor) |}
    | None => pan v
    end in
  {| zoom := newZoom; pan := pan' |}.

(** The buttons: [Math.min(3, prev * 1.2)] and [Math.max(0.1, prev * 0.8)]. *)
Definition zoomIn (prev : number) : number :=
  min2 maxZoom (mul prev (ofDecimal false 12 (-1))).

Definition zoomOut (prev : number) : number :=
  max2 minZoom (mul prev (ofDecimal false 8 (-1))).

End ERDiagram.


(* ================================================================== *)
(** * The class-name helpers, [client/lib/utils.ts] *)
(* ================================================================== *)

Module Utils.
Import JS.

(** [typeof value === 'string' && value.trim().length > 0] *)
Definition isNonEmptyString (value : JS.value) : bool :=
  match value with
  | VStr s => (0 <? String.length (trim s))%nat
  | _ => false
  end.

(** The loop of [s.split(/\s+/)]: [current] is the piece being read, and
    [inRun] tells that the last character read was white space. *)
Fixpoint splitRuns (s : string) (current : string) (inRun : bool) : list string :=
  match s with
  | EmptyString => [current]
  | String c r =>
      if isWhiteSpace c then
        if inRun then splitRuns r EmptyString true
        else current :: splitRuns r EmptyString true
      else splitRuns r (current ++ String c EmptyString) false
  end.

(** [s.split(/\s+/)] *)
Definition splitWhiteSpace (s : string) : list string := splitRuns s EmptyString false.

(** [formatClassName]; an argument that is [undefined] or [null] is [None]. *)
Definition formatClassName (className : option string) : string :=
  match className with
  | None | Some EmptyString => EmptyString
  | Some className =>
      join " "
        (filter (fun piece => negb (String.eqb piece EmptyString))
                (splitWhiteSpace (trim className)))
  end.

End Utils.

(* ================================================================== *)
(** * Inputs of the worked examples *)
(* ================================================================== *)

Module Examples.
Import JS.

Definition newline : string := String "010" EmptyString.

(** A host for the closed examples, none of which reaches a date string or
    a JSON text: it takes no string for a date and none for JSON. *)
Definition plainHost : Host :=
  {| dateParse := fun _ => NaN;
     dateToString := fun _ => "Invalid Date";
     jsonParse := fun _ => None;
     nullAccessMessage := fun k => "Cannot read properties of null (reading '" ++ k ++ "')" |}.

(** The university description of the ER example. *)
Definition universityText : string :=
  "Students table (student_id, name)" ++ newline
  ++ "Courses table (course_id, title)" ++ newline
  ++ "Students enroll in Courses (many-to-many relationship called 'Enrollment')".

(** The data line [quoted "a,b" ++ ",2"] under the header [col1,col2]. *)
Definition quotedCommaLine : string := quoted "a,b" ++ ",2".
Definition quotedCommaCsv : string := "col1,col2" ++ newline ++ quotedCommaLine.

(** A header of two columns and a data line with one field. *)
Definition shortLineCsv : string := "a,b" ++ newline ++ "1".

(** The records [{k:"x",v:1}, {k:"x",v:2}, {k:"y",v:5}]. *)
Definition kv (k : string) (v : Z) : dict value :=
  [("k", VStr k); ("v", VNum (ofZ v))].
Definition sumRecords : list (dict value) := [kv "x" 1; kv "x" 2; kv "y" 5].

(** Two tables of 2000 records with the same first thousand: text in the
    value column throughout, or a number in it from record 1001 on. *)
Definition textRecord : dict value := [("k", VStr "x"); ("v", VStr "a")].
Definition allText : list (dict value) := repeat textRecord 2000.
Definition lateNumbers : list (dict value) :=
  (repeat textRecord 1000 ++ repeat (kv "x" 1) 1000)%list.

(** As [allText] for a thousand records, then text under another label. *)
Definition lateLabels : list (dict value) :=
  (repeat textRecord 1000 ++ repeat [("k", VStr "y"); ("v", VStr "b")] 1000)%list.

(** A CSV file whose first column is numeric. *)
Definition yearsFile : FileToChart.File :=
  {| FileToChart.file_name := "years.csv";
     FileToChart.file_type := "text/csv";
     FileToChart.file_size := 16;
     FileToChart.file_text := "year,name" ++ newline ++ "2020,a" |}.

(** A file just above the 10MB ceiling, for either page. *)
Definition oversize : Z := 10 * 1024 * 1024 + 1.

Definition bigFile : FileToChart.File :=
  {| FileToChart.file_name := "big.csv";
     FileToChart.file_type := "text/csv";
     FileToChart.file_size := oversize;
     FileToChart.file_text := "k,v" ++ newline ++ "x,1" |}.

Definition bigUpload : AnimateChart.File :=
  {| AnimateChart.file_name := "big.csv"; AnimateChart.file_size := oversize |}.

(** The default container of [CleanERDiagram]. *)
Definition containerWidth : number := ofZ 900.
Definition containerHeight : number := ofZ 700.

(** Two JSON texts with the values they denote, and a host whose
    [JSON.parse] knows these two texts: an array of two objects with
    different keys, and an array holding an object and [null]. *)
Definition mixedJson : string :=
  "[{" ++ quoted "a" ++ ":1},{" ++ quoted "b" ++ ":" ++ quoted " x " ++ "}]".
Definition mixedJsonValue : value :=
  VArr [VObj [("a", VNum (ofZ 1))]; VObj [("b", VStr " x ")]].

Definition holedJson : string := "[{" ++ quoted "a" ++ ":1},null]".
Definition holedJsonValue : value := VArr [VObj [("a", VNum (ofZ 1))]; VNull].

Definition jsonHost : Host :=
  {| dateParse := fun _ => NaN;
     dateToString := fun _ => "Invalid Date";
     jsonParse := fun s =>
       if String.eqb s mixedJson then Some mixedJsonValue
       else if String.eqb s holedJson then Some holedJsonValue
       else None;
     nullAccessMessage := fun k => "Cannot read properties of null (reading '" ++ k ++ "')" |}.

(** The three records of the sums example as a file of the history. *)
Definition sumsUpload : FileToChart.UploadedFile :=
  {| FileToChart.uf_name := "sums.json";
     FileToChart.uf_type := "application/json";
     FileToChart.uf_size := 64;
     FileToChart.uf_data := sumRecords;
     FileToChart.uf_columns := ["k"; "v"];
     FileToChart.uf_rowCount := 3;
     FileToChart.uf_preview := sumRecords |}.

(** The three records of the sums example as a CSV text. *)
Definition sumsCsv : string :=
  "k,v" ++ newline ++ "x,1" ++ newline ++ "x,2" ++ newline ++ "y,5".

(** The view the diagram starts in, and a wheel event at the origin. *)
Definition startView : ERDiagram.View :=
  {| ERDiagram.zoom := ofDecimal false 8 (-1);
     ERDiagram.pan := {| ERDiagram.pos_x := zero; ERDiagram.pos_y := zero |} |}.

End Examples.

(* ================================================================== *)
(** * Vocabulary of the statements *)
(* ================================================================== *)

Import JS Examples.

(** [values.reduce((a, b) => a + b, 0)]: the sum of a list of Numbers, added
    from the left. *)
Definition sum (vs : list number) : number := fold_left add vs zero.

(** [x === y] on Numbers. *)
Definition strictEq (x y : number) : Prop := SFeqb x y = true.

Section BuilderSums.
Variable host : Host.
Variables labelCol valueCol seriesCol : string.

(** What the chart builder adds for a record when it sums:
    [Number(row[valueCol]) || 0]. *)
Definition builderValue (r : dict value) : number :=
  orZero (toNumber host (get valueCol r)).

(** The records of a label and series among [rows], in order. *)
Definition builderGroup (label series : string) (rows : list (dict value))
  : list (dict value) :=
  filter (fun r => String.eqb label (FileToChart.labelOf host labelCol r)
                   && String.eqb series (FileToChart.seriesOf host seriesCol r))
         rows.

(** The records of a label among [rows], in order. *)
Definition builderLabelled (label : string) (rows : list (dict value))
  : list (dict value) :=
  filter (fun r => String.eqb label (FileToChart.labelOf host labelCol r)) rows.

(** What a record adds to its group: its value when summing, 1 when
    counting. *)
Definition builderAdded (isNumeric : bool) (r : dict value) : number :=
  if isNumeric then builderValue r else ofZ 1.

(** The running value of a group as the code keeps it: [(old || 0) + v],
    read back as [x || 0]. *)
Definition keptSum (vs : list number) (start : number) : number :=
  fold_left (fun c v => orZero (add c v)) vs start.
End BuilderSums.

Section StudioSums.
Variable host : Host.
Variables labelColumn dataColumn : string.

(** What the animation studio adds for a record in its numeric branch. *)
Definition studioValue (r : dict value) : number :=
  AnimateChart.rescue (parseFloat (toString host (get dataColumn r)))
    (toString host (get dataColumn r)) zero.

(** The values of the records labelled [label] at positions below 1000, in
    order; [index] is the position of the first of [rows]. *)
Fixpoint studioValues (label : string) (rows : list (dict value)) (index : nat)
  : list number :=
  match rows with
  | [] => []
  | r :: rest =>
      ((if (index <? 1000)%nat
           && String.eqb label (AnimateChart.labelAt host labelColumn r index)
        then [studioValue r] else [])
       ++ studioValues label rest (S index))%list
  end.
End StudioSums.

(** A list of values appended to what a Map holds for a key, if anything. *)
Definition appendTo (old : option (list number)) (new : list number)
  : option (list number) :=
  match new with
  | [] => old
  | _ => Some (match old with Some o => o ++ new | None => new end)%list
  end.

(** The flags of an attribute exclude one another. *)
Definition flagsExclusive (a : ERDiagram.ERAttribute) : Prop :=
  ERDiagram.isPrimaryKey a && ERDiagram.isForeignKey a = false.

Definition wellFlagged (entityMap : dict ERDiagram.EREntity) : Prop :=
  forall k e, In (k, e) entityMap -> Forall flagsExclusive (ERDiagram.attributes e).

(** What a data line contributes: its fields are not none, and a column
    beyond them is bound to [missing]. *)
Definition shortLineRecord (tokens : string -> list string) (missing : value)
           (headers : list string) (line : string) (r : dict value) : Prop :=
  tokens line <> []
  /\ forall j col,
       nth_error headers j = Some col ->
       (List.length (tokens line) <= j)%nat ->
       get col r = missing.

(** Two double quotes in a row, the escape of the chart builder's CSV
    reader. *)
Definition doubledQuote : string := String dquote (String dquote EmptyString).

(** A string without white space at either end. *)
Definition trimmed (s : string) : Prop := trim s = s.

(** What the value coercion of the chart builder may return: null, a
    boolean, a Number, a Date with a valid time, or a trimmed string. *)
Definition coerced (v : value) : Prop :=
  match v with
  | VNull | VBool _ | VNum _ => True
  | VDate t => isNaN t = false
  | VStr s => trimmed s
  | VUndefined | VArr _ | VObj _ => False
  end.

(** A record binding exactly the columns [headers], each once. *)
Definition bindsExactly (headers : list string) (r : dict value) : Prop :=
  NoDup (keys r) /\ forall k, In k (keys r) <-> In k headers.

(** What a data line gives under [headers], for a tokenizer and a reading of
    the fields: a record binding exactly the headers, each to the reading of
    the field at its position (at its last position, for a header that
    occurs more than once; of the empty string past the fields). *)
Definition recordOf (tokens : string -> list string) (reading : string -> value)
           (headers : list string) (line : string) (r : dict value) : Prop :=
  bindsExactly headers r
  /\ forall j col,
       nth_error headers j = Some col ->
       ~ In col (skipn (S j) headers) ->
       get col r = reading (nth j (tokens line) EmptyString).

(** The lines of a text that are not blank, as the animation studio keeps
    them. *)
Definition nonBlankLines (text : string) : list string :=
  filter (fun line => negb (String.eqb (trim line) EmptyString))
         (split "010" (trim text)).

(** [Array.isArray(jsonData) ? jsonData : [jsonData]] *)
Definition jsonItems (jsonData : value) : list value :=
  match jsonData with VArr items => items | _ => [jsonData] end.

(** An entry whose properties can be read: anything but [null] and
    [undefined]. *)
Definition readable (item : value) : bool :=
  match item with VNull | VUndefined => false | _ => true end.

(** What an entry of the JSON data gives under [headers]: a record binding
    exactly the headers, each to the coercion of the entry's member of that
    name. *)
Definition jsonRecord (host : Host) (headers : list string) (item : value)
           (r : dict value) : Prop :=
  bindsExactly headers r
  /\ forall col, In col headers ->
       exists v, FileToChart.member item col = Some v
                 /\ get col r = FileToChart.parseValue host v.

(** [file.name.toLowerCase().split('.').pop()] *)
Definition fileExtensionOf (name : string) : string :=
  last (split "." (toLowerCase name)) EmptyString.

(** The notice with which every upload below the size ceiling starts. *)
Definition processingNotice (file : FileToChart.File) : FileToChart.StatusMessage :=
  {| FileToChart.sm_type := FileToChart.info;
     FileToChart.sm_message := "Processing " ++ quoted (FileToChart.file_name file) ++ "...";
     FileToChart.sm_duration := 5000 |}.

(** An upload rejected with [message]: the history is kept, nothing is
    selected any more, and the notice is followed by the error. *)
Definition rejectedWith (file : FileToChart.File) (message : string)
           (st st' : FileToChart.State) : Prop :=
  FileToChart.uploadedFiles st' = FileToChart.uploadedFiles st
  /\ FileToChart.selectedFile st' = None
  /\ FileToChart.chartData st' = None
  /\ FileToChart.selectedColumns st' = FileToChart.noColumns
  /\ FileToChart.statusMessages st'
     = (FileToChart.statusMessages st
        ++ [processingNotice file;
            {| FileToChart.sm_type := FileToChart.error;
               FileToChart.sm_message := message;
               FileToChart.sm_duration := 5000 |}])%list.

(** A warning shown for the default five seconds. *)
Definition warningOf (message : string) : FileToChart.StatusMessage :=
  {| FileToChart.sm_type := FileToChart.warning;
     FileToChart.sm_message := message;
     FileToChart.sm_duration := 5000 |}.

Section StudioChart.
Variable host : Host.
Variables labelColumn valueColumn : string.

(** What [processDataForChart] of the animation studio adds for a record. *)
Definition chartValue (r : dict value) : number :=
  AnimateChart.rescue (parseFloatOf host (get valueColumn r))
    (toString host (get valueColumn r)) (ofZ 1).

(** The labels of the records at positions below 1000, in order. *)
Fixpoint studioLabels (rows : list (dict value)) (index : nat) : list string :=
  match rows with
  | [] => []
  | r :: rest =>
      ((if (index <? 1000)%nat then [AnimateChart.labelAt host labelColumn r index]
        else [])
       ++ studioLabels rest (S index))%list
  end.

(** The values added for the records labelled [label] at positions below
    1000, in order. *)
Fixpoint chartValues (label : string) (rows : list (dict value)) (index : nat)
  : list number :=
  match rows with
  | [] => []
  | r :: rest =>
      ((if (index <? 1000)%nat
           && String.eqb label (AnimateChart.labelAt host labelColumn r index)
        then [chartValue r] else [])
       ++ chartValues label rest (S index))%list
  end.
End StudioChart.

(** The first of a list of Numbers with the others added to it in turn. *)
Definition sumFromFirst (vs : list number) : option number :=
  match vs with
  | [] => None
  | v :: rest => Some (fold_left add rest v)
  end.

(** A value added to what a Map holds for a key, if anything. *)
Definition addTo (old : option number) (v : number) : option number :=
  Some match old with Some o => add o v | None => v end.

(** The number of binary digits of a count, and the Number a positive count
    is: its digits moved to the top of the 53 of the significand. *)
Definition bits (n : nat) : Z := Z.log2 (Z.of_nat n) + 1.

Definition countForm (n : nat) : number :=
  S754_finite false (Z.to_pos (Z.of_nat n * 2 ^ (53 - bits n))) (bits n - 53).

(** By how many digits the sum of two counts up to a thousand is moved
    before it is rounded. *)
Definition shifts : list Z := [43; 44; 45; 46; 47; 48; 49; 50; 51; 52]%Z.

(** Counts as the Numbers a Map of the categorical branch holds. *)
Definition tally (ns : dict nat) : dict number :=
  map (fun e => (fst e, ofNat (snd e))) ns.

(** What the Map of the categorical branch holds for a label that [c]
    records had so far: nothing if there was none, else the counts of its
    values, which add up to [c]. *)
Definition countIn (m : dict (dict number)) (label : string) (c : nat) : Prop :=
  match lookup label m with
  | Some valueMap => exists ns, valueMap = tally ns /\ list_sum (map snd ns) = c
  | None => c = 0%nat
  end.

(** The number of records labelled [label] at positions below 1000. *)
Definition studioCount (host : Host) (labelColumn label : string)
           (rows : list (dict value)) : nat :=
  count_occ string_dec (studioLabels host labelColumn rows 0) label.

(** What [colorAt] puts before the opacity. *)
Definition rgbaPrefix (i : nat) : string :=
  let color := nth (i mod 15) AnimateChart.baseColors EmptyString in
  "rgba(" ++ numberToString (AnimateChart.parseInt16 (substring 1 2 color)) ++ ", "
  ++ numberToString (AnimateChart.parseInt16 (substring 3 2 color)) ++ ", "
  ++ numberToString (AnimateChart.parseInt16 (substring 5 2 color)) ++ ", ".

(** Whether the strings of a list are pairwise different. *)
Fixpoint distinct (l : list string) : bool :=
  match l with
  | [] => true
  | x :: r => negb (existsb (String.eqb x) r) && distinct r
  end.

(** The lines of a description that are not blank, in lower case. *)
Definition erLines (text : string) : list string :=
  filter (fun line => negb (String.eqb (trim line) EmptyString))
         (split "010" (toLowerCase text)).

(** The relationships the sentences of a description give, before any is
    inferred from attributes. *)
Definition sentenceRelationships (text : string) : list ERDiagram.ERRelationship :=
  forEachFrom (ERDiagram.relationshipLine (ERDiagram.parseEntities (erLines text)))
    (erLines text) 0 [].

(** Every entity of the map is stored under its id. *)
Definition idKeyed (entityMap : dict ERDiagram.EREntity) : Prop :=
  forall k e, In (k, e) entityMap -> ERDiagram.ent_id e = k.

Definition entityMapOk (entityMap : dict ERDiagram.EREntity) : Prop :=
  idKeyed entityMap /\ NoDup (keys entityMap).

(** A relationship between entities of the map. *)
Definition connects (entityMap : dict ERDiagram.EREntity)
           (rel : ERDiagram.ERRelationship) : Prop :=
  In (ERDiagram.fromEntity rel) (keys entityMap)
  /\ In (ERDiagram.toEntity rel) (keys entityMap).

(** Two relationships of the same type between the same two entities, in
    either direction. *)
Definition sameLink (a b : ERDiagram.ERRelationship) : Prop :=
  ERDiagram.rel_type a = ERDiagram.rel_type b
  /\ ((ERDiagram.fromEntity a = ERDiagram.fromEntity b
       /\ ERDiagram.toEntity a = ERDiagram.toEntity b)
      \/ (ERDiagram.fromEntity a = ERDiagram.toEntity b
          /\ ERDiagram.toEntity a = ERDiagram.fromEntity b)).

(** No two relationships of a list are the same link. *)
Definition linksDistinct (l : list ERDiagram.ERRelationship) : Prop :=
  ForallOrdPairs (fun a b => ~ sameLink a b) l.

(** A string without white space. *)
Fixpoint spaceFree (s : string) : bool :=
  match s with
  | EmptyString => true
  | String c r => negb (isWhiteSpace c) && spaceFree r
  end.

(** A class name: not empty, and without white space. *)
Definition solid (w : string) : Prop := w <> EmptyString /\ spaceFree w = true.

(** [.filter(Boolean)] on strings. *)
Definition nonEmpty (pieces : list string) : list string :=
  filter (fun piece => negb (String.eqb piece EmptyString)) pieces.

(** The entity a match of the table pattern describes: named after the
    first group, with the items of the second group, split at commas and
    trimmed, the empty ones dropped, as its attributes. *)
Definition tableEntity (tableMatch : matched) : ERDiagram.EREntity :=
  {| ERDiagram.ent_id := toLowerCase (ERDiagram.group 1 tableMatch);
     ERDiagram.ent_name :=
       replaceAllChar "_" " " (toUpperCase (ERDiagram.group 1 tableMatch));
     ERDiagram.attributes :=
       match capture 2 (groups tableMatch) with
       | Some attributeString =>
           map ERDiagram.makeAttribute (nonEmpty (map trim (split "," attributeString)))
       | None => []
       end;
     ERDiagram.ent_x := zero;
     ERDiagram.ent_y := zero |}.

(** An entity that some line of [lines] describes. *)
Definition described (lines : list string) (e : ERDiagram.EREntity) : Prop :=
  exists line tableMatch,
    In line lines
    /\ exec ERDiagram.tablePattern (trim line) = Some tableMatch
    /\ e = tableEntity tableMatch.

(** An entity with further attributes pushed. *)
Definition withAttributes (e : ERDiagram.EREntity) (more : list ERDiagram.ERAttribute)
  : ERDiagram.EREntity :=
  {| ERDiagram.ent_id := ERDiagram.ent_id e;
     ERDiagram.ent_name := ERDiagram.ent_name e;
     ERDiagram.attributes := (ERDiagram.attributes e ++ more)%list;
     ERDiagram.ent_x := ERDiagram.ent_x e;
     ERDiagram.ent_y := ERDiagram.ent_y e |}.

(* ================================================================== *)
(** * Properties *)
(* ================================================================== *)

(** ** Facts about dictionaries *)

Section DictFacts.
Context {A : Type}.
Implicit Types (o : dict A) (k : string) (v : A).

Lemma lookup_In k o v : lookup k o = Some v -> In (k, v) o.
Proof.
  induction o as [|[k' v'] o IH]; simpl; [discriminate|].
  destruct (String.eqb k' k) eqn:E.
  - apply String.eqb_eq in E. intros [= ->]. left. now subst.
  - intros H. right. now apply IH.
Qed.

Lemma lookup_replaceProp_same k v o :
  has k o = true -> lookup k (replaceProp k v o) = Some v.
Proof.
  unfold has.
  induction o as [|[k' v'] o IH]; simpl; [discriminate|].
  destruct (String.eqb k' k) eqn:E; simpl.
  - now rewrite String.eqb_refl.
  - rewrite E. exact IH.
Qed.

Lemma lookup_replaceProp_other k k' v o :
  k <> k' -> lookup k (replaceProp k' v o) = lookup k o.
Proof.
  intros Hne.
  induction o as [|[k0 v0] o IH]; simpl; [reflexivity|].
  destruct (String.eqb k0 k') eqn:E; simpl.
  - apply String.eqb_eq in E. subst k0.
    destruct (String.eqb k' k) eqn:E'; [|reflexivity].
    apply String.eqb_eq in E'. congruence.
  - now rewrite IH.
Qed.

Lemma lookup_insertProp_same k v o :
  has k o = false -> lookup k (insertProp k v o) = Some v.
Proof.
  unfold has.
  induction o as [|[k' v'] o IH]; simpl.
  - now rewrite String.eqb_refl.
  - destruct (String.eqb k' k) eqn:E; [discriminate|].
    intros H. destruct (listedBefore k k'); simpl.
    + now rewrite String.eqb_refl.
    + rewrite E. now apply IH.
Qed.

Lemma lookup_insertProp_other k k' v o :
  k <> k' -> lookup k (insertProp k' v o) = lookup k o.
Proof.
  intros Hne.
  induction o as [|[k0 v0] o IH]; simpl.
  - destruct (String.eqb k' k) eqn:E; [|reflexivity].
    apply String.eqb_eq in E. congruence.
  - destruct (listedBefore k' k0); simpl.
    + destruct (String.eqb k' k) eqn:E; [|reflexivity].
      apply String.eqb_eq in E. congruence.
    + now rewrite IH.
Qed.

Lemma lookup_setProp_same k v o : lookup k (setProp k v o) = Some v.
Proof.
  unfold setProp. destruct (has k o) eqn:E.
  - now apply lookup_replaceProp_same.
  - now apply lookup_insertProp_same.
Qed.

Lemma lookup_setProp_other k k' v o :
  k <> k' -> lookup k (setProp k' v o) = lookup k o.
Proof.
  intros Hne. unfold setProp. destruct (has k' o).
  - now apply lookup_replaceProp_other.
  - now apply lookup_insertProp_other.
Qed.

Lemma In_replaceProp k v o p : In p (replaceProp k v o) -> p = (k, v) \/ In p o.
Proof.
  induction o as [|[k' v'] o IH]; simpl; [tauto|].
  destruct (String.eqb k' k); simpl.
  - intros [<-|H]; auto.
  - intros [<-|H]; auto. destruct (IH H); auto.
Qed.

Lemma In_insertProp k v o p : In p (insertProp k v o) -> p = (k, v) \/ In p o.
Proof.
  induction o as [|[k' v'] o IH]; simpl.
  - intros [<-|[]]; auto.
  - destruct (listedBefore k k'); simpl.
    + intros [<-|[<-|H]]; auto.
    + intros [<-|H]; auto. destruct (IH H); auto.
Qed.

Lemma In_setProp k v o p : In p (setProp k v o) -> p = (k, v) \/ In p o.
Proof.
  unfold setProp. destruct (has k o).
  - apply In_replaceProp.
  - apply In_insertProp.
Qed.
End DictFacts.

Lemma get_setProp_same k v (o : dict value) : get k (setProp k v o) = v.
Proof. unfold get. now rewrite lookup_setProp_same. Qed.

Lemma get_setProp_other k k' v (o : dict value) :
  k <> k' -> get k (setProp k' v o) = get k o.
Proof. intros H. unfold get. now rewrite lookup_setProp_other. Qed.

(** ** Facts about Maps *)

Section MapFacts.
Context {A : Type}.
Implicit Types (m : dict A) (k : string) (v : A).

Lemma lookup_mapSet_same k v m : lookup k (mapSet k v m) = Some v.
Proof.
  induction m as [|[k' v'] m IH]; simpl.
  - now rewrite String.eqb_refl.
  - destruct (String.eqb k' k) eqn:E; simpl.
    + now rewrite String.eqb_refl.
    + now rewrite E.
Qed.

Lemma lookup_mapSet_other k k' v m :
  k <> k' -> lookup k (mapSet k' v m) = lookup k m.
Proof.
  intros Hne.
  induction m as [|[k0 v0] m IH]; simpl.
  - destruct (String.eqb k' k) eqn:E; [|reflexivity].
    apply String.eqb_eq in E. congruence.
  - destruct (String.eqb k0 k') eqn:E; simpl.
    + apply String.eqb_eq in E. subst k0.
      destruct (String.eqb k' k) eqn:E'; [|reflexivity].
      apply String.eqb_eq in E'. congruence.
    + now rewrite IH.
Qed.

Lemma In_mapSet k v m p : In p (mapSet k v m) -> p = (k, v) \/ In p m.
Proof.
  induction m as [|[k' v'] m IH]; simpl.
  - intros [<-|[]]; auto.
  - destruct (String.eqb k' k); simpl.
    + intros [<-|H]; auto.
    + intros [<-|H]; auto. destruct (IH H); auto.
Qed.

Lemma keys_mapSet k v m :
  keys (mapSet k v m) = if has k m then keys m else (keys m ++ [k])%list.
Proof.
  unfold has.
  induction m as [|[k' v'] m IH]; simpl; [reflexivity|].
  destruct (String.eqb k' k) eqn:E; simpl.
  - apply String.eqb_eq in E. now subst.
  - rewrite IH. now destruct (lookup k m).
Qed.

Lemma has_false_not_In k m : has k m = false -> ~ In k (keys m).
Proof.
  unfold has.
  induction m as [|[k' v'] m IH]; simpl; [tauto|].
  destruct (String.eqb k' k) eqn:E; [discriminate|].
  intros H [->|Hin].
  - now rewrite String.eqb_refl in E.
  - now apply IH.
Qed.

Lemma NoDup_keys_mapSet k v m : NoDup (keys m) -> NoDup (keys (mapSet k v m)).
Proof.
  intros Hnd. rewrite keys_mapSet.
  destruct (has k m) eqn:E; [exact Hnd|].
  apply NoDup_app; repeat split.
  - exact Hnd.
  - constructor; [tauto|constructor].
  - intros x Hx [<-|[]]. now apply (has_false_not_In _ _ E).
Qed.

Lemma NoDup_lookup k v m : NoDup (keys m) -> In (k, v) m -> lookup k m = Some v.
Proof.
  induction m as [|[k' v'] m IH]; simpl; [tauto|].
  intros Hnd [[= -> ->]|Hin].
  - now rewrite String.eqb_refl.
  - inversion Hnd as [|? ? Hn Hnd']; subst.
    destruct (String.eqb k' k) eqn:E.
    + apply String.eqb_eq in E. subst k'.
      destruct Hn. unfold keys. apply in_map_iff. now exists (k, v).
    + now apply IH.
Qed.
End MapFacts.

Lemma In_firstn {A : Type} (n : nat) (l : list A) (x : A) :
  In x (firstn n l) -> In x l.
Proof.
  revert n. induction l as [|y l IH]; intros [|n]; simpl; try tauto.
  intros [->|H]; [now left|right; now apply (IH n)].
Qed.

Lemma NoDup_firstn {A : Type} (n : nat) (l : list A) : NoDup l -> NoDup (firstn n l).
Proof.
  revert n. induction l as [|x l IH]; intros [|n] Hnd; simpl; try constructor.
  - inversion Hnd; subst. intros Hin. apply In_firstn in Hin. tauto.
  - inversion Hnd; subst. now apply IH.
Qed.

(** ** Facts about Numbers *)

Lemma shr_1_nonneg mrs : (0 <= shr_m mrs)%Z -> (0 <= shr_m (shr_1 mrs))%Z.
Proof.
  destruct mrs as [m r s]. simpl.
  destruct m as [|[p|p|]|[p|p|]]; simpl; lia.
Qed.

Lemma iter_shr_1_nonneg p : forall mrs,
  (0 <= shr_m mrs)%Z -> (0 <= shr_m (iter_pos shr_1 p mrs))%Z.
Proof.
  induction p as [p IH|p IH|]; intros mrs H; simpl.
  - apply IH, IH. now apply shr_1_nonneg.
  - now apply IH, IH.
  - now apply shr_1_nonneg.
Qed.

Lemma shr_fexp_nonneg m e l :
  (0 <= m)%Z -> (0 <= shr_m (fst (shr_fexp prec emax m e l)))%Z.
Proof.
  intros Hm. unfold shr_fexp, shr.
  assert (H0 : (0 <= shr_m (shr_record_of_loc m l))%Z)
    by (destruct l as [|[]]; simpl; exact Hm).
  destruct (fexp prec emax (Zdigits2 m + e) - e)%Z; simpl; try exact H0.
  now apply iter_shr_1_nonneg.
Qed.

Lemma round_nearest_even_nonneg m l : (0 <= m)%Z -> (0 <= round_nearest_even m l)%Z.
Proof.
  intros Hm. destruct l as [|[]]; simpl; try lia.
  destruct (Z.even m); lia.
Qed.

Lemma binary_round_aux_not_nan sx mx ex lx :
  (0 <= mx)%Z -> binary_round_aux prec emax sx mx ex lx <> S754_nan.
Proof.
  intros Hm. unfold binary_round_aux.
  pose proof (shr_fexp_nonneg mx ex lx Hm) as H1.
  destruct (shr_fexp prec emax mx ex lx) as [mrs' e']. simpl in H1.
  pose proof (shr_fexp_nonneg _ e' loc_Exact
                (round_nearest_even_nonneg _ (loc_of_shr_record mrs') H1)) as H2.
  destruct (shr_fexp prec emax _ e' loc_Exact) as [mrs'' e'']. simpl in H2.
  destruct (shr_m mrs''); try discriminate; [|lia].
  destruct (e'' <=? emax - prec)%Z; discriminate.
Qed.

Lemma binary_normalize_not_nan m e : binary_normalize prec emax m e false <> S754_nan.
Proof.
  unfold binary_normalize, binary_round.
  destruct m as [|p|p]; [discriminate| |];
    destruct (shl_align _ _ _); apply binary_round_aux_not_nan; lia.
Qed.

(** Adding a finite Number to one that is not NaN does not give NaN. *)
Lemma add_not_nan s v : isNaN s = false -> isFinite v = true -> isNaN (add s v) = false.
Proof.
  intros Hs Hv. unfold add.
  destruct s as [ss|ss| |ss ms es]; try discriminate Hs;
    destruct v as [sv|sv| |sv mv ev]; try discriminate Hv; simpl;
    try reflexivity.
  - now destruct ss, sv.
  - match goal with |- isNaN ?t = false => destruct t eqn:E; try reflexivity end.
    exfalso. eapply binary_normalize_not_nan. exact E.
Qed.

Lemma orZero_not_nan x : isNaN (orZero x) = false.
Proof. now destruct x. Qed.

Lemma orZero_not_negative_zero x : orZero x <> S754_zero true.
Proof. now destruct x as [[]|[]| |[]]. Qed.

(** [(s || 0) + v] is [s + v] when [s] is not NaN and [v] is not -0. *)
Lemma add_orZero s v :
  isNaN s = false -> v <> S754_zero true -> add (orZero s) v = add s v.
Proof.
  intros Hs Hv.
  destruct s as [[]|[]| |[]]; try discriminate Hs; try reflexivity.
  destruct v as [[]| | |]; try reflexivity. now destruct Hv.
Qed.

(** [x === x] unless [x] is NaN. *)
Lemma SFeqb_refl x : isNaN x = false -> SFeqb x x = true.
Proof.
  unfold SFeqb, SFcompare.
  destruct x as [s|s| |s m e]; try discriminate; intros _; try reflexivity.
  - now destruct s.
  - destruct s; rewrite Z.compare_refl, Pos.compare_cont_refl; reflexivity.
Qed.

(** [(x || 0) === x] unless [x] is NaN. *)
Lemma SFeqb_orZero x : isNaN x = false -> SFeqb (orZero x) x = true.
Proof.
  destruct x as [s|s| |s m e]; try discriminate; intros H.
  - reflexivity.
  - now apply SFeqb_refl.
  - now apply SFeqb_refl.
Qed.

(** ** The ER example *)

(** C1, as stated, fails on the code: for the university description the
    relationship is labelled by the keyword fallback, not ["Enrollment"], and
    [student_id] and [course_id] are not flagged primary-key. *)
Lemma C1_university_counterexample :
  ~ (let p := ERDiagram.parseTextToER universityText in
     List.length (ERDiagram.entities p) = 2%nat
     /\ (exists rel,
            ERDiagram.relationships p = [rel]
            /\ ERDiagram.rel_type rel = "many-to-many"
            /\ ERDiagram.rel_label rel = "Enrollment")
     /\ existsb ERDiagram.isPrimaryKey (ERDiagram.attributesNamed "student_id" p) = true
     /\ existsb ERDiagram.isPrimaryKey (ERDiagram.attributesNamed "course_id" p) = true).
Proof.
  intros [_ [_ [Hpk _]]].
  vm_compute in Hpk.
  discriminate Hpk.
Qed.

(** C1, amended: the university description yields exactly two entities and
    exactly one relationship, of type many-to-many; [student_id] and
    [course_id] each occur once, flagged foreign-key and not primary-key. *)
Theorem C1_university_example :
  let p := ERDiagram.parseTextToER universityText in
  map ERDiagram.ent_id (ERDiagram.entities p) = ["students"; "courses"]
  /\ (exists rel,
         ERDiagram.relationships p = [rel]
         /\ ERDiagram.fromEntity rel = "students"
         /\ ERDiagram.toEntity rel = "courses"
         /\ ERDiagram.rel_type rel = "many-to-many")
  /\ ERDiagram.attributesNamed "student_id" p
     = [{| ERDiagram.attr_name := "student_id"; ERDiagram.attr_type := "int";
           ERDiagram.isPrimaryKey := false; ERDiagram.isForeignKey := true |}]
  /\ ERDiagram.attributesNamed "course_id" p
     = [{| ERDiagram.attr_name := "course_id"; ERDiagram.attr_type := "int";
           ERDiagram.isPrimaryKey := false; ERDiagram.isForeignKey := true |}].
Proof.
  cbv zeta.
  split; [vm_compute; reflexivity|].
  split.
  - eexists. split; [vm_compute; reflexivity|].
    repeat split.
  - split; vm_compute; reflexivity.
Qed.

(** On that input the explicit pattern does not apply (it asks for
    [enrolls in]), and the label comes from the keyword [enroll]. *)
Lemma university_label :
  JS.exec ERDiagram.explicitPattern
    "students enroll in courses (many-to-many relationship called 'enrollment')" = None
  /\ map ERDiagram.rel_label
         (ERDiagram.relationships (ERDiagram.parseTextToER universityText))
     = ["enrolls in"].
Proof. split; vm_compute; reflexivity. Qed.

(** ** The aggregation of the chart builder *)

Lemma fold_add_not_nan vs : forall s,
  isNaN s = false ->
  Forall (fun v => isFinite v = true) vs ->
  isNaN (fold_left add vs s) = false.
Proof.
  induction vs as [|v vs IH]; intros s Hs Hvs; simpl; [exact Hs|].
  inversion Hvs; subst. apply IH; [|assumption]. now apply add_not_nan.
Qed.

(** The sum the code keeps is the sum from the left, read as [x || 0]. *)
Lemma keptSum_sum vs : forall s,
  isNaN s = false ->
  Forall (fun v => isFinite v = true /\ v <> S754_zero true) vs ->
  keptSum vs (orZero s) = orZero (fold_left add vs s).
Proof.
  unfold keptSum.
  induction vs as [|v vs IH]; intros s Hs Hvs; simpl; [reflexivity|].
  inversion Hvs as [|? ? [Hfin Hnz] Hrest]; subst.
  rewrite (add_orZero s v Hs Hnz).
  apply IH; [|assumption]. now apply add_not_nan.
Qed.

Section BuilderAggregation.
Variable host : Host.
Variables labelCol valueCol seriesCol : string.
Variable isNumeric : bool.

#[local] Abbreviation groupRow :=
  (FileToChart.groupRow host isNumeric labelCol valueCol seriesCol).
#[local] Abbreviation labelOf := (FileToChart.labelOf host labelCol).
#[local] Abbreviation seriesOf := (FileToChart.seriesOf host seriesCol).
#[local] Abbreviation added := (builderAdded host valueCol isNumeric).

Lemma groupRow_unfold g r :
  groupRow g r
  = let m := match lookup (labelOf r) g with Some m => m | None => [] end in
    mapSet (labelOf r)
      (mapSet (seriesOf r) (add (FileToChart.seriesGet (seriesOf r) m) (added r)) m) g.
Proof.
  unfold FileToChart.groupRow, builderAdded, builderValue.
  now destruct isNumeric.
Qed.

Lemma seriesGet_cell g S L :
  FileToChart.seriesGet S (match lookup L g with Some m => m | None => [] end)
  = FileToChart.cell g S L.
Proof. unfold FileToChart.cell. now destruct (lookup L g). Qed.

Lemma cell_groupRow g r S L :
  FileToChart.cell (groupRow g r) S L
  = if String.eqb L (labelOf r) && String.eqb S (seriesOf r)
    then orZero (add (FileToChart.cell g S L) (added r))
    else FileToChart.cell g S L.
Proof.
  rewrite groupRow_unfold. cbv zeta.
  unfold FileToChart.cell at 1.
  destruct (String.eqb L (labelOf r)) eqn:EL.
  - apply String.eqb_eq in EL. subst L.
    rewrite lookup_mapSet_same.
    destruct (String.eqb S (seriesOf r)) eqn:ES; simpl.
    + apply String.eqb_eq in ES. subst S.
      unfold FileToChart.seriesGet at 1. rewrite lookup_mapSet_same.
      now rewrite seriesGet_cell.
    + unfold FileToChart.seriesGet at 1. rewrite lookup_mapSet_other.
      * apply seriesGet_cell.
      * intros ->. now rewrite String.eqb_refl in ES.
  - simpl. rewrite lookup_mapSet_other; [reflexivity|].
    intros ->. now rewrite String.eqb_refl in EL.
Qed.

Lemma cell_groupRows rows : forall g S L,
  FileToChart.cell (fold_left groupRow rows g) S L
  = keptSum (map added (builderGroup host labelCol seriesCol L S rows))
            (FileToChart.cell g S L).
Proof.
  induction rows as [|r rows IH]; intros g S L; simpl; [reflexivity|].
  rewrite IH, cell_groupRow.
  now destruct (String.eqb L (labelOf r) && String.eqb S (seriesOf r)).
Qed.

Lemma NoDup_keys_groupRows rows : forall g,
  NoDup (keys g) -> NoDup (keys (fold_left groupRow rows g)).
Proof.
  induction rows as [|r rows IH]; intros g Hg; simpl; [exact Hg|].
  apply IH. rewrite groupRow_unfold. now apply NoDup_keys_mapSet.
Qed.

(** Every series name of a group comes from a record. *)
Lemma series_of_groupRows rows : forall g L m S,
  In (L, m) (fold_left groupRow rows g) ->
  In S (keys m) ->
  (exists L' m', In (L', m') g /\ In S (keys m'))
  \/ exists r, In r rows /\ S = seriesOf r.
Proof.
  induction rows as [|r rows IH]; intros g L m S Hin HS; simpl in *.
  - left. eauto.
  - destruct (IH _ _ _ _ Hin HS) as [(L' & m' & Hin' & HS')|(r' & Hr' & ->)].
    + rewrite groupRow_unfold in Hin'. cbv zeta in Hin'.
      apply In_mapSet in Hin'. destruct Hin' as [[= -> ->]|Hin'].
      * rewrite keys_mapSet in HS'.
        assert (Hold : In S (keys (match lookup (labelOf r) g with
                                   | Some m0 => m0 | None => [] end))
                       \/ S = seriesOf r).
        { destruct (has _ _); [now left|].
          apply in_app_or in HS'. destruct HS' as [H|[<-|[]]]; auto. }
        destruct Hold as [Hold| ->]; [|right; exists r; auto].
        destruct (lookup (labelOf r) g) as [m0|] eqn:E; [|destruct Hold].
        left. exists (labelOf r), m0. split; [|exact Hold].
        now apply lookup_In.
      * left. eauto.
    + right. exists r'. auto.
Qed.
End BuilderAggregation.

(** ** The aggregation of the animation studio *)

Section ForEach.
Context {A S : Type}.
Variable f : S -> A -> nat -> S.

Lemma forEachFrom_invariant (P : S -> Prop) :
  (forall s x i, P s -> P (f s x i)) ->
  forall l i s, P s -> P (forEachFrom f l i s).
Proof.
  intros Hstep. induction l as [|x l IH]; intros i s Hs; simpl; [exact Hs|].
  apply IH, Hstep, Hs.
Qed.

(** A callback that returns at once from position 1000 on sees only the
    first thousand elements. *)
Lemma forEachFrom_first_thousand :
  (forall s x i, (1000 <= i)%nat -> f s x i = s) ->
  forall l i s, forEachFrom f l i s = forEachFrom f (firstn (1000 - i) l) i s.
Proof.
  intros Hskip. induction l as [|x l IH]; intros i s.
  - now rewrite firstn_nil.
  - simpl forEachFrom at 1. rewrite IH.
    destruct (le_lt_dec 1000 i) as [Hge|Hlt].
    + replace (1000 - i)%nat with 0%nat by lia.
      replace (1000 - Datatypes.S i)%nat with 0%nat by lia.
      simpl. now apply Hskip.
    + replace (1000 - i)%nat with (Datatypes.S (1000 - Datatypes.S i)) by lia.
      reflexivity.
Qed.

Lemma forEachFrom_truncated :
  (forall s x i, (1000 <= i)%nat -> f s x i = s) ->
  forall l s, forEachFrom f l 0 s = forEachFrom f (firstn 1000 l) 0 s.
Proof. intros Hskip l s. now rewrite (forEachFrom_first_thousand Hskip l 0 s). Qed.
End ForEach.

Section SortFacts.
Context {A : Type}.
Variable comparefn : A -> A -> number.

Lemma insertSorted_perm x l : Permutation (insertSorted comparefn x l) (x :: l).
Proof.
  induction l as [|y l IH]; simpl; [reflexivity|].
  destruct (comesAfter comparefn y x); [reflexivity|].
  rewrite IH. apply perm_swap.
Qed.

Lemma sort_perm l : Permutation (sort comparefn l) l.
Proof.
  unfold sort.
  assert (H : forall acc,
             Permutation (fold_left (fun sorted x => insertSorted comparefn x sorted) l acc)
                         (acc ++ l)%list).
  { induction l as [|x l IH]; intros acc; simpl.
    - now rewrite app_nil_r.
    - rewrite IH, insertSorted_perm. apply Permutation_middle. }
  exact (H []).
Qed.
End SortFacts.

Section StudioAggregation.
Variable host : Host.
Variables labelColumn dataColumn : string.

#[local] Abbreviation numericStep := (AnimateChart.numericStep host labelColumn dataColumn).
#[local] Abbreviation categoricalStep :=
  (AnimateChart.categoricalStep host labelColumn dataColumn).

Lemma numericStep_skips m r i : (1000 <= i)%nat -> numericStep m r i = m.
Proof.
  intros H. unfold AnimateChart.numericStep.
  now replace (1000 <=? i)%nat with true by (symmetry; now apply Nat.leb_le).
Qed.

Lemma categoricalStep_skips m r i : (1000 <= i)%nat -> categoricalStep m r i = m.
Proof.
  intros H. unfold AnimateChart.categoricalStep.
  now replace (1000 <=? i)%nat with true by (symmetry; now apply Nat.leb_le).
Qed.

Lemma numericStep_NoDup m r i : NoDup (keys m) -> NoDup (keys (numericStep m r i)).
Proof.
  intros H. unfold AnimateChart.numericStep.
  destruct (1000 <=? i)%nat; [exact H|].
  destruct (lookup _ m); now apply NoDup_keys_mapSet.
Qed.

Lemma categoricalStep_NoDup m r i :
  NoDup (keys m) -> NoDup (keys (categoricalStep m r i)).
Proof.
  intros H. unfold AnimateChart.categoricalStep.
  destruct (1000 <=? i)%nat; [exact H|].
  now apply NoDup_keys_mapSet.
Qed.

(** The studio reads only the first thousand records. *)
Lemma processSelectedColumns_truncated data :
  AnimateChart.processSelectedColumns host data labelColumn dataColumn
  = AnimateChart.processSelectedColumns host (firstn 1000 data) labelColumn dataColumn.
Proof.
  unfold AnimateChart.processSelectedColumns, AnimateChart.isNumericColumn.
  rewrite firstn_firstn. simpl Nat.min.
  rewrite (forEachFrom_truncated numericStep numericStep_skips
             (firstn 1000 data)).
  rewrite (forEachFrom_truncated categoricalStep categoricalStep_skips
             (firstn 1000 data)).
  rewrite firstn_firstn. simpl Nat.min.
  rewrite <- (forEachFrom_truncated numericStep numericStep_skips data).
  rewrite <- (forEachFrom_truncated categoricalStep categoricalStep_skips data).
  reflexivity.
Qed.

Lemma topEntries_labels {B : Type} (g : string * B -> number) (m : dict B) :
  NoDup (keys m) ->
  let top := AnimateChart.topEntries (map (fun e => (fst e, g e)) m) in
  NoDup (map fst top)
  /\ (List.length (map fst top) <= 30)%nat
  /\ forall label out, In (label, out) top -> exists e, In e m /\ label = fst e /\ out = g e.
Proof.
  intros Hnd top. subst top. unfold AnimateChart.topEntries.
  set (entries := map (fun e => (fst e, g e)) m).
  pose proof (sort_perm AnimateChart.byValueDescending entries) as Hperm.
  split; [|split].
  - rewrite <- firstn_map. apply NoDup_firstn.
    apply (Permutation_NoDup (l := map fst entries)).
    + symmetry. now apply Permutation_map.
    + unfold entries. rewrite map_map. simpl. exact Hnd.
  - rewrite length_map. apply firstn_le_length.
  - intros label out Hin. apply In_firstn in Hin.
    apply (Permutation_in _ Hperm) in Hin.
    unfold entries in Hin. apply in_map_iff in Hin.
    destruct Hin as [e [[= <- <-] He]]. now exists e.
Qed.

(** The labels of the studio's chart are distinct and at most thirty. *)
Lemma processSelectedColumns_labels data :
  let chart := AnimateChart.processSelectedColumns host data labelColumn dataColumn in
  NoDup (AnimateChart.labels chart)
  /\ (List.length (AnimateChart.labels chart) <= 30)%nat.
Proof.
  cbv zeta. unfold AnimateChart.processSelectedColumns.
  destruct (AnimateChart.isNumericColumn host data dataColumn); simpl.
  - assert (Hnd : NoDup (keys (forEachFrom numericStep data 0 []))).
    { apply forEachFrom_invariant; [intros; now apply numericStep_NoDup|constructor]. }
    destruct (topEntries_labels (fun e => AnimateChart.total (snd e)) _ Hnd)
      as (H1 & H2 & _).
    now split.
  - assert (Hnd : NoDup (keys (forEachFrom categoricalStep data 0 []))).
    { apply forEachFrom_invariant; [intros; now apply categoricalStep_NoDup|constructor]. }
    destruct (topEntries_labels (fun e => AnimateChart.total (values (snd e))) _ Hnd)
      as (H1 & H2 & _).
    now split.
Qed.

Lemma appendTo_app old a b : appendTo (appendTo old a) b = appendTo old (a ++ b)%list.
Proof.
  destruct a as [|x a]; [reflexivity|].
  destruct b as [|y b]; simpl.
  - now rewrite app_nil_r.
  - destruct old; simpl; now rewrite <- ?app_assoc.
Qed.

(** What the numeric branch holds for a label: the values of its records. *)
Lemma lookup_numericSteps label rows : forall index m,
  lookup label (forEachFrom numericStep rows index m)
  = appendTo (lookup label m) (studioValues host labelColumn dataColumn label rows index).
Proof.
  induction rows as [|r rows IH]; intros index m; simpl; [reflexivity|].
  rewrite IH, <- appendTo_app. f_equal.
  unfold AnimateChart.numericStep.
  destruct (Nat.leb_spec 1000 index) as [Hge|Hlt].
  - replace (index <? 1000)%nat with false
      by (symmetry; apply Nat.ltb_ge; lia).
    reflexivity.
  - replace (index <? 1000)%nat with true
      by (symmetry; apply Nat.ltb_lt; lia).
    simpl andb. fold (studioValue host dataColumn r).
    destruct (String.eqb label (AnimateChart.labelAt host labelColumn r index)) eqn:E.
    + apply String.eqb_eq in E. subst label.
      destruct (lookup _ m) as [vals|]; now rewrite lookup_mapSet_same.
    + assert (Hne : label <> AnimateChart.labelAt host labelColumn r index)
        by (intros ->; now rewrite String.eqb_refl in E).
      destruct (lookup (AnimateChart.labelAt host labelColumn r index) m);
        now rewrite lookup_mapSet_other.
Qed.
End StudioAggregation.

(** ** Truncation *)


(** ** Truncation, in general *)

Lemma builder_chart_labels (host : Host) (isNumeric : bool)
      (labelCol valueCol seriesCol : string) (rows : list (dict value)) :
  let chart :=
    FileToChart.chartOf isNumeric valueCol seriesCol
      (FileToChart.groupRows host isNumeric labelCol valueCol seriesCol rows) in
  NoDup (FileToChart.labels chart)
  /\ (List.length (FileToChart.labels chart) <= 50)%nat.
Proof.
  cbv zeta. unfold FileToChart.chartOf. cbn [FileToChart.labels]. split.
  - apply NoDup_firstn. unfold FileToChart.groupRows.
    apply NoDup_keys_groupRows. constructor.
  - apply firstn_le_length.
Qed.



(** ** CSV with a quoted comma *)

Lemma setProp_pair (k1 k2 : string) (v1 v2 : value) :
  k1 <> k2 ->
  let r := setProp k2 v2 (setProp k1 v1 []) in
  List.length r = 2%nat /\ get k1 r = v1 /\ get k2 r = v2.
Proof.
  intros Hne r. subst r. split; [|split].
  - unfold setProp at 2. simpl. unfold setProp, has. simpl.
    replace (String.eqb k1 k2) with false
      by (symmetry; now apply String.eqb_neq).
    simpl. now destruct (listedBefore k2 k1).
  - rewrite get_setProp_other by exact Hne. apply get_setProp_same.
  - apply get_setProp_same.
Qed.



(** ** Column auto-selection *)

(** C4 at a file whose first column is numeric: the chart builder takes the
    first column, [year], as the label column and, being the first numeric
    column, as the value column too. *)
Theorem C4_label_column_chosen_as_value (host : Host) :
  FileToChart.selectedColumns
    (FileToChart.handleFileUpload host (Some yearsFile) FileToChart.initialState)
  = {| FileToChart.sc_label := "year";
       FileToChart.sc_value := "year";
       FileToChart.sc_series := EmptyString |}.
Proof. vm_compute. reflexivity. Qed.

(** In general: when the first column holds a number in some record, the
    chart builder selects it both as label and as value column. *)
Lemma numeric_first_column_is_value (first : string)
      (others : list string) (processedData : list (dict value)) :
  existsb (fun r => isNumberValue (get first r)) processedData = true ->
  let cols := FileToChart.autoSelect (first :: others) processedData in
  FileToChart.sc_label cols = first /\ FileToChart.sc_value cols = first.
Proof.
  intros Hnum. unfold FileToChart.autoSelect, FileToChart.numericColumns.
  cbn [filter nth]. rewrite Hnum. cbn [FileToChart.sc_label FileToChart.sc_value].
  split; reflexivity.
Qed.

(** The value column the animation studio finds by its loop is never the
    label column, and its value in the first record looks numeric. *)
Lemma studio_value_column_is_other (host : Host) (columns : list string)
      (labelColumn col : string) (firstRow : dict value) :
  AnimateChart.firstNumericColumn host columns labelColumn firstRow = Some col ->
  In col columns
  /\ col <> labelColumn
  /\ AnimateChart.looksNumeric host (get col firstRow) = true.
Proof.
  unfold AnimateChart.firstNumericColumn. intros H.
  apply find_some in H. destruct H as [Hin H].
  apply andb_prop in H. destruct H as [Hne Hnum].
  split; [exact Hin|]. split; [|exact Hnum].
  intros ->. rewrite String.eqb_refl in Hne. discriminate Hne.
Qed.

(** The sheet loader of the animation studio on the same table: the label
    column is skipped, no other column looks numeric, and the second column
    is taken. *)
Lemma sheet_value_column_skips_label (host : Host) :
  AnimateChart.chooseValueColumn host ["year"; "name"] "year"
    [("year", VNum (ofZ 2020)); ("name", VStr "a")] = "name".
Proof. vm_compute. reflexivity. Qed.

(** ** The size ceiling *)

(** C5, as stated, fails for the animation studio: a file above 10MB is not
    rejected there.  No error is shown, the page goes to loading with a
    processing notice, and the reader is asked for the text, which
    [parseFileData] then parses. *)
Lemma C5_studio_counterexample :
  ~ ((10 * 1024 * 1024 < AnimateChart.file_size bigUpload)%Z ->
     let '(st', request) := AnimateChart.handleFile bigUpload AnimateChart.initialState in
     request = None
     /\ (exists message,
            AnimateChart.statusMessage st'
            = Some {| AnimateChart.st_message := message;
                      AnimateChart.st_type := "error" |})
     /\ AnimateChart.isLoading st' = AnimateChart.isLoading AnimateChart.initialState
     /\ AnimateChart.chartData st' = AnimateChart.chartData AnimateChart.initialState
     /\ AnimateChart.currentSheetData st'
        = AnimateChart.currentSheetData AnimateChart.initialState).
Proof.
  intros H.
  assert (Hbig : (10 * 1024 * 1024 < AnimateChart.file_size bigUpload)%Z)
    by (vm_compute; reflexivity).
  specialize (H Hbig).
  destruct (AnimateChart.handleFile bigUpload AnimateChart.initialState)
    as [st' request] eqn:Hrun.
  vm_compute in Hrun. injection Hrun as <- <-.
  destruct H as [Hread _].
  discriminate Hread.
Qed.

(** What the studio does with that file. *)
Lemma studio_reads_oversize_file :
  AnimateChart.handleFile bigUpload AnimateChart.initialState
  = ({| AnimateChart.chartData := None;
        AnimateChart.currentSheetData := None;
        AnimateChart.isLoading := true;
        AnimateChart.statusMessage :=
          Some {| AnimateChart.st_message := "Processing file: big.csv";
                  AnimateChart.st_type := "warning" |};
        AnimateChart.selectedLabelColumn := EmptyString;
        AnimateChart.selectedValueColumn := EmptyString |},
     Some AnimateChart.readAsText).
Proof. vm_compute. reflexivity. Qed.

(** The equation of a rejected upload. *)
Lemma oversize_upload (host : Host) (file : FileToChart.File)
      (st : FileToChart.State) :
  (10 * 1024 * 1024 < FileToChart.file_size file)%Z ->
  FileToChart.handleFileUpload host (Some file) st
  = FileToChart.addStatusMessage "File size exceeds the limit of 10MB."
      FileToChart.error 5000 st.
Proof.
  intros Hsize.
  unfold FileToChart.handleFileUpload.
  replace (FileToChart.MAX_FILE_SIZE_MB * 1024 * 1024 <? FileToChart.file_size file)%Z
    with true.
  - replace (numberToString (ofZ FileToChart.MAX_FILE_SIZE_MB)) with "10"
      by (vm_compute; reflexivity).
    reflexivity.
  - symmetry. apply Z.ltb_lt. exact Hsize.
Qed.

(** C5, amended to the chart builder: a file above 10MB offered to
    [handleFileUpload] (by the picker or the drop zone) is rejected with the
    error message and nothing else: the message is appended, the rest of
    the page state is unchanged, and the outcome is the same whatever the
    text of the file, which is never read. *)
Theorem C5_oversize_rejected (host : Host) (file : FileToChart.File)
        (st : FileToChart.State) :
  (10 * 1024 * 1024 < FileToChart.file_size file)%Z ->
  let st' := FileToChart.handleFileUpload host (Some file) st in
  FileToChart.statusMessages st'
  = (FileToChart.statusMessages st
     ++ [{| FileToChart.sm_type := FileToChart.error;
            FileToChart.sm_message := "File size exceeds the limit of 10MB.";
            FileToChart.sm_duration := 5000 |}])%list
  /\ FileToChart.uploadedFiles st' = FileToChart.uploadedFiles st
  /\ FileToChart.selectedFile st' = FileToChart.selectedFile st
  /\ FileToChart.chartData st' = FileToChart.chartData st
  /\ FileToChart.selectedColumns st' = FileToChart.selectedColumns st
  /\ FileToChart.isLoading st' = FileToChart.isLoading st
  /\ forall text,
       FileToChart.handleFileUpload host
         (Some {| FileToChart.file_name := FileToChart.file_name file;
                  FileToChart.file_type := FileToChart.file_type file;
                  FileToChart.file_size := FileToChart.file_size file;
                  FileToChart.file_text := text |}) st
       = st'.
Proof.
  intros Hsize st'. subst st'.
  rewrite (oversize_upload host file st Hsize).
  repeat split.
  intros text. now apply oversize_upload.
Qed.

Lemma C5_oversize_rejected_witness :
  (10 * 1024 * 1024 < FileToChart.file_size bigFile)%Z
  /\ FileToChart.statusMessages
       (FileToChart.handleFileUpload plainHost (Some bigFile) FileToChart.initialState)
     = [{| FileToChart.sm_type := FileToChart.error;
           FileToChart.sm_message := "File size exceeds the limit of 10MB.";
           FileToChart.sm_duration := 5000 |}].
Proof.
  assert (Hsize : (10 * 1024 * 1024 < FileToChart.file_size bigFile)%Z)
    by (vm_compute; reflexivity).
  split; [exact Hsize|].
  exact (proj1 (C5_oversize_rejected plainHost bigFile FileToChart.initialState Hsize)).
Defined.

(** ** Value coercion *)

(** C6 at a numeric string in exponent notation: ["1e3"] parses to the
    integral value 1000, and [parseValue] returns what [parseInt] reads of
    the text, 1; for [".0"] it returns NaN.  The examples of the claim,
    ["42"] and ["3.14"], come out as 42 and 3.14. *)
Theorem C6_exponent_notation (host : Host) :
  parseFloat "1e3" = ofZ 1000
  /\ isInteger (parseFloat "1e3") = true
  /\ FileToChart.parseValue host (VStr "1e3") = VNum (ofZ 1)
  /\ FileToChart.parseValue host (VStr ".0") = VNum NaN
  /\ FileToChart.parseValue host (VStr "42") = VNum (ofZ 42)
  /\ FileToChart.parseValue host (VStr "3.14") = VNum (ofDecimal false 314 (-2)).
Proof. repeat split; vm_compute; reflexivity. Qed.

(** ** What holds of the value coercion *)

Lemma digitsLoop_nonempty fuel : forall n acc, digitsLoop fuel n acc <> EmptyString.
Proof.
  induction fuel as [|fuel IH]; intros n acc; simpl; [discriminate|].
  destruct (n <? 10)%Z; [discriminate|apply IH].
Qed.

Lemma append_nonempty_l (a b : string) : a <> EmptyString -> a ++ b <> EmptyString.
Proof. destruct a; [congruence|discriminate]. Qed.

Lemma append_nonempty_r (a b : string) : b <> EmptyString -> a ++ b <> EmptyString.
Proof. destruct a; [auto|discriminate]. Qed.

Lemma formatDigits_nonempty ds n : ds <> EmptyString -> formatDigits ds n <> EmptyString.
Proof.
  intros Hds. unfold formatDigits.
  destruct ((Z.of_nat (String.length ds) <=? n)%Z && (n <=? 21)%Z).
  { now apply append_nonempty_l. }
  destruct ((0 <? n)%Z && (n <=? 21)%Z).
  { apply append_nonempty_r. discriminate. }
  destruct ((-6 <? n)%Z && (n <=? 0)%Z); [discriminate|].
  destruct (Z.of_nat (String.length ds) =? 1)%Z.
  - now apply append_nonempty_l.
  - apply append_nonempty_r. discriminate.
Qed.

(** The text of a Number is never empty. *)
Lemma numberToString_nonempty x : numberToString x <> EmptyString.
Proof.
  destruct x as [s|s| |s m e]; simpl; try discriminate.
  - now destruct s.
  - apply append_nonempty_r. unfold positiveToString.
    destruct (shortest _ _ _ _ _ _) as [d n].
    apply formatDigits_nonempty, digitsLoop_nonempty.
Qed.

(** Null, undefined and the empty string are coerced to null. *)
Lemma parseValue_empty (host : Host) :
  FileToChart.parseValue host VNull = VNull
  /\ FileToChart.parseValue host VUndefined = VNull
  /\ FileToChart.parseValue host (VStr EmptyString) = VNull.
Proof. repeat split. Qed.

(** ["true"] and ["false"], in any case and between blanks, are coerced to
    the booleans. *)
Lemma parseValue_boolean (host : Host) (s : string) :
  (toLowerCase (trim s) = "true" -> FileToChart.parseValue host (VStr s) = VBool true)
  /\ (toLowerCase (trim s) = "false" -> FileToChart.parseValue host (VStr s) = VBool false).
Proof.
  split; intros H; (destruct s as [|c s]; [discriminate H|]);
    unfold FileToChart.parseValue; cbn [toString]; now rewrite H.
Qed.

(** Coercing a Number and coercing its text give the same result. *)
Lemma parseValue_number_text (host : Host) (x : number) :
  FileToChart.parseValue host (VNum x)
  = FileToChart.parseValue host (VStr (numberToString x)).
Proof.
  pose proof (numberToString_nonempty x) as Hne.
  unfold FileToChart.parseValue. cbn [toString].
  destruct (numberToString x); [congruence|reflexivity].
Qed.

(** ** Sums per label *)

Lemma unique_In seen l x : In x (unique seen l) -> In x l.
Proof.
  revert seen. induction l as [|y l IH]; intros seen; simpl; [tauto|].
  destruct (existsb (String.eqb y) seen).
  - intros H. right. now apply (IH seen).
  - intros [->|H]; [now left|right; now apply (IH (y :: seen))].
Qed.

Lemma unique_seen d seen l :
  In d seen -> (forall x, In x l -> x = d) -> unique seen l = [].
Proof.
  intros Hd. induction l as [|y l IH]; intros Hall; simpl; [reflexivity|].
  assert (y = d) by (apply Hall; now left). subst y.
  replace (existsb (String.eqb d) seen) with true.
  - apply IH. intros x Hx. apply Hall. now right.
  - symmetry. apply existsb_exists. exists d. split; [exact Hd|apply String.eqb_refl].
Qed.

Lemma unique_single d l :
  l <> [] -> (forall x, In x l -> x = d) -> unique [] l = [d].
Proof.
  destruct l as [|y l]; [congruence|]. intros _ Hall. simpl.
  assert (y = d) by (apply Hall; now left). subst y.
  f_equal. apply (unique_seen d); [now left|].
  intros x Hx. apply Hall. now right.
Qed.

Lemma In_mapSet_new {A : Type} k (v : A) m : In (k, v) (mapSet k v m).
Proof. apply lookup_In, lookup_mapSet_same. Qed.

Lemma Forall2_fst_snd {A B : Type} (P : A -> B -> Prop) (l : list (A * B)) :
  (forall a b, In (a, b) l -> P a b) -> Forall2 P (map fst l) (map snd l).
Proof.
  induction l as [|[a b] l IH]; intros H; simpl; constructor.
  - apply H. now left.
  - apply IH. intros a' b' Hin. apply H. now right.
Qed.

Lemma Forall2_map_same {A B : Type} (P : A -> B -> Prop) (f : A -> B) (l : list A) :
  (forall a, P a (f a)) -> Forall2 P l (map f l).
Proof. intros H. induction l; simpl; constructor; auto. Qed.

Lemma appendTo_None vs x : appendTo None vs = Some x -> x = vs.
Proof. destruct vs; simpl; [discriminate|now intros [= <-]]. Qed.

Section BuilderSumsFacts.
Variable host : Host.
Variables labelCol valueCol : string.

#[local] Abbreviation grouped rows :=
  (FileToChart.groupRows host true labelCol valueCol EmptyString rows).

(** The cell of a label and series is the sum of the values of their
    records, as long as these values are finite. *)
Lemma builder_cell_sum seriesCol rows label series :
  Forall (fun r => isFinite (builderValue host valueCol r) = true) rows ->
  strictEq
    (FileToChart.cell (FileToChart.groupRows host true labelCol valueCol seriesCol rows)
       series label)
    (sum (map (builderValue host valueCol)
              (builderGroup host labelCol seriesCol label series rows))).
Proof.
  intros Hfin. unfold FileToChart.groupRows. rewrite cell_groupRows.
  change (map (builderAdded host valueCol true))
    with (map (builderValue host valueCol)).
  change (FileToChart.cell [] series label) with (orZero zero).
  set (vs := map _ _).
  assert (Hvs : Forall (fun v => isFinite v = true) vs).
  { unfold vs. apply Forall_map. unfold builderGroup.
    apply Forall_forall. intros r Hr. apply filter_In in Hr.
    rewrite Forall_forall in Hfin. now apply Hfin. }
  rewrite keptSum_sum; [| reflexivity |].
  - apply SFeqb_orZero. now apply fold_add_not_nan.
  - unfold vs in *. rewrite Forall_map in *.
    eapply Forall_impl; [|exact Hvs]. intros r Hr. split; [exact Hr|].
    apply orZero_not_negative_zero.
Qed.

(** Without a series column every record is in the series ["Default"]. *)
Lemma builderGroup_no_series rows label :
  builderGroup host labelCol EmptyString label "Default" rows
  = builderLabelled host labelCol label rows.
Proof.
  unfold builderGroup, builderLabelled. apply filter_ext.
  intros r. unfold FileToChart.seriesOf. simpl. now rewrite andb_true_r.
Qed.

Lemma builder_series_default rows L m s :
  In (L, m) (grouped rows) -> In s (keys m) -> s = "Default".
Proof.
  intros Hin Hs. unfold FileToChart.groupRows in Hin.
  destruct (series_of_groupRows host labelCol valueCol EmptyString true
              rows [] L m s Hin Hs) as [(L' & m' & [] & _)|(r & _ & ->)].
  reflexivity.
Qed.

Lemma builder_series_present rows : forall g,
  rows <> [] ->
  flat_map (fun m => keys m)
    (values (fold_left (FileToChart.groupRow host true labelCol valueCol EmptyString)
                       rows g)) <> [].
Proof.
  assert (Hstep : forall g r,
             flat_map (fun m => keys m)
               (values (FileToChart.groupRow host true labelCol valueCol EmptyString g r))
             <> []).
  { intros g r. rewrite groupRow_unfold. cbv zeta.
    set (m' := mapSet (FileToChart.seriesOf host EmptyString r) _ _).
    assert (Hin : In (FileToChart.seriesOf host EmptyString r)
                     (flat_map (fun m => keys m)
                        (values (mapSet (FileToChart.labelOf host labelCol r) m' g)))).
    { apply in_flat_map. exists m'. split.
      - unfold values. apply in_map_iff.
        exists (FileToChart.labelOf host labelCol r, m'). split; [reflexivity|].
        apply In_mapSet_new.
      - unfold m', keys. apply in_map_iff.
        eexists (_, _). split; [reflexivity|]. apply In_mapSet_new. }
    intros E. rewrite E in Hin. destruct Hin. }
  induction rows as [|r rows IH]; intros g Hne; [congruence|].
  simpl. destruct rows as [|r' rows']; [apply Hstep|].
  apply IH. discriminate.
Qed.
End BuilderSumsFacts.



(** ** Short CSV lines *)


(** ** Records of short CSV lines *)

Lemma builder_tokens_nonempty_aux (n : nat) :
  forall line result current inQuotes,
    (String.length line <= n)%nat ->
    FileToChart.parseCSVLine_from line result current inQuotes <> [].
Proof.
  induction n as [|n IH]; intros line result current inQuotes Hlen.
  - destruct line; simpl in *; [|lia]. now destruct result.
  - destruct line as [|char rest]; simpl in *; [now destruct result|].
    destruct (Ascii.eqb char dquote && negb inQuotes); [apply IH; lia|].
    destruct (Ascii.eqb char dquote && inQuotes).
    + destruct rest as [|c rest']; [apply IH; simpl; lia|].
      destruct c as [[] [] [] [] [] [] [] []]; apply IH; simpl in *; lia.
    + destruct (Ascii.eqb char "," && negb inQuotes); apply IH; lia.
Qed.

Lemma builder_tokens_nonempty line : FileToChart.parseCSVLine line <> [].
Proof. exact (builder_tokens_nonempty_aux _ line [] EmptyString false (le_n _)). Qed.

Lemma studio_tokens_nonempty_aux :
  forall line result current inQuotes,
    AnimateChart.parseCSVLine_from line result current inQuotes <> [].
Proof.
  induction line as [|char rest IH]; intros result current inQuotes; simpl.
  - now destruct result.
  - destruct (Ascii.eqb char dquote); [apply IH|].
    destruct (Ascii.eqb char "," && negb inQuotes); apply IH.
Qed.

Lemma studio_tokens_nonempty line : AnimateChart.parseCSVLine line <> [].
Proof. apply studio_tokens_nonempty_aux. Qed.

Section ShortLines.
Variable host : Host.

Lemma builder_past_fields_stays_null headers : forall index vals r col,
  (List.length vals <= index)%nat ->
  get col r = VNull ->
  get col (FileToChart.csvRow host headers index vals r) = VNull.
Proof.
  induction headers as [|header rest IH]; intros index vals r col Hlen Hr; simpl.
  - exact Hr.
  - apply IH; [lia|].
    replace (nth_error vals index) with (@None string)
      by (symmetry; now apply nth_error_None).
    simpl.
    destruct (string_dec col header) as [->|Hne].
    + apply get_setProp_same.
    + now rewrite get_setProp_other.
Qed.

Lemma builder_missing_is_null headers : forall index vals r j col,
  nth_error headers j = Some col ->
  (List.length vals <= index + j)%nat ->
  get col (FileToChart.csvRow host headers index vals r) = VNull.
Proof.
  induction headers as [|header rest IH]; intros index vals r j col Hj Hlen.
  - destruct j; discriminate Hj.
  - destruct j as [|j]; simpl in *.
    + injection Hj as ->.
      apply builder_past_fields_stays_null; [lia|].
      replace (nth_error vals index) with (@None string)
        by (symmetry; apply nth_error_None; lia).
      simpl. apply get_setProp_same.
    + apply (IH (S index) vals _ j col Hj). lia.
Qed.

Lemma studio_past_fields_stays_empty headers : forall index vals r col,
  (List.length vals <= index)%nat ->
  get col r = VStr EmptyString ->
  get col (AnimateChart.csvRow headers index vals r) = VStr EmptyString.
Proof.
  induction headers as [|header rest IH]; intros index vals r col Hlen Hr; simpl.
  - exact Hr.
  - apply IH; [lia|].
    unfold AnimateChart.fieldAt.
    replace (nth_error vals index) with (@None string)
      by (symmetry; now apply nth_error_None).
    destruct (string_dec col header) as [->|Hne].
    + apply get_setProp_same.
    + now rewrite get_setProp_other.
Qed.

Lemma studio_missing_is_empty headers : forall index vals r j col,
  nth_error headers j = Some col ->
  (List.length vals <= index + j)%nat ->
  get col (AnimateChart.csvRow headers index vals r) = VStr EmptyString.
Proof.
  induction headers as [|header rest IH]; intros index vals r j col Hj Hlen.
  - destruct j; discriminate Hj.
  - destruct j as [|j]; simpl in *.
    + injection Hj as ->.
      apply studio_past_fields_stays_empty; [lia|].
      unfold AnimateChart.fieldAt.
      replace (nth_error vals index) with (@None string)
        by (symmetry; apply nth_error_None; lia).
      apply get_setProp_same.
    + apply (IH (S index) vals _ j col Hj). lia.
Qed.

Lemma builder_rows headers body :
  Forall2 (shortLineRecord FileToChart.parseCSVLine VNull headers)
          body (FileToChart.csvRows host headers body).
Proof.
  induction body as [|line body IH]; simpl; [constructor|].
  destruct (FileToChart.parseCSVLine line) as [|v vals] eqn:E.
  - now destruct (builder_tokens_nonempty line).
  - constructor; [|exact IH].
    split; [rewrite E; discriminate|].
    intros j col Hj Hlen. rewrite E in Hlen.
    now apply (builder_missing_is_null headers 0 (v :: vals) [] j col).
Qed.

Lemma studio_rows headers body :
  Forall2 (shortLineRecord AnimateChart.parseCSVLine (VStr EmptyString) headers)
          body (AnimateChart.csvRows headers body).
Proof.
  induction body as [|line body IH]; simpl; [constructor|].
  destruct (AnimateChart.parseCSVLine line) as [|v vals] eqn:E.
  - now destruct (studio_tokens_nonempty line).
  - constructor; [|exact IH].
    split; [rewrite E; discriminate|].
    intros j col Hj Hlen. rewrite E in Hlen.
    now apply (studio_missing_is_empty headers 0 (v :: vals) [] j col).
Qed.

End ShortLines.


(** ** Fit view *)

(** C9 at the university diagram in the default 900 by 700 container: the
    zoom is below 1, and the box of the first entity, with the attribute
    margin and the padding, starts left of the container (at about -40). *)
Theorem C9_padded_box_leaves_container :
  let p := ERDiagram.parseTextToER universityText in
  let '(entityPositions, relationshipPositions) :=
    ERDiagram.layout (ERDiagram.entities p) (ERDiagram.relationships p) in
  exists view pos,
    ERDiagram.resetViewToFit containerWidth containerHeight
      entityPositions relationshipPositions = Some view
    /\ lookup "students" entityPositions = Some pos
    /\ ltb (ERDiagram.zoom view) (ofZ 1) = true
    /\ ltb (ERDiagram.screenX view (ERDiagram.paddedLeft pos)) zero = true
    /\ numberToString (ERDiagram.screenX view (ERDiagram.paddedLeft pos))
       = "-40.17857142857143".
Proof.
  cbv zeta.
  destruct (ERDiagram.layout _ _) as [entityPositions relationshipPositions] eqn:Hl.
  vm_compute in Hl.
  injection Hl as <- <-.
  eexists. eexists.
  split; [vm_compute; reflexivity|].
  split; [vm_compute; reflexivity|].
  repeat split; vm_compute; reflexivity.
Qed.

(** Without the padding, the boxes of both entities are inside: the left
    one starts at the container's edge, the right one ends at about 820. *)
Lemma university_margin_boxes_fit :
  let p := ERDiagram.parseTextToER universityText in
  let '(entityPositions, relationshipPositions) :=
    ERDiagram.layout (ERDiagram.entities p) (ERDiagram.relationships p) in
  exists view,
    ERDiagram.resetViewToFit containerWidth containerHeight
      entityPositions relationshipPositions = Some view
    /\ ERDiagram.screenX view (sub (ofZ 100) (ofZ 180)) = zero
    /\ numberToString (ERDiagram.screenX view (add (ofZ 620) (ofZ 320)))
       = "819.6428571428572"
    /\ ltb (ERDiagram.screenX view (add (ofZ 620) (ofZ 320))) containerWidth = true.
Proof.
  cbv zeta.
  destruct (ERDiagram.layout _ _) as [entityPositions relationshipPositions] eqn:Hl.
  vm_compute in Hl.
  injection Hl as <- <-.
  eexists.
  split; [vm_compute; reflexivity|].
  repeat split; vm_compute; reflexivity.
Qed.

(** ** Key flags of parsed attributes *)

Lemma makeAttribute_exclusive attr : flagsExclusive (ERDiagram.makeAttribute attr).
Proof.
  unfold flagsExclusive, ERDiagram.makeAttribute. simpl.
  destruct (endsWith "id" attr), (includes "_id" attr), (String.eqb attr "id");
    reflexivity.
Qed.

Lemma pushAttribute_wellFlagged name attr entityMap :
  wellFlagged entityMap ->
  wellFlagged (ERDiagram.pushAttribute name (ERDiagram.makeAttribute attr) entityMap).
Proof.
  intros Hm. unfold ERDiagram.pushAttribute.
  destruct (lookup name entityMap) as [e|] eqn:E; [|exact Hm].
  intros k e' Hin.
  apply In_replaceProp in Hin. destruct Hin as [[= -> ->]|Hin].
  - simpl. apply Forall_app. split.
    + exact (Hm _ _ (lookup_In _ _ _ E)).
    + constructor; [apply makeAttribute_exclusive|constructor].
  - exact (Hm _ _ Hin).
Qed.

Lemma entityLine_wellFlagged acc line :
  wellFlagged (fst acc) -> wellFlagged (fst (ERDiagram.entityLine acc line)).
Proof.
  destruct acc as [entityMap current]. simpl. intros Hm.
  destruct (exec ERDiagram.tablePattern (trim line)) as [m|]; [|exact Hm].
  set (name := toLowerCase _).
  set (fresh := ERDiagram.Build_EREntity _ _ _ _ _).
  assert (Hfresh : wellFlagged (setProp name fresh entityMap)).
  { intros k e Hin. apply In_setProp in Hin. destruct Hin as [[= -> ->]|Hin].
    - constructor.
    - exact (Hm _ _ Hin). }
  destruct (capture 2 (groups m)) as [attributeString|]; [|exact Hfresh].
  destruct (String.eqb attributeString EmptyString); [exact Hfresh|].
  simpl.
  generalize (map trim (split "," attributeString)).
  generalize dependent (setProp name fresh entityMap).
  intros em Hem attrs. revert em Hem.
  induction attrs as [|attr attrs IH]; intros em Hem; simpl; [exact Hem|].
  apply IH.
  destruct (String.eqb attr EmptyString); [exact Hem|].
  now apply pushAttribute_wellFlagged.
Qed.

Lemma parseEntities_wellFlagged lines : wellFlagged (ERDiagram.parseEntities lines).
Proof.
  unfold ERDiagram.parseEntities.
  assert (H : forall acc, wellFlagged (fst acc) ->
                          wellFlagged (fst (fold_left ERDiagram.entityLine lines acc))).
  { induction lines as [|line lines IH]; intros acc Hacc; simpl; [exact Hacc|].
    apply IH. now apply entityLine_wellFlagged. }
  apply H. intros k e [].
Qed.

(** C10: no attribute of a parsed entity is flagged both primary key and
    foreign key. *)
Theorem C10_key_flags_exclusive (text : string) (e : ERDiagram.EREntity)
        (a : ERDiagram.ERAttribute) :
  In e (ERDiagram.entities (ERDiagram.parseTextToER text)) ->
  In a (ERDiagram.attributes e) ->
  ~ (ERDiagram.isPrimaryKey a = true /\ ERDiagram.isForeignKey a = true).
Proof.
  intros He Ha [Hp Hf].
  unfold ERDiagram.parseTextToER in He. simpl in He.
  unfold values in He. apply in_map_iff in He. destruct He as [[k e'] [<- Hin]].
  pose proof (parseEntities_wellFlagged _ _ _ Hin) as Hall.
  rewrite Forall_forall in Hall. specialize (Hall a Ha).
  unfold flagsExclusive in Hall. simpl in Ha.
  rewrite Hp, Hf in Hall. discriminate Hall.
Qed.

Lemma C10_key_flags_exclusive_witness :
  let e := {| ERDiagram.ent_id := "students"; ERDiagram.ent_name := "STUDENTS";
              ERDiagram.attributes :=
                [ERDiagram.makeAttribute "student_id"; ERDiagram.makeAttribute "name"];
              ERDiagram.ent_x := zero; ERDiagram.ent_y := zero |} in
  let a := ERDiagram.makeAttribute "student_id" in
  In e (ERDiagram.entities (ERDiagram.parseTextToER universityText))
  /\ In a (ERDiagram.attributes e)
  /\ ~ (ERDiagram.isPrimaryKey a = true /\ ERDiagram.isForeignKey a = true).
Proof.
  cbv zeta.
  assert (He : In {| ERDiagram.ent_id := "students"; ERDiagram.ent_name := "STUDENTS";
              ERDiagram.attributes :=
                [ERDiagram.makeAttribute "student_id"; ERDiagram.makeAttribute "name"];
              ERDiagram.ent_x := zero; ERDiagram.ent_y := zero |}
             (ERDiagram.entities (ERDiagram.parseTextToER universityText))).
  { vm_compute. left. reflexivity. }
  assert (Ha : In (ERDiagram.makeAttribute "student_id")
                 [ERDiagram.makeAttribute "student_id"; ERDiagram.makeAttribute "name"]).
  { simpl. left. reflexivity. }
  split; [exact He|]. split; [exact Ha|].
  exact (C10_key_flags_exclusive universityText _ _ He Ha).
Defined.

(* ================================================================== *)
(** * Further properties of the sources *)
(* ================================================================== *)

(** ** Facts about strings *)

Lemma append_empty_r (s : string) : s ++ EmptyString = s.
Proof. induction s; simpl; congruence. Qed.

Lemma append_assoc (a b c : string) : (a ++ b) ++ c = a ++ (b ++ c).
Proof. induction a; simpl; congruence. Qed.

Lemma trimStart_head c r :
  isWhiteSpace c = false -> trimStart (String c r) = String c r.
Proof. intros H. simpl. now rewrite H. Qed.

Lemma trimEnd_head c r :
  isWhiteSpace c = false -> exists r', trimEnd (String c r) = String c r'.
Proof.
  intros H. simpl. destruct (trimEnd r); rewrite ?H; eauto.
Qed.

Lemma trimEnd_idem s : trimEnd (trimEnd s) = trimEnd s.
Proof.
  induction s as [|c r IH]; simpl; [reflexivity|].
  destruct (trimEnd r) as [|d t] eqn:E.
  - destruct (isWhiteSpace c) eqn:W; simpl; [reflexivity|]. now rewrite W.
  - simpl. simpl in IH. now rewrite IH.
Qed.

Lemma trimStart_cases s :
  trimStart s = EmptyString
  \/ exists c r, trimStart s = String c r /\ isWhiteSpace c = false.
Proof.
  induction s as [|c r IH]; simpl; [now left|].
  destruct (isWhiteSpace c) eqn:W; [exact IH|]. right. eauto.
Qed.

Lemma trim_idem s : trim (trim s) = trim s.
Proof.
  unfold trim. destruct (trimStart_cases s) as [-> | (c & r & -> & W)]; [reflexivity|].
  destruct (trimEnd_head c r W) as [r' E].
  rewrite E, (trimStart_head _ _ W), <- E. apply trimEnd_idem.
Qed.

Lemma includes_char_cons c d r :
  includes (String c EmptyString) (String d r) = false ->
  Ascii.eqb d c = false /\ includes (String c EmptyString) r = false.
Proof.
  simpl. intros H. apply orb_false_iff in H as [H1 H2].
  split; [|exact H2].
  destruct (Ascii.eqb c d) eqn:E; [discriminate|].
  rewrite Ascii.eqb_sym. exact E.
Qed.

Lemma split_nonempty sep s : split sep s <> [].
Proof.
  destruct s as [|c r]; simpl; [discriminate|].
  destruct (Ascii.eqb c sep); [discriminate|].
  destruct (split sep r); discriminate.
Qed.

Lemma nonEmpty_cons w l :
  nonEmpty (w :: l) = if String.eqb w EmptyString then nonEmpty l else w :: nonEmpty l.
Proof. unfold nonEmpty. simpl. now destruct (String.eqb w EmptyString). Qed.

(** ** The CSV tokenizers *)

Lemma builder_quote_free line : forall result current,
  includes (String dquote EmptyString) line = false ->
  FileToChart.parseCSVLine_from line result current false
  = (result ++ match split "," line with
               | h :: t => trim (current ++ h) :: map trim t
               | [] => [trim current]
               end)%list.
Proof.
  induction line as [|c rest IH]; intros result current H.
  - simpl. now rewrite append_empty_r.
  - apply includes_char_cons in H as [Hc Hrest].
    cbn [FileToChart.parseCSVLine_from split].
    rewrite Hc. cbn [andb].
    destruct (Ascii.eqb c ",") eqn:E; cbn [andb negb].
    + rewrite IH by exact Hrest. rewrite <- app_assoc. cbn [app].
      rewrite append_empty_r.
      destruct (split "," rest) as [|h t] eqn:S; [now apply split_nonempty in S|].
      reflexivity.
    + rewrite IH by exact Hrest.
      destruct (split "," rest) as [|h t] eqn:S; [now apply split_nonempty in S|].
      now rewrite append_assoc.
Qed.

Lemma studio_quote_free line : forall result current,
  includes (String dquote EmptyString) line = false ->
  AnimateChart.parseCSVLine_from line result current false
  = (result ++ match split "," line with
               | h :: t => trim (current ++ h) :: map trim t
               | [] => [trim current]
               end)%list.
Proof.
  induction line as [|c rest IH]; intros result current H.
  - simpl. now rewrite append_empty_r.
  - apply includes_char_cons in H as [Hc Hrest].
    cbn [AnimateChart.parseCSVLine_from split].
    rewrite Hc.
    destruct (Ascii.eqb c ",") eqn:E; cbn [andb negb].
    + rewrite IH by exact Hrest. rewrite <- app_assoc. cbn [app].
      rewrite append_empty_r.
      destruct (split "," rest) as [|h t] eqn:S; [now apply split_nonempty in S|].
      reflexivity.
    + rewrite IH by exact Hrest.
      destruct (split "," rest) as [|h t] eqn:S; [now apply split_nonempty in S|].
      now rewrite append_assoc.
Qed.

(** X1: a line that holds no double quote is cut at every comma and each
    piece is trimmed, by the tokenizer of the chart builder and by that of
    the animation studio alike. *)
Theorem X1_quote_free_line_is_split (line : string) :
  includes (String dquote EmptyString) line = false ->
  FileToChart.parseCSVLine line = map trim (split "," line)
  /\ AnimateChart.parseCSVLine line = map trim (split "," line).
Proof.
  intros H. unfold FileToChart.parseCSVLine, AnimateChart.parseCSVLine.
  rewrite builder_quote_free, studio_quote_free by exact H.
  destruct (split "," line) as [|h t] eqn:S; [now apply split_nonempty in S|].
  now cbn.
Qed.

Lemma X1_quote_free_line_is_split_witness :
  includes (String dquote EmptyString) " a , b,,c " = false
  /\ FileToChart.parseCSVLine " a , b,,c " = ["a"; "b"; EmptyString; "c"]
  /\ AnimateChart.parseCSVLine " a , b,,c " = ["a"; "b"; EmptyString; "c"].
Proof.
  split; [reflexivity|].
  exact (X1_quote_free_line_is_split " a , b,,c " eq_refl).
Defined.

Lemma tokenizers_agree_from line : forall result current inQuotes,
  includes doubledQuote line = false ->
  FileToChart.parseCSVLine_from line result current inQuotes
  = AnimateChart.parseCSVLine_from line result current inQuotes.
Proof.
  induction line as [|c rest IH]; intros result current q H; [reflexivity|].
  assert (Hrest : includes doubledQuote rest = false).
  { cbn [includes] in H. now apply orb_false_iff in H as [_ H]. }
  cbn [FileToChart.parseCSVLine_from AnimateChart.parseCSVLine_from].
  destruct (Ascii.eqb c dquote) eqn:E.
  - apply Ascii.eqb_eq in E. subst c. destruct q; cbn [andb negb].
    + destruct rest as [|d rest']; [now apply IH|].
      destruct (Ascii.eqb d dquote) eqn:D.
      * apply Ascii.eqb_eq in D. subst d.
        cbn in H. discriminate.
      * assert (d <> "034"%char) by (intros ->; now rewrite Ascii.eqb_refl in D).
        destruct d as [[] [] [] [] [] [] [] []]; try (now apply IH); congruence.
    + now apply IH.
  - cbn [andb]. destruct (Ascii.eqb c "," && negb q); now apply IH.
Qed.

(** X2: on a line in which no two double quotes stand next to each other,
    the tokenizer of the chart builder (which reads a doubled quote as one
    literal quote) and that of the animation studio (which toggles on every
    quote) return the same fields. *)
Theorem X2_tokenizers_agree (line : string) :
  includes doubledQuote line = false ->
  FileToChart.parseCSVLine line = AnimateChart.parseCSVLine line.
Proof. apply tokenizers_agree_from. Qed.

Lemma X2_tokenizers_agree_witness :
  includes doubledQuote quotedCommaLine = false
  /\ FileToChart.parseCSVLine quotedCommaLine = AnimateChart.parseCSVLine quotedCommaLine.
Proof.
  split; [reflexivity|].
  exact (X2_tokenizers_agree quotedCommaLine eq_refl).
Defined.

Lemma Forall_trimmed_push result current :
  Forall trimmed result -> Forall trimmed (result ++ [trim current])%list.
Proof.
  intros H. apply Forall_app. split; [assumption|].
  constructor; [apply trim_idem|constructor].
Qed.

Lemma builder_fields_trimmed_from n : forall line result current inQuotes,
  (String.length line <= n)%nat ->
  Forall trimmed result ->
  Forall trimmed (FileToChart.parseCSVLine_from line result current inQuotes).
Proof.
  induction n as [|n IH]; intros [|c rest] result current q L H;
    try (now apply Forall_trimmed_push); [simpl in L; lia|].
  simpl in L. cbn [FileToChart.parseCSVLine_from].
  destruct (Ascii.eqb c dquote && negb q); [apply IH; [lia|assumption]|].
  destruct (Ascii.eqb c dquote && q).
  - destruct rest as [|d rest']; [apply IH; [simpl; lia|assumption]|].
    simpl in L.
    destruct d as [[] [] [] [] [] [] [] []];
      apply IH; try assumption; simpl; lia.
  - destruct (Ascii.eqb c "," && negb q); apply IH; try lia;
      auto using Forall_trimmed_push.
Qed.

Lemma studio_fields_trimmed_from line : forall result current inQuotes,
  Forall trimmed result ->
  Forall trimmed (AnimateChart.parseCSVLine_from line result current inQuotes).
Proof.
  induction line as [|c rest IH]; intros result current q H.
  - now apply Forall_trimmed_push.
  - cbn [AnimateChart.parseCSVLine_from].
    destruct (Ascii.eqb c dquote); [now apply IH|].
    destruct (Ascii.eqb c "," && negb q); apply IH; auto using Forall_trimmed_push.
Qed.

Lemma builder_fields_trimmed line : Forall trimmed (FileToChart.parseCSVLine line).
Proof.
  exact (builder_fields_trimmed_from (String.length line) line [] EmptyString false
           (le_n _) (Forall_nil _)).
Qed.

Lemma studio_fields_trimmed line : Forall trimmed (AnimateChart.parseCSVLine line).
Proof. exact (studio_fields_trimmed_from line [] EmptyString false (Forall_nil _)). Qed.

(** X3: every field either tokenizer returns is trimmed, whether it was
    written between quotes or not: white space at the ends of a field never
    reaches a record. *)
Theorem X3_fields_are_trimmed (line : string) :
  Forall trimmed (FileToChart.parseCSVLine line)
  /\ Forall trimmed (AnimateChart.parseCSVLine line).
Proof. split; [apply builder_fields_trimmed|apply studio_fields_trimmed]. Qed.

(** ** The value coercion of the chart builder *)

Ltac split_ifs :=
  repeat match goal with
         | |- context [if ?c then _ else _] => destruct c eqn:?
         end.

Lemma parseValue_coerced (host : Host) (v : value) :
  coerced (FileToChart.parseValue host v).
Proof.
  unfold FileToChart.parseValue.
  destruct v as [| |b|x|s|t|items|props];
    [exact I | exact I | | | destruct s as [|c s]; [exact I|] | | |].
  all: split_ifs; simpl; try exact I; try apply trim_idem.
  all: try match goal with
       | H : negb (isNaN ?d) = true |- isNaN ?d = false =>
           now apply negb_true_iff in H
       end.
Qed.

(** X4: white space around a non-empty text does not matter to
    [parseValue]: the text is coerced as its trimmed form is, except that a
    text of white space only becomes the empty string where the empty text
    becomes null. *)
Theorem X4_parseValue_ignores_outer_space (host : Host) (s : string) :
  s <> EmptyString ->
  FileToChart.parseValue host (VStr s)
  = if String.eqb (trim s) EmptyString then VStr EmptyString
    else FileToChart.parseValue host (VStr (trim s)).
Proof.
  intros Hs. destruct s as [|c s]; [congruence|].
  destruct (String.eqb (trim (String c s)) EmptyString) eqn:E.
  - apply String.eqb_eq in E. unfold FileToChart.parseValue.
    cbn [toString]. rewrite E. reflexivity.
  - apply String.eqb_neq in E.
    destruct (trim (String c s)) as [|d t] eqn:T; [congruence|].
    assert (Hd : trim (String d t) = String d t) by (rewrite <- T; apply trim_idem).
    unfold FileToChart.parseValue. cbn [toString].
    rewrite T, Hd. reflexivity.
Qed.

Lemma X4_parseValue_ignores_outer_space_witness :
  " 42 " <> EmptyString
  /\ FileToChart.parseValue plainHost (VStr " 42 ") = VNum (ofZ 42)
  /\ FileToChart.parseValue plainHost (VStr " 42 ")
     = FileToChart.parseValue plainHost (VStr (trim " 42 ")).
Proof.
  assert (H : " 42 " <> EmptyString) by discriminate.
  split; [exact H|]. split; [vm_compute; reflexivity|].
  exact (X4_parseValue_ignores_outer_space plainHost " 42 " H).
Defined.

(** X5: whatever it is given, [parseValue] returns null, a boolean, a
    Number, a Date with a valid time or a trimmed string; never
    [undefined], an array or an object. *)
Theorem X5_parseValue_kinds (host : Host) (v : value) :
  coerced (FileToChart.parseValue host v).
Proof. apply parseValue_coerced. Qed.

Lemma parseValue_trimmed_not_empty (host : Host) (s : string) :
  FileToChart.parseValue host (VStr (trim s)) <> VStr EmptyString.
Proof.
  destruct (trim s) as [|d t] eqn:T; [discriminate|].
  assert (Hd : trim (String d t) = String d t) by (rewrite <- T; apply trim_idem).
  unfold FileToChart.parseValue. cbn [toString]. rewrite Hd.
  split_ifs; discriminate.
Qed.

(** ** Facts about the keys of records *)

Section KeyFacts.
Context {A : Type}.
Implicit Types (o : dict A) (k : string) (v : A).

Lemma keys_replaceProp k v o : keys (replaceProp k v o) = keys o.
Proof.
  induction o as [|[k' v'] o IH]; simpl; [reflexivity|].
  destruct (String.eqb k' k) eqn:E; simpl.
  - apply String.eqb_eq in E. now subst.
  - change (k' :: keys (replaceProp k v o) = k' :: keys o). now rewrite IH.
Qed.

Lemma In_keys_insertProp k v o x :
  In x (keys (insertProp k v o)) <-> x = k \/ In x (keys o).
Proof.
  induction o as [|[k' v'] o IH]; simpl.
  - intuition.
  - destruct (listedBefore k k').
    + simpl. intuition.
    + change (k' = x \/ In x (keys (insertProp k v o)) <-> x = k \/ k' = x \/ In x (keys o)).
      rewrite IH. intuition.
Qed.

Lemma NoDup_keys_insertProp k v o :
  ~ In k (keys o) -> NoDup (keys o) -> NoDup (keys (insertProp k v o)).
Proof.
  induction o as [|[k' v'] o IH]; simpl; intros Hk Hn.
  - constructor; [intros []|constructor].
  - destruct (listedBefore k k').
    + constructor; [exact Hk|exact Hn].
    + inversion Hn as [|? ? Hk' Hn']; subst.
      change (NoDup (k' :: keys (insertProp k v o))).
      constructor.
      * intros Hin. apply In_keys_insertProp in Hin as [->|Hin]; [|now apply Hk'].
        apply Hk. now left.
      * apply IH; [|exact Hn']. intros Hin. apply Hk. now right.
Qed.

Lemma has_true_In_keys k o : has k o = true -> In k (keys o).
Proof.
  unfold has. destruct (lookup k o) as [v|] eqn:E; [|discriminate].
  intros _. apply lookup_In in E. now apply (in_map fst) in E.
Qed.

Lemma In_keys_setProp k v o x :
  In x (keys (setProp k v o)) <-> x = k \/ In x (keys o).
Proof.
  unfold setProp. destruct (has k o) eqn:E.
  - rewrite keys_replaceProp. apply has_true_In_keys in E.
    split; [now right|]. now intros [->|].
  - apply In_keys_insertProp.
Qed.

Lemma NoDup_keys_setProp k v o : NoDup (keys o) -> NoDup (keys (setProp k v o)).
Proof.
  intros Hn. unfold setProp. destruct (has k o) eqn:E.
  - now rewrite keys_replaceProp.
  - apply NoDup_keys_insertProp; [|exact Hn]. now apply has_false_not_In.
Qed.
End KeyFacts.

Lemma nth_error_nth_default {A : Type} (l : list A) (i : nat) (d : A) :
  match nth_error l i with Some v => v | None => d end = nth i l d.
Proof.
  revert i. induction l as [|x l IH]; intros [|i]; simpl; auto.
Qed.

(** ** The CSV readers *)

Section BuilderCsv.
Variable host : Host.

Lemma builder_csvRow_keys headers : forall index vals r,
  NoDup (keys r) ->
  NoDup (keys (FileToChart.csvRow host headers index vals r))
  /\ forall k, In k (keys (FileToChart.csvRow host headers index vals r))
               <-> In k (keys r) \/ In k headers.
Proof.
  induction headers as [|header rest IH]; intros index vals r Hn; simpl.
  - split; [exact Hn|]. intuition.
  - destruct (IH (S index) vals
                (setProp header
                   (FileToChart.parseValue host
                      (VStr match nth_error vals index with
                            | Some v => trim v
                            | None => EmptyString
                            end)) r)
                (NoDup_keys_setProp _ _ _ Hn)) as [H1 H2].
    split; [exact H1|].
    intros k. rewrite H2, In_keys_setProp. intuition.
Qed.

Lemma builder_csvRow_keeps headers : forall index vals r col,
  ~ In col headers ->
  get col (FileToChart.csvRow host headers index vals r) = get col r.
Proof.
  induction headers as [|header rest IH]; intros index vals r col Hnot; simpl;
    [reflexivity|].
  rewrite IH by (intros H; apply Hnot; now right).
  apply get_setProp_other. intros ->. apply Hnot. now left.
Qed.

Lemma builder_csvRow_get headers : forall index vals r j col,
  Forall trimmed vals ->
  nth_error headers j = Some col ->
  ~ In col (skipn (S j) headers) ->
  get col (FileToChart.csvRow host headers index vals r)
  = FileToChart.parseValue host (VStr (nth (index + j) vals EmptyString)).
Proof.
  induction headers as [|header rest IH]; intros index vals r j col Ht Hj Hlast.
  - destruct j; discriminate Hj.
  - destruct j as [|j]; simpl in Hj.
    + injection Hj as ->. cbn [skipn] in Hlast. cbn [FileToChart.csvRow].
      rewrite builder_csvRow_keeps by exact Hlast.
      rewrite get_setProp_same, Nat.add_0_r.
      rewrite <- (nth_error_nth_default vals index EmptyString).
      destruct (nth_error vals index) as [v|] eqn:E; [|reflexivity].
      rewrite Forall_forall in Ht. now rewrite (Ht v (nth_error_In _ _ E)).
    + cbn [FileToChart.csvRow].
      rewrite (IH (S index) vals _ j col Ht Hj Hlast).
      now rewrite Nat.add_succ_r.
Qed.
End BuilderCsv.

Lemma builder_records (host : Host) headers body :
  Forall2 (recordOf FileToChart.parseCSVLine
             (fun field => FileToChart.parseValue host (VStr field)) headers)
          body (FileToChart.csvRows host headers body).
Proof.
  induction body as [|line body IH]; simpl; [constructor|].
  destruct (FileToChart.parseCSVLine line) as [|v vals] eqn:E.
  - now destruct (builder_tokens_nonempty line).
  - constructor; [|exact IH].
    destruct (builder_csvRow_keys host headers 0 (v :: vals) [] (NoDup_nil _))
      as [H1 H2].
    split; [split; [exact H1|]|].
    + intros k. rewrite H2. simpl. intuition.
    + intros j col Hj Hlast. rewrite E.
      apply (builder_csvRow_get host headers 0 (v :: vals) [] j col); auto.
      rewrite <- E. apply builder_fields_trimmed.
Qed.



Lemma split_no_sep sep s :
  includes (String sep EmptyString) s = false -> split sep s = [s].
Proof.
  induction s as [|c r IH]; intros H; [reflexivity|].
  apply includes_char_cons in H as [Hc Hr].
  simpl. rewrite Hc, (IH Hr). reflexivity.
Qed.

Lemma split_with_sep sep s :
  includes (String sep EmptyString) s = true ->
  exists h x t, split sep s = h :: x :: t.
Proof.
  induction s as [|c r IH]; intros H; [discriminate|].
  cbn [split]. destruct (Ascii.eqb c sep) eqn:E.
  - destruct (split sep r) as [|x t] eqn:S; [now apply split_nonempty in S|]. eauto.
  - cbn [includes startsWith] in H. rewrite Ascii.eqb_sym, E in H. cbn in H.
    destruct (IH H) as (h & x & t & ->). eauto.
Qed.

(** X7: [processCSV] succeeds exactly when the trimmed text holds a line
    break, and then returns one record for every line after the first,
    blank lines included; otherwise it throws the error asking for a header
    row and a data row. *)
Theorem X7_builder_csv_needs_two_lines (host : Host) (text : string) :
  match FileToChart.processCSV host text with
  | Ok (headers, rows) =>
      includes newline (trim text) = true
      /\ S (List.length rows) = List.length (split "010" (trim text))
  | Throw message =>
      includes newline (trim text) = false
      /\ message = "CSV file must contain at least a header row and one data row."
  end.
Proof.
  unfold FileToChart.processCSV, newline.
  destruct (includes (String "010" EmptyString) (trim text)) eqn:I.
  - destruct (split_with_sep _ _ I) as (h & x & t & ->).
    split; [reflexivity|].
    pose proof (builder_records host (FileToChart.parseCSVLine h) (x :: t)) as F.
    apply Forall2_length in F. simpl in *. congruence.
  - rewrite (split_no_sep _ _ I). split; reflexivity.
Qed.

Lemma studio_csvRow_keys headers : forall index vals r,
  NoDup (keys r) ->
  NoDup (keys (AnimateChart.csvRow headers index vals r))
  /\ forall k, In k (keys (AnimateChart.csvRow headers index vals r))
               <-> In k (keys r) \/ In k headers.
Proof.
  induction headers as [|header rest IH]; intros index vals r Hn; simpl.
  - split; [exact Hn|]. intuition.
  - destruct (IH (S index) vals
                (setProp header (VStr (AnimateChart.fieldAt vals index)) r)
                (NoDup_keys_setProp _ _ _ Hn)) as [H1 H2].
    split; [exact H1|].
    intros k. rewrite H2, In_keys_setProp. intuition.
Qed.

Lemma studio_csvRow_keeps headers : forall index vals r col,
  ~ In col headers ->
  get col (AnimateChart.csvRow headers index vals r) = get col r.
Proof.
  induction headers as [|header rest IH]; intros index vals r col Hnot; simpl;
    [reflexivity|].
  rewrite IH by (intros H; apply Hnot; now right).
  apply get_setProp_other. intros ->. apply Hnot. now left.
Qed.

Lemma studio_csvRow_get headers : forall index vals r j col,
  nth_error headers j = Some col ->
  ~ In col (skipn (S j) headers) ->
  get col (AnimateChart.csvRow headers index vals r)
  = VStr (nth (index + j) vals EmptyString).
Proof.
  induction headers as [|header rest IH]; intros index vals r j col Hj Hlast.
  - destruct j; discriminate Hj.
  - destruct j as [|j]; simpl in Hj.
    + injection Hj as ->. cbn [skipn] in Hlast. cbn [AnimateChart.csvRow].
      rewrite studio_csvRow_keeps by exact Hlast.
      rewrite get_setProp_same, Nat.add_0_r.
      unfold AnimateChart.fieldAt. now rewrite nth_error_nth_default.
    + cbn [AnimateChart.csvRow].
      rewrite (IH (S index) vals _ j col Hj Hlast).
      now rewrite Nat.add_succ_r.
Qed.

Lemma studio_records headers body :
  Forall2 (recordOf AnimateChart.parseCSVLine VStr headers)
          body (AnimateChart.csvRows headers body).
Proof.
  induction body as [|line body IH]; simpl; [constructor|].
  destruct (AnimateChart.parseCSVLine line) as [|v vals] eqn:E.
  - now destruct (studio_tokens_nonempty line).
  - constructor; [|exact IH].
    destruct (studio_csvRow_keys headers 0 (v :: vals) [] (NoDup_nil _)) as [H1 H2].
    split; [split; [exact H1|]|].
    + intros k. rewrite H2. simpl. intuition.
    + intros j col Hj Hlast. rewrite E.
      now apply (studio_csvRow_get headers 0 (v :: vals) [] j col).
Qed.



Lemma unique_NoDup l : forall seen,
  NoDup (unique seen l) /\ forall x, In x (unique seen l) -> ~ In x seen.
Proof.
  induction l as [|y l IH]; intros seen; simpl.
  - split; [constructor|intros x []].
  - destruct (existsb (String.eqb y) seen) eqn:E; [apply IH|].
    destruct (IH (y :: seen)) as [H1 H2].
    split.
    + constructor; [|exact H1]. intros Hin. apply (H2 y Hin). now left.
    + intros x [<-|Hin].
      * intros Hs. assert (existsb (String.eqb y) seen = true); [|congruence].
        apply existsb_exists. exists y. split; [exact Hs|apply String.eqb_refl].
      * intros Hs. apply (H2 x Hin). now right.
Qed.

Lemma unique_nonempty l : l <> [] -> unique [] l <> [].
Proof. destruct l; [congruence|]. simpl. discriminate. Qed.

Section BuilderJson.
Variable host : Host.

Lemma member_readable item k :
  readable item = true -> exists v, FileToChart.member item k = Some v.
Proof.
  destruct item; simpl; try discriminate; intros _; eauto.
  - destruct (String.eqb k "length"); eauto. destruct (arrayIndex k); eauto.
    destruct (String.get (Z.to_nat z) s); eauto.
  - destruct (String.eqb k "length"); eauto. destruct (arrayIndex k); eauto.
Qed.

Lemma member_unreadable item k :
  readable item = false -> FileToChart.member item k = None.
Proof. destruct item; simpl; try discriminate; reflexivity. Qed.

Lemma normalizeItem_shape headers item : forall r,
  readable item = true ->
  NoDup (keys r) ->
  exists r',
    FileToChart.normalizeItem host headers item r = Ok r'
    /\ NoDup (keys r')
    /\ (forall k, In k (keys r') <-> In k (keys r) \/ In k headers)
    /\ (forall col, ~ In col headers -> get col r' = get col r)
    /\ (forall col, In col headers ->
          exists v, FileToChart.member item col = Some v
                    /\ get col r' = FileToChart.parseValue host v).
Proof.
  induction headers as [|header rest IH]; intros r Hread Hn; simpl.
  - exists r. split; [reflexivity|]. split; [exact Hn|]. split; [tauto|].
    split; [reflexivity|]. intros col [].
  - destruct (member_readable item header Hread) as [v Hv]. rewrite Hv.
    destruct (IH (setProp header (FileToChart.parseValue host v) r) Hread
                (NoDup_keys_setProp _ _ _ Hn))
      as (r' & E & N & K & Keep & Get).
    exists r'. split; [exact E|]. split; [exact N|]. split; [|split].
    + intros k. rewrite K, In_keys_setProp. intuition.
    + intros col Hnot. rewrite Keep by tauto.
      apply get_setProp_other. intros ->. apply Hnot. now left.
    + intros col Hin.
      destruct (in_dec string_dec col rest) as [Hr|Hr]; [now apply Get|].
      destruct Hin as [<-|Hin]; [|contradiction].
      exists v. split; [exact Hv|]. rewrite Keep by exact Hr.
      apply get_setProp_same.
Qed.

Lemma normalizeAll_records headers data :
  forallb readable data = true ->
  exists rows,
    FileToChart.normalizeAll host headers data = Ok rows
    /\ Forall2 (jsonRecord host headers) data rows.
Proof.
  induction data as [|item data IH]; simpl; intros H.
  - exists []. split; [reflexivity|constructor].
  - apply andb_true_iff in H as [Hi Hd].
    destruct (normalizeItem_shape headers item [] Hi (NoDup_nil _))
      as (r & E & N & K & _ & Get).
    destruct (IH Hd) as (rows & Er & F).
    rewrite E, Er. exists (r :: rows). split; [reflexivity|].
    constructor; [|exact F].
    split; [split; [exact N|]|exact Get].
    intros k. rewrite K. simpl. intuition.
Qed.

Lemma normalizeItem_ok_readable headers item r r' :
  headers <> [] ->
  FileToChart.normalizeItem host headers item r = Ok r' -> readable item = true.
Proof.
  destruct headers as [|header rest]; [congruence|]. intros _. simpl.
  destruct (readable item) eqn:R; [reflexivity|].
  now rewrite (member_unreadable item header R).
Qed.

Lemma normalizeAll_ok_readable headers data rows :
  headers <> [] ->
  FileToChart.normalizeAll host headers data = Ok rows ->
  forallb readable data = true.
Proof.
  intros Hh. revert rows. induction data as [|item data IH]; intros rows; simpl;
    [reflexivity|].
  destruct (FileToChart.normalizeItem host headers item []) as [r|m] eqn:E;
    [|discriminate].
  destruct (FileToChart.normalizeAll host headers data) as [rs|m] eqn:Er;
    [|discriminate].
  intros _. rewrite (normalizeItem_ok_readable _ _ _ _ Hh E). now apply (IH rs).
Qed.

Lemma normalizeAll_no_headers data :
  FileToChart.normalizeAll host [] data = Ok (map (fun _ => []) data).
Proof. induction data as [|item data IH]; simpl; [reflexivity|]. now rewrite IH. Qed.

Lemma normalizeAll_throws header rest data :
  forallb readable data = false ->
  FileToChart.normalizeAll host (header :: rest) data
  = Throw (nullAccessMessage host header).
Proof.
  induction data as [|item data IH]; [discriminate|]. cbn [forallb]. intros H.
  cbn [FileToChart.normalizeAll].
  destruct (readable item) eqn:R.
  - destruct (normalizeItem_shape (header :: rest) item [] R (NoDup_nil _))
      as (r & E & _). rewrite E, IH by exact H. reflexivity.
  - cbn [FileToChart.normalizeItem]. now rewrite (member_unreadable item header R).
Qed.
End BuilderJson.




(** ** The chart data of the chart builder *)

Lemma existsb_eqb_In x seen : existsb (String.eqb x) seen = true <-> In x seen.
Proof.
  rewrite existsb_exists. split.
  - intros (y & Hy & E). apply String.eqb_eq in E. now subst.
  - intros H. exists x. split; [exact H|apply String.eqb_refl].
Qed.

Lemma unique_ext l : forall s1 s2,
  (forall x, In x s1 <-> In x s2) -> unique s1 l = unique s2 l.
Proof.
  induction l as [|y l IH]; intros s1 s2 H; simpl; [reflexivity|].
  assert (E : existsb (String.eqb y) s1 = existsb (String.eqb y) s2).
  { apply eq_true_iff_eq. rewrite !existsb_eqb_In. apply H. }
  rewrite E. destruct (existsb (String.eqb y) s2); [now apply IH|].
  f_equal. apply IH. intros x. simpl. rewrite H. tauto.
Qed.

Lemma has_In_keys {A : Type} k (o : dict A) : has k o = true <-> In k (keys o).
Proof.
  split; [apply has_true_In_keys|].
  intros H. destruct (has k o) eqn:E; [reflexivity|].
  now apply has_false_not_In in E.
Qed.

Section BuilderLabels.
Variable host : Host.
Variables labelCol valueCol seriesCol : string.
Variable isNumeric : bool.

Lemma keys_groupRow g r :
  keys (FileToChart.groupRow host isNumeric labelCol valueCol seriesCol g r)
  = if has (FileToChart.labelOf host labelCol r) g then keys g
    else (keys g ++ [FileToChart.labelOf host labelCol r])%list.
Proof. rewrite groupRow_unfold. cbv zeta. apply keys_mapSet. Qed.

Lemma keys_groupRows rows : forall g,
  keys (fold_left (FileToChart.groupRow host isNumeric labelCol valueCol seriesCol) rows g)
  = (keys g ++ unique (keys g) (map (FileToChart.labelOf host labelCol) rows))%list.
Proof.
  induction rows as [|r rows IH]; intros g; simpl; [now rewrite app_nil_r|].
  rewrite IH, keys_groupRow.
  destruct (has (FileToChart.labelOf host labelCol r) g) eqn:E.
  - apply has_In_keys in E. apply existsb_eqb_In in E. now rewrite E.
  - assert (E' : existsb (String.eqb (FileToChart.labelOf host labelCol r)) (keys g) = false).
    { destruct (existsb _ _) eqn:X; [|reflexivity].
      apply existsb_eqb_In, has_In_keys in X. congruence. }
    rewrite E', <- app_assoc. cbn [app]. do 2 f_equal.
    apply unique_ext. intros x. rewrite in_app_iff. simpl. tauto.
Qed.
End BuilderLabels.

Lemma builder_labels_in_order (host : Host) (data : list (dict value))
      (labelCol valueCol seriesCol : string) (st : FileToChart.State) chart :
  fst (FileToChart.processDataForChart host data labelCol valueCol seriesCol st)
  = Some chart ->
  FileToChart.labels chart
  = firstn 50 (unique [] (map (FileToChart.labelOf host labelCol) (firstn 1000 data))).
Proof.
  unfold FileToChart.processDataForChart.
  destruct (String.eqb labelCol EmptyString || String.eqb valueCol EmptyString);
    [discriminate|].
  cbn [fst]. intros [= <-]. unfold FileToChart.chartOf. cbn [FileToChart.labels].
  unfold FileToChart.groupRows. now rewrite keys_groupRows.
Qed.

(** X11: the labels of the chart are the labels of the first thousand
    records in order of first appearance, each once, cut after fifty. *)
Theorem X11_builder_labels_in_order (host : Host) (data : list (dict value))
        (labelCol valueCol seriesCol : string) (st : FileToChart.State) chart :
  fst (FileToChart.processDataForChart host data labelCol valueCol seriesCol st)
  = Some chart ->
  FileToChart.labels chart
  = firstn 50 (unique [] (map (FileToChart.labelOf host labelCol) (firstn 1000 data))).
Proof. apply builder_labels_in_order. Qed.

Lemma X11_builder_labels_in_order_witness :
  fst (FileToChart.processDataForChart plainHost sumRecords "k" "v" EmptyString
         FileToChart.initialState)
  = Some {| FileToChart.labels := ["x"; "y"];
            FileToChart.datasets :=
              [{| FileToChart.ds_label := "v (Sum)";
                  FileToChart.ds_data := [ofZ 3; ofZ 5] |}] |}
  /\ ["x"; "y"]
     = firstn 50 (unique [] (map (FileToChart.labelOf plainHost "k")
                                 (firstn 1000 sumRecords))).
Proof.
  assert (Hrun : fst (FileToChart.processDataForChart plainHost sumRecords "k" "v"
                        EmptyString FileToChart.initialState)
                 = Some {| FileToChart.labels := ["x"; "y"];
                           FileToChart.datasets :=
                             [{| FileToChart.ds_label := "v (Sum)";
                                 FileToChart.ds_data := [ofZ 3; ofZ 5] |}] |})
    by (vm_compute; reflexivity).
  split; [exact Hrun|].
  exact (X11_builder_labels_in_order plainHost sumRecords "k" "v" EmptyString
           FileToChart.initialState _ Hrun).
Defined.

Lemma cell_not_nan g s l : isNaN (FileToChart.cell g s l) = false.
Proof.
  unfold FileToChart.cell, FileToChart.seriesGet.
  destruct (lookup l g) as [m|]; [|reflexivity].
  destruct (lookup s m); [apply orZero_not_nan|reflexivity].
Qed.

Section BuilderSeries.
Variable host : Host.
Variables labelCol valueCol : string.
Variable isNumeric : bool.

Lemma series_default rows L m s :
  In (L, m) (FileToChart.groupRows host isNumeric labelCol valueCol EmptyString rows) ->
  In s (keys m) -> s = "Default".
Proof.
  intros Hin Hs. unfold FileToChart.groupRows in Hin.
  destruct (series_of_groupRows host labelCol valueCol EmptyString isNumeric
              rows [] L m s Hin Hs) as [(L' & m' & [] & _)|(r & _ & ->)].
  reflexivity.
Qed.

Lemma series_present seriesCol rows : forall g,
  rows <> [] ->
  flat_map (fun m => keys m)
    (values (fold_left (FileToChart.groupRow host isNumeric labelCol valueCol seriesCol)
                       rows g)) <> [].
Proof.
  assert (Hstep : forall g r,
             flat_map (fun m => keys m)
               (values (FileToChart.groupRow host isNumeric labelCol valueCol seriesCol g r))
             <> []).
  { intros g r. rewrite groupRow_unfold. cbv zeta.
    set (m' := mapSet (FileToChart.seriesOf host seriesCol r) _ _).
    assert (Hin : In (FileToChart.seriesOf host seriesCol r)
                     (flat_map (fun m => keys m)
                        (values (mapSet (FileToChart.labelOf host labelCol r) m' g)))).
    { apply in_flat_map. exists m'. split.
      - unfold values. apply in_map_iff.
        exists (FileToChart.labelOf host labelCol r, m'). split; [reflexivity|].
        apply In_mapSet_new.
      - unfold m', keys. apply in_map_iff.
        eexists (_, _). split; [reflexivity|]. apply In_mapSet_new. }
    intros E. rewrite E in Hin. destruct Hin. }
  induction rows as [|r rows IH]; intros g Hne; [congruence|].
  simpl. destruct rows as [|r' rows']; [apply Hstep|].
  apply IH. discriminate.
Qed.
End BuilderSeries.

Lemma firstn_nonempty {A : Type} (n : nat) (l : list A) :
  l <> [] -> firstn (S n) l <> [].
Proof. destruct l; [congruence|]. discriminate. Qed.

(** X12: a chart built by [processDataForChart] is well formed: every
    dataset has one value per label and none of its values is NaN, the
    labels are distinct, a table with at least one record gives at least one
    label and one dataset, and without a series column it gives exactly one
    dataset, named after the value column with the suffix of the mode. *)
Theorem X12_builder_chart_shape (host : Host) (data : list (dict value))
        (labelCol valueCol seriesCol : string) (st : FileToChart.State) chart :
  fst (FileToChart.processDataForChart host data labelCol valueCol seriesCol st)
  = Some chart ->
  (forall ds, In ds (FileToChart.datasets chart) ->
     List.length (FileToChart.ds_data ds) = List.length (FileToChart.labels chart)
     /\ Forall (fun out => isNaN out = false) (FileToChart.ds_data ds))
  /\ NoDup (FileToChart.labels chart)
  /\ (data <> [] ->
      FileToChart.labels chart <> [] /\ FileToChart.datasets chart <> [])
  /\ (data <> [] -> seriesCol = EmptyString ->
      exists ds,
        FileToChart.datasets chart = [ds]
        /\ FileToChart.ds_label ds
           = valueCol ++ (if FileToChart.isNumericValue data valueCol
                          then " (Sum)" else " (Count)")).
Proof.
  intros Hrun. pose proof (builder_labels_in_order _ _ _ _ _ _ _ Hrun) as Hlabels.
  revert Hrun. unfold FileToChart.processDataForChart.
  destruct (String.eqb labelCol EmptyString || String.eqb valueCol EmptyString);
    [discriminate|].
  cbn [fst]. intros [= <-].
  set (isNumeric := FileToChart.isNumericValue data valueCol) in *.
  set (rows := firstn 1000 data) in *.
  split; [|split; [|split]].
  - intros ds Hds. unfold FileToChart.chartOf in *.
    cbn [FileToChart.labels FileToChart.datasets] in *.
    apply in_map_iff in Hds. destruct Hds as (series & <- & _).
    cbn [FileToChart.ds_data]. split; [apply length_map|].
    apply Forall_map. apply Forall_forall. intros l _. apply cell_not_nan.
  - apply (builder_chart_labels host isNumeric labelCol valueCol seriesCol rows).
  - intros Hne. assert (Hrows : rows <> []) by now apply firstn_nonempty.
    split.
    + rewrite Hlabels. fold rows. destruct rows as [|r rows']; [congruence|].
      simpl. discriminate.
    + unfold FileToChart.chartOf. cbn [FileToChart.datasets].
      intros E. apply map_eq_nil in E. revert E. apply unique_nonempty.
      unfold FileToChart.groupRows. now apply series_present.
  - intros Hne ->. assert (Hrows : rows <> []) by now apply firstn_nonempty.
    unfold FileToChart.chartOf.
    cbn [FileToChart.labels FileToChart.datasets String.eqb negb].
    set (g := FileToChart.groupRows host isNumeric labelCol valueCol EmptyString rows).
    rewrite (unique_single "Default").
    + eexists. split; [reflexivity|]. cbn [FileToChart.ds_label map].
      now destruct isNumeric.
    + unfold g, FileToChart.groupRows. now apply series_present.
    + intros s Hs. apply in_flat_map in Hs. destruct Hs as (m & Hm & Hs).
      unfold values in Hm. apply in_map_iff in Hm. destruct Hm as ([L m'] & <- & Hin).
      exact (series_default host labelCol valueCol isNumeric rows L m' s Hin Hs).
Qed.

Lemma X12_builder_chart_shape_witness :
  let chart :=
    {| FileToChart.labels := ["x"; "y"];
       FileToChart.datasets :=
         [{| FileToChart.ds_label := "v (Sum)";
             FileToChart.ds_data := [ofZ 3; ofZ 5] |}] |} in
  fst (FileToChart.processDataForChart plainHost sumRecords "k" "v" EmptyString
         FileToChart.initialState)
  = Some chart
  /\ forall ds, In ds (FileToChart.datasets chart) ->
       List.length (FileToChart.ds_data ds) = List.length (FileToChart.labels chart)
       /\ Forall (fun out => isNaN out = false) (FileToChart.ds_data ds).
Proof.
  cbv zeta.
  assert (Hrun : fst (FileToChart.processDataForChart plainHost sumRecords "k" "v"
                        EmptyString FileToChart.initialState)
                 = Some {| FileToChart.labels := ["x"; "y"];
                           FileToChart.datasets :=
                             [{| FileToChart.ds_label := "v (Sum)";
                                 FileToChart.ds_data := [ofZ 3; ofZ 5] |}] |})
    by (vm_compute; reflexivity).
  split; [exact Hrun|].
  exact (proj1 (X12_builder_chart_shape plainHost sumRecords "k" "v" EmptyString
                  FileToChart.initialState _ Hrun)).
Defined.

(** ** Counting in the chart builder *)

Lemma sameNumber_eq x y : sameNumber x y = true -> x = y.
Proof.
  destruct x as [s|s| |s m e], y as [s'|s'| |s' m' e']; simpl; try discriminate;
    try reflexivity.
  - intros H. apply Bool.eqb_prop in H. now subst.
  - intros H. apply Bool.eqb_prop in H. now subst.
  - intros H. apply andb_true_iff in H as [H He]. apply andb_true_iff in H as [Hs Hm].
    apply Bool.eqb_prop in Hs. apply Pos.eqb_eq in Hm. apply Z.eqb_eq in He. now subst.
Qed.

(** Up to a thousand, adding one to a count gives the next count, and a
    count is what [x || 0] keeps of it. *)
Lemma counting_check :
  forallb (fun n => sameNumber (add (ofNat n) (ofZ 1)) (ofNat (S n))
                    && sameNumber (orZero (ofNat n)) (ofNat n)) (seq 0 1001) = true.
Proof. vm_compute. reflexivity. Qed.

Lemma counting_step n :
  (n <= 1000)%nat ->
  add (ofNat n) (ofZ 1) = ofNat (S n) /\ orZero (ofNat n) = ofNat n.
Proof.
  intros H. pose proof counting_check as C. rewrite forallb_forall in C.
  specialize (C n). rewrite in_seq in C.
  assert (Hn : (0 <= n < 0 + 1001)%nat) by lia.
  apply C in Hn. apply andb_true_iff in Hn as [H1 H2].
  split; now apply sameNumber_eq.
Qed.

Lemma sum_ones n : (n <= 1000)%nat -> sum (repeat (ofZ 1) n) = ofNat n.
Proof.
  unfold sum. induction n as [|n IH]; intros H; [reflexivity|].
  cbn [repeat]. rewrite repeat_cons, fold_left_app. cbn [fold_left].
  rewrite IH by lia. apply counting_step. lia.
Qed.

Lemma length_filter_le {A : Type} (f : A -> bool) (l : list A) :
  (List.length (filter f l) <= List.length l)%nat.
Proof. induction l as [|x l IH]; simpl; [lia|]. destruct (f x); simpl; lia. Qed.

Lemma length_firstn_le {A : Type} (n : nat) (l : list A) :
  (List.length (firstn n l) <= n)%nat.
Proof. rewrite length_firstn. lia. Qed.

Lemma builder_cell_count (host : Host) labelCol valueCol seriesCol rows label series :
  (List.length rows <= 1000)%nat ->
  FileToChart.cell (FileToChart.groupRows host false labelCol valueCol seriesCol rows)
    series label
  = ofNat (List.length (builderGroup host labelCol seriesCol label series rows)).
Proof.
  intros Hlen. unfold FileToChart.groupRows. rewrite cell_groupRows.
  change (map (builderAdded host valueCol false)) with (map (fun _ : dict value => ofZ 1)).
  rewrite map_const.
  change (FileToChart.cell [] series label) with (orZero zero).
  set (n := List.length _).
  assert (Hn : (n <= 1000)%nat).
  { unfold n, builderGroup. etransitivity; [apply length_filter_le|exact Hlen]. }
  rewrite keptSum_sum; [|reflexivity|].
  - fold (sum (repeat (ofZ 1) n)). rewrite sum_ones by exact Hn.
    now apply counting_step.
  - apply Forall_forall. intros v Hv. apply repeat_spec in Hv. subst v.
    split; [reflexivity|discriminate].
Qed.

(** X13: when no record holds a number in the value column, the chart
    counts: every value of a dataset is the number of records, among the
    first thousand, that have the label (and, under a series column, the
    series of the dataset). *)
Theorem X13_builder_counts (host : Host) (data : list (dict value))
        (labelCol valueCol seriesCol : string) (st : FileToChart.State) chart :
  FileToChart.isNumericValue data valueCol = false ->
  fst (FileToChart.processDataForChart host data labelCol valueCol seriesCol st)
  = Some chart ->
  forall ds,
    In ds (FileToChart.datasets chart) ->
    exists series,
      (seriesCol <> EmptyString -> FileToChart.ds_label ds = series)
      /\ (seriesCol = EmptyString -> FileToChart.ds_label ds = valueCol ++ " (Count)")
      /\ Forall2
           (fun label out =>
              out = ofNat (List.length
                             (builderGroup host labelCol seriesCol label series
                                (firstn 1000 data))))
           (FileToChart.labels chart) (FileToChart.ds_data ds).
Proof.
  intros Hnum. unfold FileToChart.processDataForChart. rewrite Hnum.
  destruct (String.eqb labelCol EmptyString || String.eqb valueCol EmptyString);
    [discriminate|].
  cbn [fst]. intros [= <-] ds Hds.
  unfold FileToChart.chartOf in *.
  cbn [FileToChart.labels FileToChart.datasets] in *.
  apply in_map_iff in Hds. destruct Hds as (series & <- & _).
  exists series. cbn [FileToChart.ds_label FileToChart.ds_data]. split; [|split].
  - intros Hne. apply String.eqb_neq in Hne. now rewrite Hne.
  - intros ->. reflexivity.
  - apply Forall2_map_same. intros label. apply builder_cell_count.
    apply length_firstn_le.
Qed.

Lemma X13_builder_counts_witness :
  let chart :=
    {| FileToChart.labels := ["x"];
       FileToChart.datasets :=
         [{| FileToChart.ds_label := "v (Count)";
             FileToChart.ds_data := [ofZ 1000] |}] |} in
  FileToChart.isNumericValue lateLabels "v" = false
  /\ fst (FileToChart.processDataForChart plainHost lateLabels "k" "v" EmptyString
            FileToChart.initialState)
     = Some chart
  /\ forall ds,
       In ds (FileToChart.datasets chart) ->
       exists series,
         (EmptyString <> EmptyString -> FileToChart.ds_label ds = series)
         /\ (EmptyString = EmptyString -> FileToChart.ds_label ds = "v" ++ " (Count)")
         /\ Forall2
              (fun label out =>
                 out = ofNat (List.length
                                (builderGroup plainHost "k" EmptyString label series
                                   (firstn 1000 lateLabels))))
              (FileToChart.labels chart) (FileToChart.ds_data ds).
Proof.
  cbv zeta.
  assert (Hnum : FileToChart.isNumericValue lateLabels "v" = false)
    by (vm_compute; reflexivity).
  assert (Hrun : fst (FileToChart.processDataForChart plainHost lateLabels "k" "v"
                        EmptyString FileToChart.initialState)
                 = Some {| FileToChart.labels := ["x"];
                           FileToChart.datasets :=
                             [{| FileToChart.ds_label := "v (Count)";
                                 FileToChart.ds_data := [ofZ 1000] |}] |})
    by (vm_compute; reflexivity).
  split; [exact Hnum|]. split; [exact Hrun|].
  exact (X13_builder_counts plainHost lateLabels "k" "v" EmptyString
           FileToChart.initialState _ Hnum Hrun).
Defined.

(** ** Uploading to the chart builder, and its other handlers *)

Lemma upload_unfold (host : Host) (file : FileToChart.File) (st : FileToChart.State) :
  (FileToChart.file_size file <= 10 * 1024 * 1024)%Z ->
  FileToChart.handleFileUpload host (Some file) st
  = let st2 :=
      FileToChart.addStatusMessage
        ("Processing " ++ quoted (FileToChart.file_name file) ++ "...")
        FileToChart.info 5000 (FileToChart.setIsLoading true st) in
    FileToChart.setIsLoading false
      match FileToChart.processByExtension host
              (fileExtensionOf (FileToChart.file_name file))
              (FileToChart.file_text file) with
      | Ok (headers, processedData) =>
          match processedData with
          | [] => FileToChart.rejectFile
                    "No valid data records found in the file after processing." st2
          | _ => FileToChart.acceptFile host file
                   (fileExtensionOf (FileToChart.file_name file)) headers processedData st2
          end
      | Throw message => FileToChart.rejectFile message st2
      end.
Proof.
  intros Hsize. unfold FileToChart.handleFileUpload.
  replace (FileToChart.MAX_FILE_SIZE_MB * 1024 * 1024 <? FileToChart.file_size file)%Z
    with false; [reflexivity|].
  symmetry. apply Z.ltb_ge. exact Hsize.
Qed.

Lemma statusMessages_processed (host : Host) data labelCol valueCol seriesCol st :
  exists more,
    FileToChart.statusMessages
      (snd (FileToChart.processDataForChart host data labelCol valueCol seriesCol st))
    = (FileToChart.statusMessages st ++ more)%list
    /\ FileToChart.uploadedFiles
         (snd (FileToChart.processDataForChart host data labelCol valueCol seriesCol st))
       = FileToChart.uploadedFiles st
    /\ FileToChart.selectedFile
         (snd (FileToChart.processDataForChart host data labelCol valueCol seriesCol st))
       = FileToChart.selectedFile st
    /\ FileToChart.isLoading
         (snd (FileToChart.processDataForChart host data labelCol valueCol seriesCol st))
       = FileToChart.isLoading st.
Proof.
  unfold FileToChart.processDataForChart.
  destruct (String.eqb labelCol EmptyString || String.eqb valueCol EmptyString).
  - eexists. cbn. repeat split.
  - exists []. cbn. now rewrite app_nil_r.
Qed.

Lemma accept_outcome (host : Host) file ext headers data st :
  let st' := FileToChart.acceptFile host file ext headers data st in
  exists uploaded earlier message,
    FileToChart.uploadedFiles st' = uploaded :: firstn 9 (FileToChart.uploadedFiles st)
    /\ FileToChart.selectedFile st' = Some uploaded
    /\ FileToChart.uf_name uploaded = FileToChart.file_name file
    /\ FileToChart.uf_columns uploaded = headers
    /\ FileToChart.uf_data uploaded = data
    /\ FileToChart.uf_rowCount uploaded = List.length data
    /\ FileToChart.uf_preview uploaded = firstn 5 data
    /\ FileToChart.statusMessages st'
       = (FileToChart.statusMessages st ++ earlier
          ++ [{| FileToChart.sm_type := FileToChart.success;
                 FileToChart.sm_message := message;
                 FileToChart.sm_duration := 5000 |}])%list
    /\ FileToChart.isLoading st' = FileToChart.isLoading st.
Proof.
  intros st'. unfold FileToChart.acceptFile in st'.
  set (uploaded := {| FileToChart.uf_name := FileToChart.file_name file;
                      FileToChart.uf_type := _; FileToChart.uf_size := _;
                      FileToChart.uf_data := data; FileToChart.uf_columns := headers;
                      FileToChart.uf_rowCount := _; FileToChart.uf_preview := _ |}) in st'.
  exists uploaded.
  destruct (2 <=? List.length headers)%nat eqn:L.
  - set (cols := FileToChart.autoSelect headers data) in st'.
    set (st1 := FileToChart.setSelectedColumns cols _) in st'.
    destruct (statusMessages_processed host data (FileToChart.sc_label cols)
                (FileToChart.sc_value cols) (FileToChart.sc_series cols) st1)
      as (more & Hm & Hu & Hs & Hl).
    destruct (FileToChart.processDataForChart host data (FileToChart.sc_label cols)
                (FileToChart.sc_value cols) (FileToChart.sc_series cols) st1)
      as [[chart|] st2] eqn:P; cbn [snd] in *; subst st'; cbn;
      rewrite ?Hm, ?Hu, ?Hs, ?Hl; exists more; eexists;
      repeat split; now rewrite <- ?app_assoc.
  - subst st'. cbn. eexists [_]. eexists. repeat split. now rewrite <- app_assoc.
Qed.

(** X14: an upload below the size ceiling always ends with the loading flag
    off.  If the file parses to at least one record, the new file is put at
    the head of the history, which keeps the nine most recent of the others
    (so at most ten in all), it becomes the selected file, with the parsed
    records, their count and the first five as preview, and the last message
    reports success.  In every other case (unsupported extension, parse
    error, no record) the upload is rejected with the error: the history is
    as before, and the selection, its columns and the chart are cleared. *)
Theorem X14_upload_outcome (host : Host) (file : FileToChart.File)
        (st : FileToChart.State) :
  (FileToChart.file_size file <= 10 * 1024 * 1024)%Z ->
  let st' := FileToChart.handleFileUpload host (Some file) st in
  FileToChart.isLoading st' = false
  /\ match FileToChart.processByExtension host
             (fileExtensionOf (FileToChart.file_name file))
             (FileToChart.file_text file) with
     | Ok (headers, []) =>
         rejectedWith file "No valid data records found in the file after processing."
           st st'
     | Ok (headers, data) =>
         exists uploaded earlier message,
           FileToChart.uploadedFiles st'
           = uploaded :: firstn 9 (FileToChart.uploadedFiles st)
           /\ (List.length (FileToChart.uploadedFiles st') <= 10)%nat
           /\ FileToChart.selectedFile st' = Some uploaded
           /\ FileToChart.uf_name uploaded = FileToChart.file_name file
           /\ FileToChart.uf_columns uploaded = headers
           /\ FileToChart.uf_data uploaded = data
           /\ FileToChart.uf_rowCount uploaded = List.length data
           /\ FileToChart.uf_preview uploaded = firstn 5 data
           /\ FileToChart.statusMessages st'
              = (FileToChart.statusMessages st ++ processingNotice file :: earlier
                 ++ [{| FileToChart.sm_type := FileToChart.success;
                        FileToChart.sm_message := message;
                        FileToChart.sm_duration := 5000 |}])%list
     | Throw message => rejectedWith file message st st'
     end.
Proof.
  intros Hsize st'. subst st'. rewrite (upload_unfold host file st Hsize). cbv zeta.
  split; [reflexivity|].
  destruct (FileToChart.processByExtension host
              (fileExtensionOf (FileToChart.file_name file))
              (FileToChart.file_text file)) as [[headers [|r data]]|message].
  - unfold rejectedWith. cbn. repeat split. now rewrite <- app_assoc.
  - set (st2 := FileToChart.addStatusMessage _ _ _ _).
    destruct (accept_outcome host file (fileExtensionOf (FileToChart.file_name file))
                headers (r :: data) st2)
      as (uploaded & earlier & message & Hu & Hs & Hn & Hc & Hd & Hr & Hp & Hm & _).
    exists uploaded, earlier, message. cbn [FileToChart.setIsLoading
      FileToChart.uploadedFiles FileToChart.selectedFile FileToChart.statusMessages].
    rewrite Hu, Hs, Hm. repeat split; auto.
    + cbn [List.length]. rewrite length_firstn. lia.
    + subst st2. cbn. now rewrite <- app_assoc.
  - unfold rejectedWith. cbn. repeat split. now rewrite <- app_assoc.
Qed.

Lemma X14_upload_outcome_witness :
  (FileToChart.file_size yearsFile <= 10 * 1024 * 1024)%Z
  /\ FileToChart.isLoading
       (FileToChart.handleFileUpload plainHost (Some yearsFile) FileToChart.initialState)
     = false
  /\ List.length
       (FileToChart.uploadedFiles
          (FileToChart.handleFileUpload plainHost (Some yearsFile)
             FileToChart.initialState)) = 1%nat.
Proof.
  assert (H : (FileToChart.file_size yearsFile <= 10 * 1024 * 1024)%Z)
    by (vm_compute; discriminate).
  split; [exact H|].
  split; [|vm_compute; reflexivity].
  exact (proj1 (X14_upload_outcome plainHost yearsFile FileToChart.initialState H)).
Defined.

Lemma processDataForChart_some (host : Host) data labelCol valueCol seriesCol st :
  labelCol <> EmptyString -> valueCol <> EmptyString ->
  FileToChart.processDataForChart host data labelCol valueCol seriesCol st
  = (Some (FileToChart.chartOf (FileToChart.isNumericValue data valueCol) valueCol
             seriesCol
             (FileToChart.groupRows host (FileToChart.isNumericValue data valueCol)
                labelCol valueCol seriesCol (firstn 1000 data))),
     st).
Proof.
  intros Hl Hv. unfold FileToChart.processDataForChart.
  apply String.eqb_neq in Hl, Hv. now rewrite Hl, Hv.
Qed.

(** X15: [updateChart] never reports a failure.  Either no file is selected
    or a label or value column is missing, and then it appends one warning
    and leaves the chart as it is; or it replaces the chart by the
    aggregation of the selected file under the selected columns and adds no
    message.  The history, the selection and the loading flag are never
    touched. *)
Theorem X15_updateChart_never_fails (host : Host) (st : FileToChart.State) :
  let st' := FileToChart.updateChart host st in
  FileToChart.uploadedFiles st' = FileToChart.uploadedFiles st
  /\ FileToChart.selectedFile st' = FileToChart.selectedFile st
  /\ FileToChart.selectedColumns st' = FileToChart.selectedColumns st
  /\ FileToChart.isLoading st' = FileToChart.isLoading st
  /\ ((FileToChart.chartData st' = FileToChart.chartData st
       /\ exists message,
            FileToChart.statusMessages st'
            = (FileToChart.statusMessages st ++ [warningOf message])%list
            /\ (FileToChart.selectedFile st = None
                \/ FileToChart.sc_label (FileToChart.selectedColumns st) = EmptyString
                \/ FileToChart.sc_value (FileToChart.selectedColumns st) = EmptyString))
      \/ (FileToChart.statusMessages st' = FileToChart.statusMessages st
          /\ exists f chart,
               FileToChart.selectedFile st = Some f
               /\ FileToChart.chartData st' = Some chart
               /\ forall st0,
                    fst (FileToChart.processDataForChart host (FileToChart.uf_data f)
                           (FileToChart.sc_label (FileToChart.selectedColumns st))
                           (FileToChart.sc_value (FileToChart.selectedColumns st))
                           (FileToChart.sc_series (FileToChart.selectedColumns st)) st0)
                    = Some chart)).
Proof.
  unfold FileToChart.updateChart.
  destruct (FileToChart.selectedFile st) as [f|] eqn:F.
  - destruct (String.eqb (FileToChart.sc_label (FileToChart.selectedColumns st)) EmptyString)
      eqn:L.
    + cbn. rewrite F. repeat split. left. split; [reflexivity|].
      eexists. split; [reflexivity|]. right. left. now apply String.eqb_eq.
    + destruct (String.eqb (FileToChart.sc_value (FileToChart.selectedColumns st))
                  EmptyString) eqn:V.
      * cbn. rewrite F. repeat split. left. split; [reflexivity|].
        eexists. split; [reflexivity|]. right. right. now apply String.eqb_eq.
      * apply String.eqb_neq in L, V. cbn [orb].
        rewrite processDataForChart_some by assumption.
        cbn. rewrite F. repeat split. right. split; [reflexivity|].
        eexists f, _. split; [reflexivity|]. split; [reflexivity|].
        intros st0. now rewrite processDataForChart_some.
  - cbn. rewrite F. repeat split. left. split; [reflexivity|].
    eexists. split; [reflexivity|]. now left.
Qed.

Lemma updateChart_chartData_kept (host : Host) (st : FileToChart.State) :
  FileToChart.selectedFile st = None
  \/ FileToChart.sc_label (FileToChart.selectedColumns st) = EmptyString
  \/ FileToChart.sc_value (FileToChart.selectedColumns st) = EmptyString ->
  FileToChart.chartData (FileToChart.updateChart host st) = FileToChart.chartData st.
Proof.
  intros H. unfold FileToChart.updateChart.
  destruct (FileToChart.selectedFile st) as [f|]; [|reflexivity].
  destruct H as [H|[H|H]]; [discriminate| |]; rewrite H; cbn [String.eqb orb];
    rewrite ?orb_true_r; reflexivity.
Qed.

Lemma updateChart_chartData_made (host : Host) (st : FileToChart.State) f :
  FileToChart.selectedFile st = Some f ->
  FileToChart.sc_label (FileToChart.selectedColumns st) <> EmptyString ->
  FileToChart.sc_value (FileToChart.selectedColumns st) <> EmptyString ->
  FileToChart.chartData (FileToChart.updateChart host st)
  = fst (FileToChart.processDataForChart host (FileToChart.uf_data f)
           (FileToChart.sc_label (FileToChart.selectedColumns st))
           (FileToChart.sc_value (FileToChart.selectedColumns st))
           (FileToChart.sc_series (FileToChart.selectedColumns st)) st).
Proof.
  intros F L V. unfold FileToChart.updateChart. rewrite F.
  rewrite processDataForChart_some by assumption.
  apply String.eqb_neq in L, V. rewrite L, V. reflexivity.
Qed.

(** X16: pressing Update right after an upload below the size ceiling
    never changes the chart: the columns chosen on upload give the chart
    again, and where the upload drew none, neither does the update. *)
Theorem X16_update_after_upload (host : Host) (file : FileToChart.File)
        (st : FileToChart.State) :
  (FileToChart.file_size file <= 10 * 1024 * 1024)%Z ->
  FileToChart.chartData
    (FileToChart.updateChart host (FileToChart.handleFileUpload host (Some file) st))
  = FileToChart.chartData (FileToChart.handleFileUpload host (Some file) st).
Proof.
  intros Hsize. rewrite (upload_unfold host file st Hsize). cbv zeta.
  set (st2 := FileToChart.addStatusMessage _ _ _ _).
  destruct (FileToChart.processByExtension host
              (fileExtensionOf (FileToChart.file_name file))
              (FileToChart.file_text file)) as [[headers [|r data]]|message];
    try (apply updateChart_chartData_kept; now left).
  set (ext := fileExtensionOf _). set (rows := r :: data).
  unfold FileToChart.acceptFile.
  set (uploaded := {| FileToChart.uf_name := FileToChart.file_name file;
                      FileToChart.uf_type := _; FileToChart.uf_size := _;
                      FileToChart.uf_data := rows; FileToChart.uf_columns := headers;
                      FileToChart.uf_rowCount := _; FileToChart.uf_preview := _ |}).
  destruct (2 <=? List.length headers)%nat.
  - set (cols := FileToChart.autoSelect headers rows).
    set (st3 := FileToChart.setSelectedColumns cols _).
    destruct (string_dec (FileToChart.sc_label cols) EmptyString) as [L|L].
    { apply updateChart_chartData_kept. right. left.
      unfold FileToChart.processDataForChart. rewrite L. exact L. }
    destruct (string_dec (FileToChart.sc_value cols) EmptyString) as [V|V].
    { apply updateChart_chartData_kept. right. right.
      unfold FileToChart.processDataForChart. rewrite V, orb_true_r. exact V. }
    rewrite (processDataForChart_some host rows _ _ _ st3 L V).
    erewrite updateChart_chartData_made; [| reflexivity | exact L | exact V].
    cbn [FileToChart.selectedColumns FileToChart.setIsLoading
         FileToChart.addStatusMessage FileToChart.setChartData
         FileToChart.setSelectedColumns st3 FileToChart.chartData
         FileToChart.uf_data uploaded].
    now rewrite processDataForChart_some.
  - apply updateChart_chartData_kept. right. now left.
Qed.

Lemma X16_update_after_upload_witness :
  (FileToChart.file_size yearsFile <= 10 * 1024 * 1024)%Z
  /\ FileToChart.chartData
       (FileToChart.updateChart plainHost
          (FileToChart.handleFileUpload plainHost (Some yearsFile)
             FileToChart.initialState))
     = FileToChart.chartData
         (FileToChart.handleFileUpload plainHost (Some yearsFile)
            FileToChart.initialState).
Proof.
  assert (H : (FileToChart.file_size yearsFile <= 10 * 1024 * 1024)%Z)
    by (vm_compute; discriminate).
  split; [exact H|].
  exact (X16_update_after_upload plainHost yearsFile FileToChart.initialState H).
Defined.

(** X17: choosing a file from the history clears the chart, and Update
    then draws nothing until columns are chosen; once a label and a value
    column are chosen, Update draws the aggregation of the file's records
    under these columns, without series. *)
Theorem X17_manual_workflow (host : Host) (f : FileToChart.UploadedFile)
        (labelCol valueCol : string) (st : FileToChart.State) :
  labelCol <> EmptyString ->
  valueCol <> EmptyString ->
  let chosen :=
    FileToChart.handleColumnChange FileToChart.onValue valueCol
      (FileToChart.handleColumnChange FileToChart.onLabel labelCol
         (FileToChart.selectFile f st)) in
  FileToChart.chartData (FileToChart.selectFile f st) = None
  /\ FileToChart.chartData (FileToChart.updateChart host (FileToChart.selectFile f st))
     = None
  /\ FileToChart.chartData (FileToChart.updateChart host chosen)
     = fst (FileToChart.processDataForChart host (FileToChart.uf_data f)
              labelCol valueCol EmptyString chosen)
  /\ FileToChart.chartData (FileToChart.updateChart host chosen) <> None.
Proof.
  intros L V chosen. split; [reflexivity|]. split.
  - rewrite updateChart_chartData_kept; [reflexivity|]. right. now left.
  - assert (E : FileToChart.chartData (FileToChart.updateChart host chosen)
                = fst (FileToChart.processDataForChart host (FileToChart.uf_data f)
                         labelCol valueCol EmptyString chosen)).
    { erewrite updateChart_chartData_made; [reflexivity|reflexivity|exact L|exact V]. }
    split; [exact E|]. rewrite E, processDataForChart_some by assumption. discriminate.
Qed.

Lemma X17_manual_workflow_witness :
  "k" <> EmptyString
  /\ "v" <> EmptyString
  /\ FileToChart.chartData
       (FileToChart.updateChart plainHost
          (FileToChart.handleColumnChange FileToChart.onValue "v"
             (FileToChart.handleColumnChange FileToChart.onLabel "k"
                (FileToChart.selectFile sumsUpload FileToChart.initialState))))
     = Some {| FileToChart.labels := ["x"; "y"];
               FileToChart.datasets :=
                 [{| FileToChart.ds_label := "v (Sum)";
                     FileToChart.ds_data := [ofZ 3; ofZ 5] |}] |}.
Proof.
  assert (Hk : "k" <> EmptyString) by discriminate.
  assert (Hv : "v" <> EmptyString) by discriminate.
  split; [exact Hk|]. split; [exact Hv|].
  destruct (X17_manual_workflow plainHost sumsUpload "k" "v" FileToChart.initialState
              Hk Hv) as (_ & _ & E & _).
  rewrite E. vm_compute. reflexivity.
Defined.

Lemma filter_partition {A : Type} (p : A -> bool) (l : list A) :
  Permutation (filter p l ++ filter (fun x => negb (p x)) l) l.
Proof.
  induction l as [|x l IH]; simpl; [constructor|].
  destruct (p x); simpl.
  - now constructor.
  - symmetry. apply Permutation_cons_app. now symmetry.
Qed.

(** X18: the statistics of the selected file split its columns in two:
    the numeric ones, holding a number in some record, and the categorical
    ones, holding a number in none; together they are the columns, and
    their counts add up to the total. *)
Theorem X18_fileStats_partition (f : FileToChart.UploadedFile) :
  exists stats,
    FileToChart.fileStats (Some f) = Some stats
    /\ Permutation (FileToChart.numerics stats ++ FileToChart.categoricals stats)
                   (FileToChart.uf_columns f)
    /\ FileToChart.total stats
       = (List.length (FileToChart.numerics stats)
          + List.length (FileToChart.categoricals stats))%nat
    /\ forall col,
         In col (FileToChart.uf_columns f) ->
         (In col (FileToChart.numerics stats)
          <-> exists r, In r (FileToChart.uf_data f) /\ isNumberValue (get col r) = true)
         /\ (In col (FileToChart.categoricals stats)
             <-> forall r, In r (FileToChart.uf_data f) -> isNumberValue (get col r) = false).
Proof.
  eexists. split; [reflexivity|].
  cbn [FileToChart.numerics FileToChart.categoricals FileToChart.total].
  unfold FileToChart.numericColumns.
  set (p := fun col => existsb (fun r => isNumberValue (get col r)) (FileToChart.uf_data f)).
  set (cols := FileToChart.uf_columns f).
  assert (Hcat : filter (fun col => negb (existsb (String.eqb col) (filter p cols))) cols
                 = filter (fun col => negb (p col)) cols).
  { apply filter_ext_in. intros col Hin. f_equal.
    apply eq_true_iff_eq. rewrite existsb_eqb_In, filter_In. tauto. }
  rewrite Hcat.
  assert (Hperm := filter_partition p cols).
  split; [exact Hperm|]. split.
  - apply Permutation_length in Hperm. now rewrite length_app in Hperm.
  - intros col Hin. rewrite !filter_In. unfold p. split.
    + rewrite existsb_exists. tauto.
    + rewrite negb_true_iff. split.
      * intros [_ H] r Hr. destruct (isNumberValue (get col r)) eqn:E; [|reflexivity].
        assert (existsb (fun r => isNumberValue (get col r)) (FileToChart.uf_data f) = true)
          by (apply existsb_exists; eauto).
        congruence.
      * intros H. split; [exact Hin|].
        destruct (existsb _ _) eqn:E; [|reflexivity].
        apply existsb_exists in E as (r & Hr & E). rewrite (H r Hr) in E. discriminate.
Qed.

(** ** Uploading a CSV file to the animation studio *)

Lemma find_second (k0 k1 : string) (rest : list string) :
  k1 <> k0 ->
  find (fun col => negb (String.eqb col k0)) (k0 :: k1 :: rest) = Some k1.
Proof.
  intros H. simpl. rewrite String.eqb_refl. simpl.
  apply String.eqb_neq in H. now rewrite H.
Qed.

Lemma studio_csv_first_record (csv : string) (rows : list (dict value)) :
  AnimateChart.parseCSV csv = Ok rows ->
  exists firstRow rest, rows = firstRow :: rest /\ NoDup (keys firstRow).
Proof.
  unfold AnimateChart.parseCSV.
  destruct (filter _ _) as [|headerLine [|line body]]; try discriminate.
  intros [= <-].
  pose proof (studio_records (AnimateChart.parseCSVLine headerLine) (line :: body)) as F.
  inversion F as [|? firstRow ? rest [[Hnd _] _] _]; subst.
  now exists firstRow, rest.
Qed.

Section StudioUpload.
Variable host : Host.
Variables closedLabelColumn closedValueColumn : string.

#[local] Abbreviation processStandardData :=
  (AnimateChart.processStandardData host closedLabelColumn closedValueColumn).
#[local] Abbreviation parseCsvFile :=
  (AnimateChart.parseCsvFile host closedLabelColumn closedValueColumn).

Lemma standard_two_columns firstRow rest k0 k1 others st :
  keys firstRow = k0 :: k1 :: others ->
  k1 <> k0 ->
  processStandardData (firstRow :: rest) st
  = (AnimateChart.setIsLoading false
       (AnimateChart.showStatus
          ("File uploaded successfully! "
           ++ numberToString (ofNat (List.length (firstRow :: rest))) ++ " records loaded.")
          "success"
          (AnimateChart.setChartData
             (Some (AnimateChart.processSelectedColumns host (firstRow :: rest) k0 k1))
             (AnimateChart.setSelectedValueColumn k1
                (AnimateChart.setSelectedLabelColumn k0
                   (AnimateChart.setCurrentSheetData (Some (firstRow :: rest)) st))))),
     None).
Proof.
  intros Hk Hne. unfold AnimateChart.processStandardData. rewrite Hk.
  cbn [List.length Nat.leb nth]. rewrite (find_second k0 k1 others Hne).
  destruct (String.eqb k1 EmptyString) eqn:E; [|reflexivity].
  apply String.eqb_eq in E. now subst k1.
Qed.

Lemma standard_one_column firstRow rest st :
  (List.length (keys firstRow) < 2)%nat ->
  processStandardData (firstRow :: rest) st
  = (AnimateChart.setCurrentSheetData (Some (firstRow :: rest)) st,
     Some "Data must have at least 2 columns").
Proof.
  intros Hlen. unfold AnimateChart.processStandardData, AnimateChart.processDataForChart.
  replace (2 <=? List.length (keys firstRow))%nat with false
    by (symmetry; apply Nat.leb_gt; exact Hlen).
  replace (List.length (keys firstRow) <? 2)%nat with true
    by (symmetry; apply Nat.ltb_lt; exact Hlen).
  reflexivity.
Qed.
End StudioUpload.



(** ** The first chart of the animation studio *)

Lemma fold_addTo_sumFromFirst vs :
  fold_left addTo vs None = sumFromFirst vs.
Proof.
  destruct vs as [|v rest]; [reflexivity|]. simpl.
  change (addTo None v) with (Some v).
  revert v. induction rest as [|w rest IH]; intros v; [reflexivity|].
  simpl. apply IH.
Qed.

Section StudioChartFacts.
Variable host : Host.
Variables labelColumn valueColumn : string.

#[local] Abbreviation dataMapStep := (AnimateChart.dataMapStep host labelColumn valueColumn).

Lemma dataMapStep_skips m r i : (1000 <= i)%nat -> dataMapStep m r i = m.
Proof.
  intros H. unfold AnimateChart.dataMapStep.
  now replace (1000 <=? i)%nat with true by (symmetry; apply Nat.leb_le; exact H).
Qed.

Lemma dataMapStep_keys m r i :
  keys (dataMapStep m r i)
  = if (1000 <=? i)%nat then keys m
    else if has (AnimateChart.labelAt host labelColumn r i) m then keys m
         else (keys m ++ [AnimateChart.labelAt host labelColumn r i])%list.
Proof.
  unfold AnimateChart.dataMapStep. destruct (1000 <=? i)%nat; [reflexivity|].
  fold (AnimateChart.labelAt host labelColumn r i).
  destruct (lookup _ m) eqn:E; rewrite keys_mapSet; unfold has; now rewrite E.
Qed.

Lemma keys_dataMapSteps rows : forall index m,
  keys (forEachFrom dataMapStep rows index m)
  = (keys m ++ unique (keys m) (studioLabels host labelColumn rows index))%list.
Proof.
  induction rows as [|r rows IH]; intros index m; simpl; [now rewrite app_nil_r|].
  rewrite IH, dataMapStep_keys.
  destruct (Nat.leb_spec 1000 index) as [Hge|Hlt].
  - replace (index <? 1000)%nat with false by (symmetry; apply Nat.ltb_ge; lia).
    reflexivity.
  - replace (index <? 1000)%nat with true by (symmetry; apply Nat.ltb_lt; lia).
    cbn [app unique].
    destruct (has (AnimateChart.labelAt host labelColumn r index) m) eqn:E.
    + apply has_In_keys in E. apply existsb_eqb_In in E. now rewrite E.
    + assert (E' : existsb (String.eqb (AnimateChart.labelAt host labelColumn r index))
                     (keys m) = false).
      { destruct (existsb _ _) eqn:X; [|reflexivity].
        apply existsb_eqb_In, has_In_keys in X. congruence. }
      rewrite E', <- app_assoc. cbn [app]. do 2 f_equal.
      apply unique_ext. intros x. rewrite in_app_iff. simpl. tauto.
Qed.

Lemma lookup_dataMapSteps label rows : forall index m,
  lookup label (forEachFrom dataMapStep rows index m)
  = fold_left addTo (chartValues host labelColumn valueColumn label rows index)
      (lookup label m).
Proof.
  induction rows as [|r rows IH]; intros index m; simpl; [reflexivity|].
  rewrite IH, fold_left_app. f_equal.
  unfold AnimateChart.dataMapStep.
  destruct (Nat.leb_spec 1000 index) as [Hge|Hlt].
  - replace (index <? 1000)%nat with false by (symmetry; apply Nat.ltb_ge; lia).
    reflexivity.
  - replace (index <? 1000)%nat with true by (symmetry; apply Nat.ltb_lt; lia).
    simpl andb. fold (AnimateChart.labelAt host labelColumn r index).
    fold (chartValue host valueColumn r).
    destruct (String.eqb label (AnimateChart.labelAt host labelColumn r index)) eqn:E.
    + apply String.eqb_eq in E. subst label.
      destruct (lookup _ m) as [old|]; now rewrite lookup_mapSet_same.
    + assert (Hne : label <> AnimateChart.labelAt host labelColumn r index)
        by (intros ->; now rewrite String.eqb_refl in E).
      destruct (lookup (AnimateChart.labelAt host labelColumn r index) m);
        now rewrite lookup_mapSet_other.
Qed.

Lemma dataMapSteps_NoDup rows : NoDup (keys (forEachFrom dataMapStep rows 0 [])).
Proof.
  rewrite keys_dataMapSteps. cbn [keys map app]. apply unique_NoDup.
Qed.
End StudioChartFacts.

Lemma firstn_map {A B : Type} (f : A -> B) (n : nat) (l : list A) :
  firstn n (map f l) = map f (firstn n l).
Proof.
  revert l. induction n as [|n IH]; intros [|x l]; simpl; auto. now rewrite IH.
Qed.

(** X20: [processDataForChart] of the animation studio throws for no
    record and for a first record with fewer than two columns, and for
    nothing else.  Otherwise the labels of its chart are the labels of the
    first thousand records in order of first appearance, each once, cut
    after thirty; there is one dataset, named after the value column; and
    the value of a label is the value of its first record with those of its
    later records added in turn. *)
Theorem X20_studio_chart (host : Host) (selectedLabelColumn selectedValueColumn : string)
        (data : list (dict value)) :
  match AnimateChart.processDataForChart host selectedLabelColumn selectedValueColumn
          data with
  | Throw message =>
      (data = [] /\ message = "No data to process")
      \/ (exists firstRow rest,
            data = firstRow :: rest
            /\ (List.length (keys firstRow) < 2)%nat
            /\ message = "Data must have at least 2 columns")
  | Ok chart =>
      exists firstRow rest labelColumn valueColumn ds,
        data = firstRow :: rest
        /\ (2 <= List.length (keys firstRow))%nat
        /\ labelColumn
           = (if String.eqb selectedLabelColumn EmptyString
              then nth 0 (keys firstRow) EmptyString else selectedLabelColumn)
        /\ valueColumn
           = (if String.eqb selectedValueColumn EmptyString
              then AnimateChart.chooseValueColumn host (keys firstRow) labelColumn firstRow
              else selectedValueColumn)
        /\ AnimateChart.labels chart
           = firstn 30 (unique [] (studioLabels host labelColumn data 0))
        /\ AnimateChart.datasets chart = [ds]
        /\ AnimateChart.ds_label ds
           = (if String.eqb valueColumn EmptyString then "Values" else valueColumn)
        /\ Forall2
             (fun label out =>
                sumFromFirst (chartValues host labelColumn valueColumn label data 0)
                = Some out)
             (AnimateChart.labels chart) (AnimateChart.ds_data ds)
  end.
Proof.
  unfold AnimateChart.processDataForChart.
  destruct data as [|firstRow rest]; [now left|].
  destruct (Nat.ltb_spec (List.length (keys firstRow)) 2) as [Hlt|Hge].
  - right. exists firstRow, rest. auto.
  - set (labelColumn := if String.eqb selectedLabelColumn EmptyString then _ else _).
    set (valueColumn := if String.eqb selectedValueColumn EmptyString then _ else _).
    set (data := firstRow :: rest).
    set (m := forEachFrom (AnimateChart.dataMapStep host labelColumn valueColumn) data 0 []).
    exists firstRow, rest, labelColumn, valueColumn. eexists.
    cbn [AnimateChart.labels AnimateChart.datasets AnimateChart.ds_label
         AnimateChart.ds_data].
    split; [reflexivity|]. split; [exact Hge|]. split; [reflexivity|].
    split; [reflexivity|]. split; [|split; [reflexivity|split; [reflexivity|]]].
    + rewrite <- firstn_map. fold (keys m). unfold m.
      now rewrite keys_dataMapSteps.
    + apply Forall2_fst_snd. intros label out Hin. apply In_firstn in Hin.
      pose proof (NoDup_lookup _ _ _ (dataMapSteps_NoDup host labelColumn valueColumn data)
                    Hin) as Hl.
      unfold m in Hl. rewrite lookup_dataMapSteps in Hl.
      cbn [lookup] in Hl. now rewrite fold_addTo_sumFromFirst in Hl.
Qed.

(** ** Adding counts *)

Lemma shl_align_value (m : positive) (e ez : Z) :
  (ez <= e)%Z ->
  Zpos (fst (shl_align m e ez)) = (Zpos m * 2 ^ (e - ez))%Z.
Proof.
  intros H. unfold shl_align. destruct (ez - e)%Z as [|p|d] eqn:D.
  - replace (e - ez)%Z with 0%Z by lia. simpl fst. lia.
  - lia.
  - simpl fst. change (Pos.iter xO m d) with (shift_pos d m).
    rewrite shift_pos_correct, Z.pow_pos_fold.
    replace (e - ez)%Z with (Zpos d) by lia. ring.
Qed.

Lemma countForm_check :
  forallb (fun n => sameNumber (ofNat n) (countForm n)) (seq 1 1000) = true.
Proof. vm_compute. reflexivity. Qed.

Lemma scaled_check :
  forallb (fun n =>
             forallb (fun k =>
                        sameNumber
                          (binary_normalize prec emax (Z.of_nat n * 2 ^ k) (- k) false)
                          (ofNat n))
                     shifts)
          (seq 0 1001) = true.
Proof. vm_compute. reflexivity. Qed.

Lemma ofNat_countForm n : (1 <= n <= 1000)%nat -> ofNat n = countForm n.
Proof.
  intros H. pose proof countForm_check as C. rewrite forallb_forall in C.
  apply sameNumber_eq, C, in_seq. lia.
Qed.

Lemma bits_range n : (1 <= n <= 1000)%nat -> (1 <= bits n <= 10)%Z.
Proof.
  intros H. unfold bits.
  assert (0 <= Z.log2 (Z.of_nat n))%Z by apply Z.log2_nonneg.
  assert (Z.log2 (Z.of_nat n) <= Z.log2 1000)%Z by (apply Z.log2_le_mono; lia).
  change (Z.log2 1000) with 9%Z in *. lia.
Qed.

Lemma scaled_count n k :
  (n <= 1000)%nat -> (43 <= k <= 52)%Z ->
  binary_normalize prec emax (Z.of_nat n * 2 ^ k) (- k) false = ofNat n.
Proof.
  intros Hn Hk. pose proof scaled_check as C. rewrite forallb_forall in C.
  assert (Hin : In n (seq 0 1001)) by (apply in_seq; lia).
  specialize (C n Hin). rewrite forallb_forall in C.
  apply sameNumber_eq, C. unfold shifts. simpl.
  assert (k = 43 \/ k = 44 \/ k = 45 \/ k = 46 \/ k = 47 \/ k = 48 \/ k = 49
          \/ k = 50 \/ k = 51 \/ k = 52)%Z by lia.
  intuition.
Qed.

Lemma add_counts a b :
  (a + b <= 1000)%nat -> add (ofNat a) (ofNat b) = ofNat (a + b).
Proof.
  intros H.
  destruct a as [|a].
  { destruct b as [|b]; [reflexivity|]. cbn [Nat.add].
    rewrite (ofNat_countForm (S b)) by lia. reflexivity. }
  destruct b as [|b].
  { rewrite Nat.add_0_r, (ofNat_countForm (S a)) by lia. reflexivity. }
  rewrite (ofNat_countForm (S a)), (ofNat_countForm (S b)) by lia.
  pose proof (bits_range (S a) ltac:(lia)) as Ba.
  pose proof (bits_range (S b) ltac:(lia)) as Bb.
  assert (Pa : (0 < Z.of_nat (S a) * 2 ^ (53 - bits (S a)))%Z)
    by (apply Z.mul_pos_pos; [lia|apply Z.pow_pos_nonneg; lia]).
  assert (Pb : (0 < Z.of_nat (S b) * 2 ^ (53 - bits (S b)))%Z)
    by (apply Z.mul_pos_pos; [lia|apply Z.pow_pos_nonneg; lia]).
  unfold add, SFadd, countForm. cbv zeta. cbn [cond_Zopp].
  set (ez := Z.min (bits (S a) - 53) (bits (S b) - 53)).
  rewrite !shl_align_value by (unfold ez; lia).
  rewrite !Z2Pos.id by assumption.
  rewrite <- !Z.mul_assoc, <- !Z.pow_add_r by (unfold ez; lia).
  replace (53 - bits (S a) + (bits (S a) - 53 - ez))%Z with (- ez)%Z by lia.
  replace (53 - bits (S b) + (bits (S b) - 53 - ez))%Z with (- ez)%Z by lia.
  rewrite <- Z.mul_add_distr_r, <- Nat2Z.inj_add.
  rewrite <- (Z.opp_involutive ez) at 2.
  apply scaled_count; [exact H|unfold ez; lia].
Qed.

(** ** Counting in the animation studio *)

Lemma lookup_tally k ns : lookup k (tally ns) = option_map ofNat (lookup k ns).
Proof.
  induction ns as [|[k' n] ns IH]; simpl; [reflexivity|].
  destruct (String.eqb k' k); [reflexivity|exact IH].
Qed.

Lemma mapSet_tally k n ns : mapSet k (ofNat n) (tally ns) = tally (mapSet k n ns).
Proof.
  induction ns as [|[k' n'] ns IH]; simpl; [reflexivity|].
  destruct (String.eqb k' k); [reflexivity|]. simpl. now rewrite <- IH.
Qed.

Lemma list_sum_mapSet_new k n (ns : dict nat) :
  lookup k ns = None ->
  list_sum (map snd (mapSet k n ns)) = (list_sum (map snd ns) + n)%nat.
Proof.
  induction ns as [|[k' n'] ns IH]; simpl; intros H; [lia|].
  destruct (String.eqb k' k); [discriminate|]. simpl.
  rewrite IH by exact H. lia.
Qed.

Lemma list_sum_mapSet_old k old n (ns : dict nat) :
  lookup k ns = Some old ->
  (old <= list_sum (map snd ns))%nat
  /\ list_sum (map snd (mapSet k n ns)) = (list_sum (map snd ns) - old + n)%nat.
Proof.
  induction ns as [|[k' n'] ns IH]; simpl; intros H; [discriminate|].
  destruct (String.eqb k' k).
  - injection H as ->. simpl. lia.
  - simpl. destruct (IH H) as [H1 H2]. rewrite H2. lia.
Qed.

Lemma total_tally_from ns : forall a,
  (a + list_sum (map snd ns) <= 1000)%nat ->
  fold_left add (map snd (tally ns)) (ofNat a) = ofNat (a + list_sum (map snd ns)).
Proof.
  induction ns as [|[k n] ns IH]; intros a H; simpl in *.
  - f_equal. lia.
  - rewrite add_counts by lia. rewrite IH by lia. f_equal. lia.
Qed.

Lemma total_tally ns :
  (list_sum (map snd ns) <= 1000)%nat ->
  AnimateChart.total (values (tally ns)) = ofNat (list_sum (map snd ns)).
Proof.
  intros H. unfold AnimateChart.total, values. change zero with (ofNat 0).
  now rewrite total_tally_from.
Qed.

Section StudioCounts.
Variable host : Host.
Variables labelColumn dataColumn : string.

#[local] Abbreviation categoricalStep :=
  (AnimateChart.categoricalStep host labelColumn dataColumn).

Lemma categoricalStep_countIn m r i label c :
  countIn m label c ->
  (c < 1000)%nat ->
  countIn (categoricalStep m r i) label
    (c + if (i <? 1000)%nat && String.eqb label (AnimateChart.labelAt host labelColumn r i)
         then 1 else 0).
Proof.
  intros Hc Hlt. unfold AnimateChart.categoricalStep.
  destruct (Nat.leb_spec 1000 i) as [Hge|Hi].
  - replace (i <? 1000)%nat with false by (symmetry; apply Nat.ltb_ge; lia).
    cbn [andb]. now rewrite Nat.add_0_r.
  - replace (i <? 1000)%nat with true by (symmetry; apply Nat.ltb_lt; lia).
    cbn [andb].
    set (L := AnimateChart.labelAt host labelColumn r i).
    set (D := trim _).
    destruct (String.eqb label L) eqn:E.
    + apply String.eqb_eq in E. subst label. unfold countIn in *.
      rewrite lookup_mapSet_same.
      assert (Hns : exists ns,
                 match lookup L m with Some vm => vm | None => [] end = tally ns
                 /\ list_sum (map snd ns) = c).
      { destruct (lookup L m) as [vm|]; [exact Hc|]. exists []. now subst c. }
      destruct Hns as (ns & -> & Hsum). rewrite lookup_tally.
      destruct (lookup D ns) as [old|] eqn:Eo; cbn [option_map].
      * destruct (list_sum_mapSet_old D old (old + 1) ns Eo) as [Hle Hs].
        exists (mapSet D (old + 1)%nat ns). split.
        -- change (ofZ 1) with (ofNat 1). rewrite add_counts by lia.
           apply mapSet_tally.
        -- rewrite Hs. lia.
      * exists (mapSet D 1%nat ns). split.
        -- change (ofZ 1) with (ofNat 1). apply mapSet_tally.
        -- rewrite list_sum_mapSet_new by exact Eo. lia.
    + assert (Hne : label <> L) by (intros ->; now rewrite String.eqb_refl in E).
      unfold countIn. rewrite lookup_mapSet_other by exact Hne.
      now rewrite Nat.add_0_r.
Qed.

Lemma studioLabels_length rows : forall index,
  (List.length (studioLabels host labelColumn rows index) <= 1000 - index)%nat.
Proof.
  induction rows as [|r rows IH]; intros index; cbn [studioLabels List.length]; [lia|].
  rewrite length_app. specialize (IH (S index)).
  destruct (Nat.ltb_spec index 1000); cbn [List.length]; lia.
Qed.

Lemma count_occ_le_length (l : list string) (x : string) :
  (count_occ string_dec l x <= List.length l)%nat.
Proof.
  induction l as [|y l IH]; simpl; [lia|]. destruct (string_dec y x); lia.
Qed.

Lemma categoricalSteps_countIn label rows : forall index m c,
  countIn m label c ->
  (c + (1000 - index) <= 1000)%nat ->
  countIn (forEachFrom categoricalStep rows index m) label
    (c + count_occ string_dec (studioLabels host labelColumn rows index) label).
Proof.
  induction rows as [|r rows IH]; intros index m c Hc Hb;
    cbn [forEachFrom studioLabels].
  - cbn [count_occ]. now rewrite Nat.add_0_r.
  - destruct (Nat.ltb_spec index 1000) as [Hi|Hi].
    + pose proof (categoricalStep_countIn m r index label c Hc ltac:(lia)) as Hstep.
      replace (index <? 1000)%nat with true in Hstep
        by (symmetry; apply Nat.ltb_lt; lia).
      cbn [andb app count_occ] in *.
      destruct (string_dec (AnimateChart.labelAt host labelColumn r index) label)
        as [E|E].
      * replace (String.eqb label (AnimateChart.labelAt host labelColumn r index))
          with true in Hstep
          by (symmetry; apply String.eqb_eq; congruence).
        apply (IH (S index)) in Hstep; [|lia].
        replace (c + S (count_occ string_dec
                          (studioLabels host labelColumn rows (S index)) label))%nat
          with (c + 1 + count_occ string_dec
                          (studioLabels host labelColumn rows (S index)) label)%nat
          by lia.
        exact Hstep.
      * replace (String.eqb label (AnimateChart.labelAt host labelColumn r index))
          with false in Hstep
          by (symmetry; apply String.eqb_neq; congruence).
        rewrite Nat.add_0_r in Hstep.
        apply (IH (S index)) in Hstep; [exact Hstep|lia].
    + rewrite categoricalStep_skips by lia. cbn [app].
      apply IH; [exact Hc|lia].
Qed.
End StudioCounts.

(** X21: when the data column is not numeric, the animation studio counts:
    the value of every label of the chart is the number of records, among
    the first thousand, that have the label. *)
Theorem X21_studio_counts (host : Host) (data : list (dict value))
        (labelColumn dataColumn : string) :
  AnimateChart.isNumericColumn host data dataColumn = false ->
  exists ds,
    AnimateChart.datasets
      (AnimateChart.processSelectedColumns host data labelColumn dataColumn) = [ds]
    /\ AnimateChart.ds_label ds = "Count of " ++ dataColumn ++ " by " ++ labelColumn
    /\ Forall2
         (fun label out => out = ofNat (studioCount host labelColumn label data))
         (AnimateChart.labels
            (AnimateChart.processSelectedColumns host data labelColumn dataColumn))
         (AnimateChart.ds_data ds).
Proof.
  intros Hcat. unfold AnimateChart.processSelectedColumns. rewrite Hcat.
  cbn [AnimateChart.datasets AnimateChart.labels].
  eexists. split; [reflexivity|]. cbn [AnimateChart.ds_label AnimateChart.ds_data].
  split; [reflexivity|].
  set (m := forEachFrom (AnimateChart.categoricalStep host labelColumn dataColumn) data 0 []).
  assert (Hnd : NoDup (keys m)).
  { apply forEachFrom_invariant; [intros; now apply categoricalStep_NoDup|constructor]. }
  destruct (topEntries_labels (fun e => AnimateChart.total (values (snd e))) m Hnd)
    as (_ & _ & Htop).
  apply Forall2_fst_snd. intros label out Hin.
  destruct (Htop label out Hin) as ([label' vm] & He & -> & ->).
  cbn [fst snd].
  pose proof (NoDup_lookup _ _ _ Hnd He) as Hl.
  pose proof (categoricalSteps_countIn host labelColumn dataColumn label' data 0 [] 0
                eq_refl ltac:(lia)) as Hc.
  fold m in Hc. unfold countIn in Hc. rewrite Hl in Hc.
  destruct Hc as (ns & -> & Hsum). cbn [Nat.add] in Hsum.
  unfold studioCount. rewrite <- Hsum. apply total_tally.
  rewrite Hsum.
  etransitivity; [apply count_occ_le_length|].
  etransitivity; [apply studioLabels_length|]. lia.
Qed.

Lemma X21_studio_counts_witness :
  AnimateChart.isNumericColumn plainHost lateLabels "v" = false
  /\ AnimateChart.processSelectedColumns plainHost lateLabels "k" "v"
     = {| AnimateChart.labels := ["x"];
          AnimateChart.datasets :=
            [{| AnimateChart.ds_label := "Count of v by k";
                AnimateChart.ds_data := [ofZ 1000] |}] |}
  /\ exists ds,
       AnimateChart.datasets (AnimateChart.processSelectedColumns plainHost lateLabels "k" "v")
       = [ds]
       /\ AnimateChart.ds_label ds = "Count of " ++ "v" ++ " by " ++ "k"
       /\ Forall2
            (fun label out => out = ofNat (studioCount plainHost "k" label lateLabels))
            (AnimateChart.labels
               (AnimateChart.processSelectedColumns plainHost lateLabels "k" "v"))
            (AnimateChart.ds_data ds).
Proof.
  assert (Hcat : AnimateChart.isNumericColumn plainHost lateLabels "v" = false)
    by (vm_compute; reflexivity).
  split; [exact Hcat|]. split; [vm_compute; reflexivity|].
  exact (X21_studio_counts plainHost lateLabels "k" "v" Hcat).
Defined.

(** ** The colours of the animation studio *)

Lemma distinct_NoDup l : distinct l = true -> NoDup l.
Proof.
  induction l as [|x l IH]; simpl; intros H; [constructor|].
  apply andb_true_iff in H as [H1 H2]. constructor; [|now apply IH].
  intros Hin. apply existsb_eqb_In in Hin. rewrite Hin in H1. discriminate.
Qed.

Lemma colorAt_prefix alpha i :
  AnimateChart.colorAt alpha i
  = if SFeqb alpha (ofZ 1)
    then nth (i mod 15) AnimateChart.baseColors EmptyString
    else rgbaPrefix i ++ numberToString alpha ++ ")".
Proof.
  unfold AnimateChart.colorAt, rgbaPrefix. cbv zeta.
  change (List.length AnimateChart.baseColors) with 15%nat.
  destruct (SFeqb alpha (ofZ 1)); [reflexivity|].
  now rewrite !append_assoc.
Qed.

Lemma length_append (a b : string) :
  String.length (a ++ b) = (String.length a + String.length b)%nat.
Proof. induction a as [|c a IH]; simpl; [reflexivity|]. now rewrite IH. Qed.

Lemma append_cancel_r (a b t : string) : a ++ t = b ++ t -> a = b.
Proof.
  revert b. induction a as [|c a IH]; intros [|d b] H; simpl in *.
  - reflexivity.
  - exfalso. apply (f_equal String.length) in H. simpl in H.
    rewrite length_append in H. lia.
  - exfalso. apply (f_equal String.length) in H. simpl in H.
    rewrite length_append in H. lia.
  - injection H as -> H. f_equal. now apply IH.
Qed.

Lemma NoDup_map_append (t : string) (l : list string) :
  NoDup l -> NoDup (map (fun s => s ++ t) l).
Proof.
  induction 1 as [|x l Hx Hl IH]; simpl; constructor; [|exact IH].
  intros Hin. apply in_map_iff in Hin as (y & E & Hy).
  apply append_cancel_r in E. now subst.
Qed.

Lemma first_colors_distinct alpha : NoDup (AnimateChart.generateColors 15 alpha).
Proof.
  unfold AnimateChart.generateColors.
  rewrite (map_ext _ _ (colorAt_prefix alpha)).
  destruct (SFeqb alpha (ofZ 1)).
  - apply distinct_NoDup. vm_compute. reflexivity.
  - rewrite <- (map_map rgbaPrefix (fun s => s ++ numberToString alpha ++ ")")).
    apply NoDup_map_append. apply distinct_NoDup. vm_compute. reflexivity.
Qed.

Lemma generateColors_firstn count alpha n :
  (n <= count)%nat ->
  firstn n (AnimateChart.generateColors count alpha) = AnimateChart.generateColors n alpha.
Proof.
  intros H. unfold AnimateChart.generateColors.
  rewrite firstn_map. f_equal.
  replace count with (n + (count - n))%nat by lia.
  rewrite seq_app, firstn_app, length_seq, Nat.sub_diag, firstn_O, app_nil_r.
  apply firstn_all2. rewrite length_seq. lia.
Qed.

(** X22: [generateColors] returns one colour per label; the first fifteen
    are pairwise different, whatever the opacity; from the sixteenth on the
    colours repeat with period fifteen; and at opacity 1 every colour is one
    of the base colours. *)
Theorem X22_studio_colors (count : nat) (alpha : number) :
  let colors := AnimateChart.generateColors count alpha in
  List.length colors = count
  /\ NoDup (firstn 15 colors)
  /\ (forall i, (i + 15 < count)%nat -> nth_error colors (i + 15) = nth_error colors i)
  /\ (SFeqb alpha (ofZ 1) = true ->
      forall color, In color colors -> In color AnimateChart.baseColors).
Proof.
  intros colors. subst colors. split; [|split; [|split]].
  - unfold AnimateChart.generateColors. now rewrite length_map, length_seq.
  - destruct (Nat.le_gt_cases 15 count) as [H|H].
    + rewrite generateColors_firstn by exact H. apply first_colors_distinct.
    + rewrite firstn_all2
        by (unfold AnimateChart.generateColors; rewrite length_map, length_seq; lia).
      rewrite <- (generateColors_firstn 15 alpha count) by lia.
      apply NoDup_firstn, first_colors_distinct.
  - intros i Hi. unfold AnimateChart.generateColors.
    rewrite !nth_error_map, !nth_error_seq.
    replace (i + 15 <? count)%nat with true by (symmetry; apply Nat.ltb_lt; lia).
    replace (i <? count)%nat with true by (symmetry; apply Nat.ltb_lt; lia).
    cbn [option_map Nat.add]. f_equal. rewrite !colorAt_prefix. unfold rgbaPrefix.
    replace ((i + 15) mod 15)%nat with (i mod 15)%nat; [reflexivity|].
    replace (i + 15)%nat with (i + 1 * 15)%nat by lia.
    now rewrite Nat.Div0.mod_add.
  - intros Ha color Hin. unfold AnimateChart.generateColors in Hin.
    apply in_map_iff in Hin as (i & <- & _). rewrite colorAt_prefix, Ha.
    apply nth_In. change (List.length AnimateChart.baseColors) with 15%nat.
    apply Nat.mod_upper_bound. lia.
Qed.

(** ** The entities and relationships of a description *)

Lemma fold_left_invariant_In {A B : Type} (P : A -> Prop) (f : A -> B -> A) (l : list B) :
  (forall acc x, In x l -> P acc -> P (f acc x)) ->
  forall init, P init -> P (fold_left f l init).
Proof.
  induction l as [|x l IH]; intros Hstep init Hinit; simpl; [exact Hinit|].
  apply IH.
  - intros acc y Hy. apply Hstep. now right.
  - apply Hstep; [now left|exact Hinit].
Qed.

Lemma pushAttribute_ok name a em :
  entityMapOk em -> entityMapOk (ERDiagram.pushAttribute name a em).
Proof.
  intros [Hid Hnd]. unfold ERDiagram.pushAttribute.
  destruct (lookup name em) as [e|] eqn:E; [|now split].
  split.
  - intros k e' Hin. apply In_replaceProp in Hin as [[= -> ->]|Hin]; [|now apply Hid].
    cbn. apply Hid. now apply lookup_In.
  - now rewrite keys_replaceProp.
Qed.

Lemma entityLine_ok acc line :
  entityMapOk (fst acc) -> entityMapOk (fst (ERDiagram.entityLine acc line)).
Proof.
  destruct acc as [em current]. cbn [fst]. intros Hok.
  unfold ERDiagram.entityLine.
  destruct (exec ERDiagram.tablePattern (trim line)) as [tableMatch|]; [|exact Hok].
  set (name := toLowerCase _).
  set (entity := {| ERDiagram.ent_id := name; ERDiagram.ent_name := _;
                    ERDiagram.attributes := []; ERDiagram.ent_x := _;
                    ERDiagram.ent_y := _ |}).
  assert (Hset : entityMapOk (setProp name entity em)).
  { destruct Hok as [Hid Hnd]. split.
    - intros k e Hin. apply In_setProp in Hin as [[= -> ->]|Hin]; [reflexivity|].
      now apply Hid.
    - now apply NoDup_keys_setProp. }
  destruct (capture 2 (groups tableMatch)) as [attributeString|]; [|exact Hset].
  destruct (String.eqb attributeString EmptyString); [exact Hset|].
  cbn [fst]. apply fold_left_invariant_In; [|exact Hset].
  intros acc attr _ Hacc. destruct (String.eqb attr EmptyString); [exact Hacc|].
  now apply pushAttribute_ok.
Qed.

Lemma parseEntities_ok lines : entityMapOk (ERDiagram.parseEntities lines).
Proof.
  unfold ERDiagram.parseEntities.
  apply (fold_left_invariant_In (fun acc => entityMapOk (fst acc))).
  - intros acc line _. apply entityLine_ok.
  - split; [intros k e []|constructor].
Qed.

Lemma ids_are_keys (em : dict ERDiagram.EREntity) :
  idKeyed em -> map ERDiagram.ent_id (values em) = keys em.
Proof.
  intros Hid. unfold values, keys. rewrite map_map.
  apply map_ext_in. intros [k e] Hin. cbn. now apply Hid.
Qed.

(** X23: the entities parsed from a description have pairwise different
    ids: a table named again replaces the entity of that name. *)
Theorem X23_entity_ids_distinct (text : string) :
  NoDup (map ERDiagram.ent_id (ERDiagram.entities (ERDiagram.parseTextToER text))).
Proof.
  unfold ERDiagram.parseTextToER. cbn [ERDiagram.entities].
  destruct (parseEntities_ok
              (filter (fun line => negb (String.eqb (trim line) EmptyString))
                      (split "010" (toLowerCase text)))) as [Hid Hnd].
  now rewrite ids_are_keys.
Qed.

Section Connects.
Variable em : dict ERDiagram.EREntity.

Lemma Forall_push {A : Type} (P : A -> Prop) (l : list A) (x : A) :
  Forall P l -> P x -> Forall P (l ++ [x])%list.
Proof. intros Hl Hx. apply Forall_app. split; [exact Hl|]. now constructor. Qed.

Lemma explicit_connects m l :
  Forall (connects em) l -> Forall (connects em) (ERDiagram.explicitRelationship em m l).
Proof.
  intros Hl. unfold ERDiagram.explicitRelationship.
  destruct (has _ em && has _ em) eqn:H; [|exact Hl].
  apply andb_true_iff in H as [H1 H2].
  destruct (find _ l); [exact Hl|].
  apply Forall_push; [exact Hl|]. split; cbn; now apply has_In_keys.
Qed.

Lemma keywordPair_connects line index e1 e2 l :
  In e1 (keys em) -> In e2 (keys em) ->
  Forall (connects em) l ->
  Forall (connects em) (ERDiagram.keywordPair line index e1 e2 l).
Proof.
  intros H1 H2 Hl. unfold ERDiagram.keywordPair.
  destruct (negb (String.eqb e1 e2) && includes e1 line && includes e2 line);
    [|exact Hl].
  destruct (ERDiagram.keywordTypeLabel line) as [type label].
  destruct (find _ l); [exact Hl|].
  apply Forall_push; [exact Hl|]. now split.
Qed.

Lemma relationshipLine_connects l line index :
  Forall (connects em) l ->
  Forall (connects em) (ERDiagram.relationshipLine em l line index).
Proof.
  intros Hl. unfold ERDiagram.relationshipLine.
  destruct (exec ERDiagram.explicitPattern (trim line)) as [m|];
    [now apply explicit_connects|].
  destruct (existsb _ ERDiagram.relationshipKeywords); [|exact Hl].
  apply fold_left_invariant_In; [|exact Hl].
  intros acc e1 H1 Hacc.
  apply fold_left_invariant_In; [|exact Hacc].
  intros acc' e2 H2 Hacc'. now apply keywordPair_connects.
Qed.

Lemma inferRelationships_connects :
  idKeyed em -> Forall (connects em) (ERDiagram.inferRelationships em).
Proof.
  intros Hid. unfold ERDiagram.inferRelationships.
  apply fold_left_invariant_In; [|constructor].
  intros acc entity Hentity Hacc.
  apply fold_left_invariant_In; [|exact Hacc].
  intros acc' attr _ Hacc'. unfold ERDiagram.inferFromAttribute.
  destruct (endsWith "_id" (ERDiagram.attr_name attr)
            && negb (String.eqb (ERDiagram.attr_name attr) "id")); [|exact Hacc'].
  destruct (has _ em) eqn:H; [|exact Hacc'].
  apply Forall_push; [exact Hacc'|]. split; cbn.
  - now apply has_In_keys.
  - unfold values in Hentity. apply in_map_iff in Hentity as ([k e] & <- & Hin).
    cbn. rewrite (Hid k e Hin). now apply (in_map fst) in Hin.
Qed.
End Connects.

Lemma relationships_connect (text : string) :
  let lines := erLines text in
  Forall (connects (ERDiagram.parseEntities lines))
         (ERDiagram.relationships (ERDiagram.parseTextToER text)).
Proof.
  intros lines. unfold ERDiagram.parseTextToER. cbn [ERDiagram.relationships].
  fold (erLines text). fold lines.
  set (em := ERDiagram.parseEntities lines).
  assert (Hsent : Forall (connects em)
                    (forEachFrom (ERDiagram.relationshipLine em) lines 0 [])).
  { apply forEachFrom_invariant; [|constructor].
    intros l line index. apply relationshipLine_connects. }
  destruct (forEachFrom (ERDiagram.relationshipLine em) lines 0 []); [|exact Hsent].
  apply inferRelationships_connects. apply parseEntities_ok.
Qed.


Lemma ForallOrdPairs_push {A : Type} (R : A -> A -> Prop) (l : list A) (x : A) :
  ForallOrdPairs R l -> Forall (fun a => R a x) l -> ForallOrdPairs R (l ++ [x])%list.
Proof.
  induction 1 as [|a l Ha Hl IH]; intros Hx; simpl.
  - constructor; constructor.
  - inversion Hx as [|? ? Hax Hlx]; subst. constructor.
    + apply Forall_app. split; [exact Ha|]. now constructor.
    + now apply IH.
Qed.

Lemma find_none_Forall {A : Type} (f : A -> bool) (l : list A) :
  find f l = None -> Forall (fun a => f a = false) l.
Proof.
  intros H. apply Forall_forall. intros a Ha. exact (find_none f l H a Ha).
Qed.

Lemma explicit_distinct em m l :
  linksDistinct l -> linksDistinct (ERDiagram.explicitRelationship em m l).
Proof.
  intros Hl. unfold ERDiagram.explicitRelationship.
  destruct (has _ em && has _ em); [|exact Hl].
  destruct (find _ l) eqn:F; [exact Hl|].
  apply ForallOrdPairs_push; [exact Hl|].
  apply find_none_Forall in F. eapply Forall_impl; [|exact F].
  intros r Hr [Ht [[Hf Hto]|[Hf Hto]]]; cbn in Ht, Hf, Hto; cbn beta in Hr.
  - rewrite Hf, Hto, !String.eqb_refl in Hr. discriminate.
  - rewrite Hf, Hto, Ht, !String.eqb_refl in Hr. cbn in Hr.
    now rewrite orb_true_r in Hr.
Qed.

Lemma keywordPair_distinct line index e1 e2 l :
  linksDistinct l -> linksDistinct (ERDiagram.keywordPair line index e1 e2 l).
Proof.
  intros Hl. unfold ERDiagram.keywordPair.
  destruct (negb (String.eqb e1 e2) && includes e1 line && includes e2 line);
    [|exact Hl].
  destruct (ERDiagram.keywordTypeLabel line) as [type label].
  destruct (find _ l) eqn:F; [exact Hl|].
  apply ForallOrdPairs_push; [exact Hl|].
  apply find_none_Forall in F. eapply Forall_impl; [|exact F].
  intros r Hr [Ht [[Hf Hto]|[Hf Hto]]]; cbn in Ht, Hf, Hto; cbn beta in Hr;
    rewrite Hf, Hto, Ht, !String.eqb_refl in Hr; cbn in Hr;
    rewrite ?orb_true_r in Hr; discriminate.
Qed.

Lemma relationshipLine_distinct em l line index :
  linksDistinct l -> linksDistinct (ERDiagram.relationshipLine em l line index).
Proof.
  intros Hl. unfold ERDiagram.relationshipLine.
  destruct (exec ERDiagram.explicitPattern (trim line)) as [m|];
    [now apply explicit_distinct|].
  destruct (existsb _ ERDiagram.relationshipKeywords); [|exact Hl].
  apply fold_left_invariant_In; [|exact Hl].
  intros acc e1 _ Hacc.
  apply fold_left_invariant_In; [|exact Hacc].
  intros acc' e2 _ Hacc'. now apply keywordPair_distinct.
Qed.


(** X25: the relationships the sentences of a description give never hold
    the same link twice (the same type between the same two entities, in
    either direction); when there is at least one they are the parsed
    relationships, and only when there is none are relationships inferred
    from foreign-key attributes, each of type one-to-many and labelled
    [has]. *)
Theorem X25_sentence_relationships_distinct (text : string) :
  linksDistinct (sentenceRelationships text)
  /\ (sentenceRelationships text <> [] ->
      ERDiagram.relationships (ERDiagram.parseTextToER text)
      = sentenceRelationships text)
  /\ (sentenceRelationships text = [] ->
      forall rel,
        In rel (ERDiagram.relationships (ERDiagram.parseTextToER text)) ->
        ERDiagram.rel_type rel = "one-to-many" /\ ERDiagram.rel_label rel = "has").
Proof.
  split; [|split].
  - unfold sentenceRelationships.
    apply forEachFrom_invariant; [|constructor].
    intros l line index. apply relationshipLine_distinct.
  - intros Hne. unfold ERDiagram.parseTextToER. cbn [ERDiagram.relationships].
    fold (erLines text). fold (sentenceRelationships text).
    now destruct (sentenceRelationships text).
  - intros Hnone rel. unfold ERDiagram.parseTextToER. cbn [ERDiagram.relationships].
    fold (erLines text). fold (sentenceRelationships text). rewrite Hnone.
    set (em := ERDiagram.parseEntities (erLines text)).
    assert (Hall : Forall (fun rel => ERDiagram.rel_type rel = "one-to-many"
                                      /\ ERDiagram.rel_label rel = "has")
                          (ERDiagram.inferRelationships em)).
    { unfold ERDiagram.inferRelationships.
      apply fold_left_invariant_In; [|constructor].
      intros acc entity _ Hacc.
      apply fold_left_invariant_In; [|exact Hacc].
      intros acc' attr _ Hacc'. unfold ERDiagram.inferFromAttribute.
      destruct (endsWith "_id" (ERDiagram.attr_name attr)
                && negb (String.eqb (ERDiagram.attr_name attr) "id")); [|exact Hacc'].
      destruct (has _ em); [|exact Hacc'].
      apply Forall_push; [exact Hacc'|]. now split. }
    rewrite Forall_forall in Hall. apply Hall.
Qed.

Lemma X25_sentence_relationships_distinct_witness :
  sentenceRelationships universityText <> []
  /\ ERDiagram.relationships (ERDiagram.parseTextToER universityText)
     = sentenceRelationships universityText.
Proof.
  assert (Hne : sentenceRelationships universityText <> [])
    by (vm_compute; discriminate).
  split; [exact Hne|].
  exact (proj1 (proj2 (X25_sentence_relationships_distinct universityText)) Hne).
Defined.

(** ** Laying out a parsed diagram *)

Lemma placeEntities_keys cols (es : list ERDiagram.EREntity) : forall index m k,
  In k (keys (forEachFrom (ERDiagram.placeEntity cols) es index m))
  <-> In k (keys m) \/ In k (map ERDiagram.ent_id es).
Proof.
  induction es as [|e es IH]; intros index m k; simpl; [tauto|].
  rewrite IH. unfold ERDiagram.placeEntity. rewrite In_keys_setProp.
  intuition (subst; auto).
Qed.

Lemma placeRelationship_grows ep acc r k :
  In k (keys acc) -> In k (keys (ERDiagram.placeRelationship ep acc r)).
Proof.
  intros H. unfold ERDiagram.placeRelationship.
  destruct (lookup _ ep); [|exact H]. destruct (lookup _ ep); [|exact H].
  apply In_keys_setProp. now right.
Qed.

Lemma placeRelationships_grow ep rels : forall acc k,
  In k (keys acc) -> In k (keys (fold_left (ERDiagram.placeRelationship ep) rels acc)).
Proof.
  induction rels as [|r rels IH]; intros acc k H; simpl; [exact H|].
  apply IH. now apply placeRelationship_grows.
Qed.

Lemma placeRelationships_place ep rels : forall acc r,
  In r rels ->
  In (ERDiagram.fromEntity r) (keys ep) ->
  In (ERDiagram.toEntity r) (keys ep) ->
  In (ERDiagram.rel_id r) (keys (fold_left (ERDiagram.placeRelationship ep) rels acc)).
Proof.
  induction rels as [|r' rels IH]; intros acc r Hin Hf Ht; [destruct Hin|].
  simpl. destruct Hin as [->|Hin]; [|now apply IH].
  apply placeRelationships_grow. unfold ERDiagram.placeRelationship.
  apply has_In_keys in Hf, Ht. unfold has in Hf, Ht.
  destruct (lookup (ERDiagram.fromEntity r) ep); [|discriminate].
  destruct (lookup (ERDiagram.toEntity r) ep); [|discriminate].
  apply In_keys_setProp. now left.
Qed.



(** ** The entities of a description *)

Lemma has_lookup {A : Type} k (o : dict A) v : lookup k o = Some v -> has k o = true.
Proof. unfold has. now intros ->. Qed.

Lemma pushAttributes_lookup name attrs : forall em e,
  lookup name em = Some e ->
  lookup name
    (fold_left (fun em attr =>
                  if String.eqb attr EmptyString then em
                  else ERDiagram.pushAttribute name (ERDiagram.makeAttribute attr) em)
               attrs em)
  = Some (withAttributes e (map ERDiagram.makeAttribute (nonEmpty attrs))).
Proof.
  induction attrs as [|attr attrs IH]; intros em e He; cbn [fold_left].
  - rewrite He. f_equal. destruct e; unfold withAttributes; cbn. now rewrite app_nil_r.
  - rewrite nonEmpty_cons. destruct (String.eqb attr EmptyString); [now apply IH|].
    unfold ERDiagram.pushAttribute at 2. rewrite He.
    erewrite IH; [|apply lookup_replaceProp_same; now apply (has_lookup _ _ e)].
    f_equal. unfold withAttributes. cbn. now rewrite <- app_assoc.
Qed.

Lemma pushAttributes_other name attrs k : forall em,
  k <> name ->
  lookup k
    (fold_left (fun em attr =>
                  if String.eqb attr EmptyString then em
                  else ERDiagram.pushAttribute name (ERDiagram.makeAttribute attr) em)
               attrs em)
  = lookup k em.
Proof.
  induction attrs as [|attr attrs IH]; intros em Hk; simpl; [reflexivity|].
  rewrite IH by exact Hk. destruct (String.eqb attr EmptyString); [reflexivity|].
  unfold ERDiagram.pushAttribute. destruct (lookup name em); [|reflexivity].
  now apply lookup_replaceProp_other.
Qed.

Lemma entityLine_lookup acc line k e :
  lookup k (fst (ERDiagram.entityLine acc line)) = Some e ->
  (exists tableMatch,
      exec ERDiagram.tablePattern (trim line) = Some tableMatch
      /\ e = tableEntity tableMatch)
  \/ lookup k (fst acc) = Some e.
Proof.
  destruct acc as [em current]. cbn [fst]. unfold ERDiagram.entityLine.
  destruct (exec ERDiagram.tablePattern (trim line)) as [tableMatch|] eqn:M;
    [|now right].
  fold (ERDiagram.group 1 tableMatch).
  set (name := toLowerCase (ERDiagram.group 1 tableMatch)).
  set (fresh := {| ERDiagram.ent_id := name; ERDiagram.ent_name := _;
                   ERDiagram.attributes := []; ERDiagram.ent_x := _;
                   ERDiagram.ent_y := _ |}).
  assert (Hfresh : lookup name (setProp name fresh em) = Some fresh)
    by apply lookup_setProp_same.
  destruct (String.eqb k name) eqn:K.
  - apply String.eqb_eq in K. subst k. intros He. left. exists tableMatch.
    split; [reflexivity|]. unfold tableEntity.
    destruct (capture 2 (groups tableMatch)) as [attributeString|].
    + destruct (String.eqb attributeString EmptyString) eqn:S.
      * apply String.eqb_eq in S. subst attributeString. cbn [fst] in He.
        rewrite Hfresh in He. injection He as <-. reflexivity.
      * cbn [fst] in He. rewrite (pushAttributes_lookup name _ _ fresh Hfresh) in He.
        injection He as <-. reflexivity.
    + cbn [fst] in He. rewrite Hfresh in He. injection He as <-. reflexivity.
  - apply String.eqb_neq in K. intros He. right.
    destruct (capture 2 (groups tableMatch)) as [attributeString|].
    + destruct (String.eqb attributeString EmptyString); cbn [fst] in He.
      * now rewrite lookup_setProp_other in He.
      * rewrite pushAttributes_other in He by exact K.
        now rewrite lookup_setProp_other in He.
    + cbn [fst] in He. now rewrite lookup_setProp_other in He.
Qed.

Lemma parseEntities_described lines : forall acc k e,
  lookup k (fst (fold_left ERDiagram.entityLine lines acc)) = Some e ->
  described lines e \/ lookup k (fst acc) = Some e.
Proof.
  induction lines as [|line lines IH]; intros acc k e He; simpl in He; [now right|].
  destruct (IH _ k e He) as [(l & m & Hl & Hm & E)|Hacc].
  - left. exists l, m. split; [now right|]. now split.
  - destruct (entityLine_lookup acc line k e Hacc) as [(m & Hm & E)|Hold];
      [|now right].
    left. exists line, m. split; [now left|]. now split.
Qed.

(** X30: every entity parsed from a description is the one a table line of
    the description describes: its id is the table name in lower case, its
    name the table name in upper case with underscores as spaces, and its
    attributes are the items between the parentheses, split at commas and
    trimmed, the empty ones dropped, in order, each typed and flagged from
    its text. *)
Theorem X30_entities_are_described (text : string) (e : ERDiagram.EREntity) :
  In e (ERDiagram.entities (ERDiagram.parseTextToER text)) ->
  described (erLines text) e.
Proof.
  unfold ERDiagram.parseTextToER. cbn [ERDiagram.entities]. fold (erLines text).
  intros He. unfold values in He. apply in_map_iff in He as ([k e'] & <- & Hin).
  destruct (parseEntities_ok (erLines text)) as [_ Hnd].
  apply (NoDup_lookup _ _ _ Hnd) in Hin.
  unfold ERDiagram.parseEntities in Hin.
  destruct (parseEntities_described _ _ _ _ Hin) as [H|H]; [exact H|discriminate].
Qed.

Lemma X30_entities_are_described_witness :
  let e :=
    {| ERDiagram.ent_id := "students"; ERDiagram.ent_name := "STUDENTS";
       ERDiagram.attributes :=
         [ERDiagram.makeAttribute "student_id"; ERDiagram.makeAttribute "name"];
       ERDiagram.ent_x := zero; ERDiagram.ent_y := zero |} in
  In e (ERDiagram.entities (ERDiagram.parseTextToER universityText))
  /\ described (erLines universityText) e.
Proof.
  cbv zeta.
  assert (He : In {| ERDiagram.ent_id := "students"; ERDiagram.ent_name := "STUDENTS";
                     ERDiagram.attributes :=
                       [ERDiagram.makeAttribute "student_id";
                        ERDiagram.makeAttribute "name"];
                     ERDiagram.ent_x := zero; ERDiagram.ent_y := zero |}
                  (ERDiagram.entities (ERDiagram.parseTextToER universityText)))
    by (vm_compute; left; reflexivity).
  split; [exact He|].
  exact (X30_entities_are_described universityText _ He).
Defined.

(** ** Comparing Numbers *)

Lemma SFcompare_antisym x y :
  SFcompare y x = option_map CompOpp (SFcompare x y).
Proof.
  destruct x as [sx|sx| |sx mx ex], y as [sy|sy| |sy my ey]; simpl;
    try reflexivity; try (destruct sx; reflexivity); try (destruct sy; reflexivity);
    try (destruct sx, sy; reflexivity).
  f_equal. rewrite (Z.compare_antisym ex ey).
  destruct sx, sy; try reflexivity;
    destruct (ex ?= ey)%Z; simpl; try reflexivity.
  - f_equal. exact (ZC4 my mx).
  - exact (ZC4 my mx).
Qed.

Lemma SFltb_SFleb x y : SFltb x y = true -> SFleb x y = true.
Proof. unfold SFltb, SFleb. now destruct (SFcompare x y) as [[]|]. Qed.

Lemma not_SFltb_SFleb x y :
  isNaN x = false -> isNaN y = false -> SFltb y x = false -> SFleb x y = true.
Proof.
  unfold SFltb, SFleb. rewrite (SFcompare_antisym x y).
  destruct x, y; try discriminate; intros _ _;
    destruct (SFcompare _ _) as [[]|] eqn:E; simpl; try discriminate; try reflexivity;
    simpl in E; discriminate.
Qed.

Lemma min2_cases x y :
  isNaN x = false -> isNaN y = false ->
  isNaN (min2 x y) = false /\ SFleb (min2 x y) x = true /\ SFleb (min2 x y) y = true.
Proof.
  intros Hx Hy.
  destruct x as [sx|sx| |sx mx ex] eqn:Ex, y as [sy|sy| |sy my ey] eqn:Ey;
    try discriminate;
    try (destruct sx, sy; simpl; auto; fail).
  all: unfold min2; rewrite <- Ex, <- Ey.
  all: assert (Nx : isNaN x = false) by (subst; reflexivity).
  all: assert (Ny : isNaN y = false) by (subst; reflexivity).
  all: destruct (SFltb y x) eqn:L;
    [ split; [exact Ny|]; split; [now apply SFltb_SFleb|];
      unfold SFleb; rewrite Ey; simpl; rewrite ?Z.compare_refl, ?Pos.compare_cont_refl
    | split; [exact Nx|]; split; [|now apply not_SFltb_SFleb];
      unfold SFleb; rewrite Ex; simpl; rewrite ?Z.compare_refl, ?Pos.compare_cont_refl ].
  all: try (destruct sx; reflexivity); try (destruct sy; reflexivity).
Qed.

Lemma max2_cases x y :
  isNaN x = false -> isNaN y = false ->
  isNaN (max2 x y) = false /\ SFleb x (max2 x y) = true /\ SFleb y (max2 x y) = true.
Proof.
  intros Hx Hy.
  destruct x as [sx|sx| |sx mx ex] eqn:Ex, y as [sy|sy| |sy my ey] eqn:Ey;
    try discriminate;
    try (destruct sx, sy; simpl; auto; fail).
  all: unfold max2; rewrite <- Ex, <- Ey.
  all: assert (Nx : isNaN x = false) by (subst; reflexivity).
  all: assert (Ny : isNaN y = false) by (subst; reflexivity).
  all: destruct (SFltb x y) eqn:L;
    [ split; [exact Ny|]; split; [now apply SFltb_SFleb|];
      unfold SFleb; rewrite Ey; simpl; rewrite ?Z.compare_refl, ?Pos.compare_cont_refl
    | split; [exact Nx|]; split; [|now apply not_SFltb_SFleb];
      unfold SFleb; rewrite Ex; simpl; rewrite ?Z.compare_refl, ?Pos.compare_cont_refl ].
  all: try (destruct sx; reflexivity); try (destruct sy; reflexivity).
Qed.

Lemma max2_either x y : max2 x y = x \/ max2 x y = y \/ isNaN (max2 x y) = true.
Proof.
  destruct x as [sx|sx| |sx mx ex], y as [sy|sy| |sy my ey]; simpl; auto;
    try (destruct sx, sy; simpl; auto; fail);
    match goal with |- context [if ?c then _ else _] => destruct c end; auto.
Qed.

Lemma min2_nan x y : isNaN (min2 x y) = isNaN x || isNaN y.
Proof.
  destruct x as [sx|sx| |sx mx ex], y as [sy|sy| |sy my ey]; simpl; auto;
    match goal with |- context [if ?c then _ else _] => destruct c end; auto.
Qed.

Lemma mul_not_nan z s m e :
  isNaN z = false -> isNaN (mul z (S754_finite s m e)) = false.
Proof.
  destruct z as [sz|sz| |sz mz ez]; try discriminate; intros _; try reflexivity.
  unfold mul, SFmul.
  destruct (binary_round_aux _ _ _ _ _ _) eqn:E; try reflexivity.
  exfalso. revert E. apply binary_round_aux_not_nan. lia.
Qed.

(** ** Fit view and zoom *)

(** X27: [resetViewToFit] leaves the view alone exactly when there is no
    position at all; otherwise the zoom it sets is NaN or at most 1: fitting
    never magnifies. *)
Theorem X27_fit_zoom_at_most_one (containerWidth containerHeight : number)
        (entityPositions relationshipPositions : dict ERDiagram.Position) :
  match ERDiagram.resetViewToFit containerWidth containerHeight
          entityPositions relationshipPositions with
  | Some view =>
      (entityPositions <> [] \/ relationshipPositions <> [])
      /\ (isNaN (ERDiagram.zoom view) = true
          \/ SFleb (ERDiagram.zoom view) (ofZ 1) = true)
  | None => entityPositions = [] /\ relationshipPositions = []
  end.
Proof.
  assert (Hzoom : forall a, isNaN (min2 a (ofZ 1)) = true
                            \/ SFleb (min2 a (ofZ 1)) (ofZ 1) = true).
  { intros a. destruct (isNaN a) eqn:N.
    - left. now rewrite min2_nan, N.
    - right. now apply min2_cases. }
  unfold ERDiagram.resetViewToFit.
  destruct entityPositions as [|e ep], relationshipPositions as [|r rp];
    cbn [ERDiagram.zoom]; auto;
    (split; [|apply Hzoom]); solve [left; discriminate | right; discriminate].
Qed.

(** X28: from a zoom that is a number, a wheel event always leaves the zoom
    between 0.1 and 3, whatever the event; the zoom-in button never exceeds
    3 and the zoom-out button never goes below 0.1. *)
Theorem X28_zoom_stays_in_range (deltaY clientX clientY : number)
        (rect : option ERDiagram.Rect) (view : ERDiagram.View) :
  isNaN (ERDiagram.zoom view) = false ->
  let view' := ERDiagram.handleWheel deltaY clientX clientY rect view in
  SFleb ERDiagram.minZoom (ERDiagram.zoom view') = true
  /\ SFleb (ERDiagram.zoom view') ERDiagram.maxZoom = true
  /\ SFleb (ERDiagram.zoomIn (ERDiagram.zoom view)) ERDiagram.maxZoom = true
  /\ SFleb ERDiagram.minZoom (ERDiagram.zoomOut (ERDiagram.zoom view)) = true.
Proof.
  intros Hz view'. subst view'. unfold ERDiagram.handleWheel. cbn [ERDiagram.zoom].
  set (z := ERDiagram.zoom view) in *.
  assert (Hmin : isNaN ERDiagram.minZoom = false) by reflexivity.
  assert (Hmax : isNaN ERDiagram.maxZoom = false) by reflexivity.
  assert (Hw : forall d, (exists s m e, d = S754_finite s m e) ->
                 isNaN (mul z d) = false).
  { intros d (s & m & e & ->). now apply mul_not_nan. }
  assert (Hdelta : isNaN (mul z (if ltb zero deltaY then ofDecimal false 9 (-1)
                                 else ofDecimal false 11 (-1))) = false).
  { apply Hw. destruct (ltb zero deltaY); vm_compute; eauto. }
  set (w := mul z _) in *.
  destruct (min2_cases ERDiagram.maxZoom w Hmax Hdelta) as (Nm & Hm1 & _).
  destruct (max2_cases ERDiagram.minZoom (min2 ERDiagram.maxZoom w) Hmin Nm)
    as (Nr & Hr1 & _).
  split; [exact Hr1|]. split; [|split].
  - destruct (max2_either ERDiagram.minZoom (min2 ERDiagram.maxZoom w))
      as [E|[E|E]]; rewrite ?E; [reflexivity|exact Hm1|congruence].
  - unfold ERDiagram.zoomIn.
    apply min2_cases; [exact Hmax|]. apply Hw. vm_compute. eauto.
  - unfold ERDiagram.zoomOut.
    apply max2_cases; [exact Hmin|]. apply Hw. vm_compute. eauto.
Qed.

Lemma X28_zoom_stays_in_range_witness :
  isNaN (ERDiagram.zoom startView) = false
  /\ SFleb ERDiagram.minZoom
       (ERDiagram.zoom (ERDiagram.handleWheel (ofZ 100) zero zero None startView)) = true
  /\ SFleb (ERDiagram.zoom (ERDiagram.handleWheel (ofZ 100) zero zero None startView))
       ERDiagram.maxZoom = true.
Proof.
  assert (H : isNaN (ERDiagram.zoom startView) = false) by reflexivity.
  split; [exact H|].
  destruct (X28_zoom_stays_in_range (ofZ 100) zero zero None startView H)
    as (H1 & H2 & _).
  split; [exact H1|exact H2].
Defined.

(** ** The class-name helpers *)

Lemma spaceFree_append a b : spaceFree (a ++ b) = spaceFree a && spaceFree b.
Proof.
  induction a as [|c a IH]; simpl; [reflexivity|]. now rewrite IH, andb_assoc.
Qed.

Lemma splitRuns_solid s : forall current inRun,
  spaceFree current = true ->
  Forall solid (nonEmpty (Utils.splitRuns s current inRun)).
Proof.
  assert (Hone : forall current l,
             spaceFree current = true -> Forall solid (nonEmpty l) ->
             Forall solid (nonEmpty (current :: l))).
  { intros current l Hc Hl. rewrite nonEmpty_cons.
    destruct (String.eqb current EmptyString) eqn:E; [exact Hl|].
    constructor; [|exact Hl]. split; [|exact Hc]. now apply String.eqb_neq. }
  induction s as [|c r IH]; intros current inRun Hc; cbn [Utils.splitRuns].
  - apply Hone; [exact Hc|constructor].
  - destruct (isWhiteSpace c) eqn:W.
    + destruct inRun; [now apply IH|]. apply Hone; [exact Hc|now apply IH].
    + apply IH. rewrite spaceFree_append, Hc. simpl. now rewrite W.
Qed.

Lemma splitRuns_word w : forall rest current,
  spaceFree w = true ->
  Utils.splitRuns (w ++ rest) current false = Utils.splitRuns rest (current ++ w) false.
Proof.
  induction w as [|c w IH]; intros rest current H; simpl in *.
  - now rewrite append_empty_r.
  - apply andb_true_iff in H as [Hc Hw]. apply negb_true_iff in Hc. rewrite Hc.
    rewrite IH by exact Hw. now rewrite append_assoc.
Qed.

Lemma splitRuns_first_word w rest inRun :
  solid w ->
  Utils.splitRuns (w ++ rest) EmptyString inRun = Utils.splitRuns rest w false.
Proof.
  intros [Hne Hw]. destruct w as [|c w]; [congruence|]. simpl in *.
  apply andb_true_iff in Hw as [Hc Hw]. apply negb_true_iff in Hc. rewrite Hc.
  now rewrite splitRuns_word.
Qed.

Lemma splitRuns_join ws : forall inRun,
  Forall solid ws ->
  nonEmpty (Utils.splitRuns (join " " ws) EmptyString inRun) = ws.
Proof.
  induction ws as [|w ws IH]; intros inRun H; [reflexivity|].
  inversion H as [|? ? Hw Hws]; subst.
  assert (Hne : String.eqb w EmptyString = false) by (apply String.eqb_neq, Hw).
  destruct ws as [|w2 ws].
  - cbn [join]. rewrite <- (append_empty_r w) at 1.
    rewrite splitRuns_first_word by exact Hw. cbn [Utils.splitRuns].
    now rewrite nonEmpty_cons, Hne.
  - change (join " " (w :: w2 :: ws)) with (w ++ " " ++ join " " (w2 :: ws)).
    rewrite splitRuns_first_word by exact Hw.
    change (" " ++ join " " (w2 :: ws)) with (String " " (join " " (w2 :: ws))).
    cbn [Utils.splitRuns].
    change (isWhiteSpace " ") with true. cbn iota.
    rewrite nonEmpty_cons, Hne. f_equal. now apply IH.
Qed.

Lemma trimEnd_spaceFree w : spaceFree w = true -> trimEnd w = w.
Proof.
  induction w as [|c w IH]; intros H; [reflexivity|]. simpl in *.
  apply andb_true_iff in H as [Hc Hw]. apply negb_true_iff in Hc.
  rewrite IH by exact Hw. destruct w; [now rewrite Hc|reflexivity].
Qed.

Lemma trimEnd_append a b :
  b <> EmptyString -> trimEnd b = b -> trimEnd (a ++ b) = a ++ b.
Proof.
  intros Hne Hb. induction a as [|c a IH]; [exact Hb|]. simpl. rewrite IH.
  destruct (a ++ b) eqn:E; [|reflexivity].
  destruct a; simpl in E; [congruence|discriminate].
Qed.

Lemma join_nonempty w ws : w <> EmptyString -> join " " (w :: ws) <> EmptyString.
Proof.
  intros H. destruct ws; cbn [join]; [exact H|]. now apply append_nonempty_l.
Qed.

Lemma trim_join ws : Forall solid ws -> trim (join " " ws) = join " " ws.
Proof.
  intros H. destruct ws as [|w ws]; [reflexivity|].
  assert (Hend : trimEnd (join " " (w :: ws)) = join " " (w :: ws)).
  { clear -H. induction H as [|v vs Hv Hvs IH]; [reflexivity|].
    destruct vs as [|v2 vs]; [now apply trimEnd_spaceFree, Hv|].
    change (join " " (v :: v2 :: vs)) with (v ++ String " " (join " " (v2 :: vs))).
    apply trimEnd_append; [discriminate|].
    inversion Hvs as [|? ? Hv2 _]; subst.
    change (String " " (join " " (v2 :: vs))) with (" " ++ join " " (v2 :: vs)).
    apply trimEnd_append; [|exact IH]. apply join_nonempty, Hv2. }
  unfold trim.
  inversion H as [|? ? [Hne Hw] _]; subst.
  destruct w as [|c w]; [congruence|]. simpl in Hw.
  apply andb_true_iff in Hw as [Hc _]. apply negb_true_iff in Hc.
  assert (Hstart : exists r, join " " (String c w :: ws) = String c r).
  { destruct ws; cbn [join]; simpl; eauto. }
  destruct Hstart as [r Er]. rewrite Er in *.
  now rewrite (trimStart_head c r Hc).
Qed.

Lemma splitRuns_started s : forall current,
  current <> EmptyString ->
  nonEmpty (Utils.splitRuns s current false) <> [].
Proof.
  induction s as [|c r IH]; intros current H; cbn [Utils.splitRuns].
  - rewrite nonEmpty_cons. apply String.eqb_neq in H. now rewrite H.
  - destruct (isWhiteSpace c).
    + rewrite nonEmpty_cons. apply String.eqb_neq in H. now rewrite H.
    + apply IH. now apply append_nonempty_r.
Qed.

Lemma formatClassName_words (className : string) :
  Utils.formatClassName (Some className)
  = join " " (nonEmpty (Utils.splitWhiteSpace (trim className))).
Proof. destruct className; reflexivity. Qed.

(** X29: what [formatClassName] returns is a list of class names, each
    non-empty and free of white space, joined by single spaces; it has no
    white space at its ends, formatting it again changes nothing, and it is
    empty exactly when the argument is absent or blank, that is, when
    [isNonEmptyString] rejects it. *)
Theorem X29_formatClassName_normal_form (className : option string) :
  let formatted := Utils.formatClassName className in
  (exists names, Forall solid names /\ formatted = join " " names)
  /\ trim formatted = formatted
  /\ Utils.formatClassName (Some formatted) = formatted
  /\ (formatted = EmptyString
      <-> match className with
          | Some text => Utils.isNonEmptyString (VStr text) = false
          | None => True
          end).
Proof.
  intros formatted.
  assert (Hnames : exists names, Forall solid names /\ formatted = join " " names).
  { subst formatted. destruct className as [className|]; [|now exists []].
    rewrite formatClassName_words. eexists. split; [|reflexivity].
    now apply splitRuns_solid. }
  destruct Hnames as (names & Hsolid & Hf).
  split; [now exists names|]. split; [|split].
  - rewrite Hf. now apply trim_join.
  - rewrite formatClassName_words, Hf, trim_join by exact Hsolid.
    unfold Utils.splitWhiteSpace. now rewrite splitRuns_join.
  - subst formatted. destruct className as [text|]; [|tauto].
    rewrite formatClassName_words. unfold Utils.isNonEmptyString.
    destruct (trim text) as [|c r] eqn:T; simpl String.length.
    + split; reflexivity.
    + split; [|discriminate]. intros E. exfalso.
      assert (Hc : isWhiteSpace c = false).
      { destruct (trimStart_cases text) as [E0|(c' & r' & E' & W)];
          unfold trim in T; [rewrite E0 in T; discriminate|].
        rewrite E' in T. destruct (trimEnd_head c' r' W) as [r'' E''].
        rewrite E'' in T. now injection T as <- _. }
      unfold Utils.splitWhiteSpace in E. cbn [Utils.splitRuns] in E. rewrite Hc in E.
      destruct (nonEmpty _) as [|w ws] eqn:N.
      * revert N. apply splitRuns_started. discriminate.
      * assert (Hw : Forall solid (w :: ws)).
        { rewrite <- N. apply splitRuns_solid. simpl. now rewrite Hc. }
        inversion Hw as [|? ? [Hne _] _]; subst.
        revert E. now apply join_nonempty.
Qed.
